(** * kusanagi: the episodic learner and the PDDP backward pass

    A shallow embedding of [ghost/learners/EpisodicLearner.py] and of
    [kusanagi/ghost/algorithms/PDDP/pddp.py].

    The learner is stateful Python: objects become records, methods become
    functions that thread the record, exceptions become the [Raise] branch of
    [result], and console traffic becomes a list of [event]s.  Numbers the
    learner handles at run time (time stamps, states, horizons) are IEEE
    binary64 values, so they are primitive floats here.  The PDDP functions
    build symbolic tensor expressions; their algebra is modelled over the
    reals, with tensors as index functions.  What the compiled expressions
    of [propagate_state] and [forward_pass] compute is modelled a second
    time over an arithmetic without laws, of which binary64 is an
    instance. *)

From Stdlib Require Import ZArith List Bool String Ascii Lia.
From Stdlib Require Import Floats.
From Stdlib Require Import Reals Lra.
Import ListNotations.

Set Implicit Arguments.

(** ** Python values and exceptions *)

Module Py.

Inductive exn : Type :=
| ValueError
| IOError
| IndexError
| AttributeError
| NameError
| ZeroDivisionError
| OverflowError
| LinAlgError.

Inductive result (A : Type) : Type :=
| Ok (a : A)
| Raise (e : exn).

Arguments Ok {A} a.
Arguments Raise {A} e.

Definition bind {A B : Type} (c : result A) (k : A -> result B) : result B :=
  match c with
  | Ok a => k a
  | Raise e => Raise e
  end.

Definition raises {A : Type} (c : result A) : bool :=
  match c with
  | Ok _ => false
  | Raise _ => true
  end.

(** [l[i]] with Python's wrap-around of negative indices. *)
Definition getitem {A : Type} (l : list A) (i : Z) : result A :=
  let n := Z.of_nat (List.length l) in
  let j := if (i <? 0)%Z then (i + n)%Z else i in
  if ((j <? 0) || (n <=? j))%Z%bool then Raise IndexError
  else match nth_error l (Z.to_nat j) with
       | Some a => Ok a
       | None => Raise IndexError
       end.

(** [l[:k]]: a negative bound counts from the end, out-of-range bounds
    are clipped. *)
Definition slice_to {A : Type} (l : list A) (k : Z) : list A :=
  let n := Z.of_nat (List.length l) in
  let j := if (k <? 0)%Z then Z.max 0 (k + n) else k in
  firstn (Z.to_nat j) l.

(** [str.upper] on ASCII letters. *)
Definition upper_ascii (c : ascii) : ascii :=
  let n := nat_of_ascii c in
  if ((97 <=? n) && (n <=? 122))%nat%bool then ascii_of_nat (n - 32) else c.

Fixpoint upper (s : string) : string :=
  match s with
  | EmptyString => EmptyString
  | String c s' => String (upper_ascii c) (upper s')
  end.

(** [x in l] for a list of strings. *)
Definition str_in (x : string) (l : list string) : bool :=
  existsb (String.eqb x) l.

(** [int(np.ceil(x))]: the exact ceiling of a binary64 value; [int] raises
    on an infinity or a NaN. *)
Definition int_ceil (x : float) : result Z :=
  match Prim2SF x with
  | S754_zero _ => Ok 0%Z
  | S754_finite s m e =>
      let sm := if s then Z.neg m else Z.pos m in
      if (0 <=? e)%Z then Ok (sm * 2 ^ e)%Z
      else Ok (- ((- sm) / 2 ^ (- e)))%Z
  | S754_infinity _ => Raise OverflowError
  | S754_nan => Raise ValueError
  end.

(** [a / b] on Python floats. *)
Definition truediv (a b : float) : result float :=
  if PrimFloat.eqb b 0%float then Raise ZeroDivisionError
  else Ok (a / b)%float.

(** [xrange(n)]: the count must fit a C long, whose largest value is
    [sys.maxint]; a count that is not positive gives no pass. *)
Definition xrange (maxint n : Z) : result nat :=
  if ((maxint <? n) || (n <? - maxint - 1))%Z%bool then Raise OverflowError
  else Ok (Z.to_nat n).

End Py.

Import Py.

Notation "x <- c ;; k" := (Py.bind c (fun x => k))
  (at level 61, c at next level, right associativity).

(** ** Data model of the episodic learner *)

Module Data.

Definition vec : Type := list float.
Definition matrix : Type := list (list float).

(** A numeric array, flattened, with its shape. *)
Record ndarray : Type := { shape : list nat; data : list float }.

(** Policy parameters: an ordered collection of arrays. *)
Definition Params : Type := list ndarray.

(** An attribute of a Python object: [hasattr] tells the two apart, and
    reading an absent one raises [AttributeError]. *)
Inductive attr (A : Type) : Type :=
| Absent
| Present (v : A).

Arguments Absent {A}.
Arguments Present {A} v.

Definition getattr {A : Type} (a : attr A) : result A :=
  match a with
  | Absent => Raise AttributeError
  | Present v => Ok v
  end.

Definition hasattr {A : Type} (a : attr A) : bool :=
  match a with
  | Absent => false
  | Present _ => true
  end.

(** The immediate cost stored with a sample: the literal [0] of the
    no-cost branch, or the output of the compiled evaluator. *)
Inductive cost_sample : Type :=
| CostInt (z : Z)
| CostEval (c : list float).

Definition CostEvaluator : Type := vec -> matrix -> list float.

(** Modelled from the spec: the class [ExperienceDataset] is imported from
    [ghost.learners.ExperienceDataset] and is not part of the sources at
    hand.  The fields are the attributes the learner reads and writes; the
    time-aligned arrays hold one entry per episode, each entry the list of
    that episode's samples, and [episode_labels] holds the learning
    iteration every entry was opened with. *)
Record ExperienceDataset : Type := mkExperience {
  time_stamps : list (list float);
  states : list (list vec);
  actions : list (list vec);
  immediate_cost : list (list cost_sample);
  curr_episode : Z;
  episode_labels : list Z;
  policy_history : attr (list Params)
}.

(** Modelled from the spec: [new_episode(random, learning_iteration)] opens
    a new episode tagged with the originating iteration. *)
Definition new_episode (random : bool) (learning_iteration : Z)
    (e : ExperienceDataset) : ExperienceDataset :=
  mkExperience (time_stamps e ++ [[]]) (states e ++ [[]])
               (actions e ++ [[]]) (immediate_cost e ++ [[]])
               (curr_episode e + 1)%Z
               (episode_labels e ++ [learning_iteration])
               (policy_history e).

(** Append [x] to the last inner list; Python's [l[-1].append(x)]. *)
Fixpoint push_last {A : Type} (x : A) (l : list (list A)) : result (list (list A)) :=
  match l with
  | [] => Raise IndexError
  | [ep] => Ok [ep ++ [x]]
  | ep :: rest => r <- push_last x rest ;; Ok (ep :: r)
  end.

(** Modelled from the spec: [add_sample] / [append] add one timestep to the
    current episode. *)
Definition add_sample (t : float) (x_t u_t : vec) (c_t : cost_sample)
    (e : ExperienceDataset) : result ExperienceDataset :=
  ts <- push_last t (time_stamps e) ;;
  xs <- push_last x_t (states e) ;;
  us <- push_last u_t (actions e) ;;
  cs <- push_last c_t (immediate_cost e) ;;
  Ok (mkExperience ts xs us cs (curr_episode e) (episode_labels e)
                   (policy_history e)).

(** What the learner writes to the console, and the blocking read of
    [raw_input()]. *)
Inductive message : Type :=
| MsgWarnNoIteration
| MsgLoadingFrom (k : Z)
| MsgLoadingState
| MsgInitNew
| MsgCompilingCost
| MsgNoCost
| MsgSavingState
| MsgStartRun
| MsgRunningFor (H : float)
| MsgDoneRun
| MsgTraining (iteration : Z)
| MsgInitialValue (v : float)
| MsgUsing (method : string)
| MsgFailed (method : string)
| MsgDoneTraining (v : float)
| MsgCompilingOptimizer
| MsgCurrentValue (v : float) (n_evals : Z)
| MsgUnknownMethod (method : string).

Inductive event : Type :=
| Print (m : message)
| RawInput.

(** The positional state blob of [get_state] / [set_state]. *)
Record LearnerState : Type := mkState {
  st_n_episodes : Z;
  st_angle_idims : list nat;
  st_async_plant : bool;
  st_cost : option CostEvaluator;
  st_H : float;
  st_discount : float;
  st_learning_iteration : Z;
  st_n_evals : Z
}.

End Data.

Import Data.

(** ** Collaborators of the learner

    The plant, the policy, the utilities, the numerical library and the
    files on disk are outside the two source files; the learner only calls
    them.  Each is an interface here. *)

(** The plant capability, NumPy's random generator and Cholesky routine,
    the policy's evaluation and [utils.gTrig_np]; the state that a compiled
    stochastic update carries from one call to the next (momenta, running
    averages); and the interpreter's [sys.maxint], the largest C long,
    which is at least [2^31 - 1] on every platform. *)
Class Robot : Type := {
  Plant : Type;
  plant_dt : Plant -> float;
  plant_noise : Plant -> option matrix;
  plant_done : Plant -> bool;
  plant_start : Plant -> Plant;
  plant_stop : Plant -> Plant;
  plant_step : Plant -> Plant;
  plant_apply_control : vec -> Plant -> Plant;
  plant_get_state : Plant -> (vec * float) * Plant;
  Rng : Type;
  randn : nat -> Rng -> vec * Rng;
  rand_policy_evaluate : vec -> vec -> Rng -> vec * Rng;
  policy_evaluate : Params -> vec -> vec;
  gTrig_np : vec -> list nat -> vec;
  cholesky_factor : matrix -> result matrix;
  OptState : Type;
  sys_maxint : Z;
  sys_maxint_min : (2147483647 <= sys_maxint)%Z
}.

(** A run of [scipy.optimize.minimize]: the minimizer asks for the loss and
    its gradient at finitely many points, then returns a point or raises. *)
Inductive MinRun : Type :=
| Evaluate (x : list float) (k : float -> list float -> MinRun)
| Return (x : list float)
| Throw (e : exn).

(** The value functional of the subclass, the parameter (un)flattening of
    [utils], the minimizer, and the stochastic update: compiling it for a
    method and the current parameters gives its initial state, and one call
    returns the value and writes the parameters and its own state. *)
Class Trainer {robot : Robot} : Type := {
  value : ExperienceDataset -> Params -> float;
  value_and_grad : ExperienceDataset -> Params -> float * Params;
  wrap_params : Params -> list float;
  unwrap_params : list float -> list (list nat) -> Params;
  minimize : string -> list float -> list (list nat) -> float -> Z -> MinRun;
  compile_train_fn : string -> Params -> OptState;
  train_fn_step : OptState -> ExperienceDataset -> Params
                  -> float * Params * OptState
}.

(** What is on disk when the learner is constructed.  [state_file] is [None]
    when opening the state archive raises [IOError]. *)
Class Storage : Type := {
  policy_load : Params -> Params;
  experience_load : ExperienceDataset -> ExperienceDataset;
  fresh_experience : ExperienceDataset;
  state_file : option LearnerState
}.

(** ** The learner object *)

Module EpisodicLearner.

Section WithRobot.
Context {robot : Robot}.

(** [self], together with the two pieces of process state the methods
    touch: the console and NumPy's global random generator. *)
Record Learner : Type := mkLearner {
  plant : Plant;
  policy : Params;
  policy_maxU : vec;
  cost : option CostEvaluator;
  evaluate_cost : attr (option CostEvaluator);
  experience : ExperienceDataset;
  learn_from_iteration : Z;
  n_episodes : Z;
  angle_idims : list nat;
  H : float;
  discount : float;
  max_evals : Z;
  conv_thr : float;
  min_method : string;
  async_plant : bool;
  learning_iteration : Z;
  n_evals : Z;
  best_p : attr (float * Params);
  train_fn : attr OptState;
  state_changed : bool;
  console : list event;
  rng : Rng
}.

Definition set_plant (v : Plant) (s : Learner) : Learner :=
  mkLearner v (policy s) (policy_maxU s) (cost s) (evaluate_cost s)
    (experience s) (learn_from_iteration s) (n_episodes s) (angle_idims s)
    (H s) (discount s) (max_evals s) (conv_thr s) (min_method s)
    (async_plant s) (learning_iteration s) (n_evals s) (best_p s)
    (train_fn s) (state_changed s) (console s) (rng s).

Definition set_policy (v : Params) (s : Learner) : Learner :=
  mkLearner (plant s) v (policy_maxU s) (cost s) (evaluate_cost s)
    (experience s) (learn_from_iteration s) (n_episodes s) (angle_idims s)
    (H s) (discount s) (max_evals s) (conv_thr s) (min_method s)
    (async_plant s) (learning_iteration s) (n_evals s) (best_p s)
    (train_fn s) (state_changed s) (console s) (rng s).

Definition set_evaluate_cost (v : attr (option CostEvaluator)) (s : Learner) : Learner :=
  mkLearner (plant s) (policy s) (policy_maxU s) (cost s) v
    (experience s) (learn_from_iteration s) (n_episodes s) (angle_idims s)
    (H s) (discount s) (max_evals s) (conv_thr s) (min_method s)
    (async_plant s) (learning_iteration s) (n_evals s) (best_p s)
    (train_fn s) (state_changed s) (console s) (rng s).

Definition set_experience (v : ExperienceDataset) (s : Learner) : Learner :=
  mkLearner (plant s) (policy s) (policy_maxU s) (cost s) (evaluate_cost s)
    v (learn_from_iteration s) (n_episodes s) (angle_idims s)
    (H s) (discount s) (max_evals s) (conv_thr s) (min_method s)
    (async_plant s) (learning_iteration s) (n_evals s) (best_p s)
    (train_fn s) (state_changed s) (console s) (rng s).

Definition set_n_episodes (v : Z) (s : Learner) : Learner :=
  mkLearner (plant s) (policy s) (policy_maxU s) (cost s) (evaluate_cost s)
    (experience s) (learn_from_iteration s) v (angle_idims s)
    (H s) (discount s) (max_evals s) (conv_thr s) (min_method s)
    (async_plant s) (learning_iteration s) (n_evals s) (best_p s)
    (train_fn s) (state_changed s) (console s) (rng s).

Definition set_H (v : float) (s : Learner) : Learner :=
  mkLearner (plant s) (policy s) (policy_maxU s) (cost s) (evaluate_cost s)
    (experience s) (learn_from_iteration s) (n_episodes s) (angle_idims s)
    v (discount s) (max_evals s) (conv_thr s) (min_method s)
    (async_plant s) (learning_iteration s) (n_evals s) (best_p s)
    (train_fn s) (state_changed s) (console s) (rng s).

Definition set_learning_iteration (v : Z) (s : Learner) : Learner :=
  mkLearner (plant s) (policy s) (policy_maxU s) (cost s) (evaluate_cost s)
    (experience s) (learn_from_iteration s) (n_episodes s) (angle_idims s)
    (H s) (discount s) (max_evals s) (conv_thr s) (min_method s)
    (async_plant s) v (n_evals s) (best_p s)
    (train_fn s) (state_changed s) (console s) (rng s).

Definition set_n_evals (v : Z) (s : Learner) : Learner :=
  mkLearner (plant s) (policy s) (policy_maxU s) (cost s) (evaluate_cost s)
    (experience s) (learn_from_iteration s) (n_episodes s) (angle_idims s)
    (H s) (discount s) (max_evals s) (conv_thr s) (min_method s)
    (async_plant s) (learning_iteration s) v (best_p s)
    (train_fn s) (state_changed s) (console s) (rng s).

Definition set_best_p (v : attr (float * Params)) (s : Learner) : Learner :=
  mkLearner (plant s) (policy s) (policy_maxU s) (cost s) (evaluate_cost s)
    (experience s) (learn_from_iteration s) (n_episodes s) (angle_idims s)
    (H s) (discount s) (max_evals s) (conv_thr s) (min_method s)
    (async_plant s) (learning_iteration s) (n_evals s) v
    (train_fn s) (state_changed s) (console s) (rng s).

Definition set_train_fn (v : attr OptState) (s : Learner) : Learner :=
  mkLearner (plant s) (policy s) (policy_maxU s) (cost s) (evaluate_cost s)
    (experience s) (learn_from_iteration s) (n_episodes s) (angle_idims s)
    (H s) (discount s) (max_evals s) (conv_thr s) (min_method s)
    (async_plant s) (learning_iteration s) (n_evals s) (best_p s)
    v (state_changed s) (console s) (rng s).

Definition set_state_changed (v : bool) (s : Learner) : Learner :=
  mkLearner (plant s) (policy s) (policy_maxU s) (cost s) (evaluate_cost s)
    (experience s) (learn_from_iteration s) (n_episodes s) (angle_idims s)
    (H s) (discount s) (max_evals s) (conv_thr s) (min_method s)
    (async_plant s) (learning_iteration s) (n_evals s) (best_p s)
    (train_fn s) v (console s) (rng s).

Definition set_rng (v : Rng) (s : Learner) : Learner :=
  mkLearner (plant s) (policy s) (policy_maxU s) (cost s) (evaluate_cost s)
    (experience s) (learn_from_iteration s) (n_episodes s) (angle_idims s)
    (H s) (discount s) (max_evals s) (conv_thr s) (min_method s)
    (async_plant s) (learning_iteration s) (n_evals s) (best_p s)
    (train_fn s) (state_changed s) (console s) v.

(** [utils.print_with_stamp] and [raw_input]. *)
Definition emit (ev : event) (s : Learner) : Learner :=
  mkLearner (plant s) (policy s) (policy_maxU s) (cost s) (evaluate_cost s)
    (experience s) (learn_from_iteration s) (n_episodes s) (angle_idims s)
    (H s) (discount s) (max_evals s) (conv_thr s) (min_method s)
    (async_plant s) (learning_iteration s) (n_evals s) (best_p s)
    (train_fn s) (state_changed s) (console s ++ [ev]) (rng s).

Definition print_with_stamp (m : message) (s : Learner) : Learner :=
  emit (Print m) s.

Definition raw_input (s : Learner) : Learner := emit RawInput s.

End WithRobot.

(** *** Construction, [load], [save], [init_cost] *)

(** The entries of the parameter dictionary that [__init__] reads with a
    default. *)
Record Config : Type := mkConfig {
  cfg_angle_dims : list nat;
  cfg_H : option float;
  cfg_discount : option float;
  cfg_max_evals : option Z;
  cfg_conv_thr : option float;
  cfg_min_method : option string
}.

Definition get_default {A : Type} (o : option A) (d : A) : A :=
  match o with
  | Some a => a
  | None => d
  end.

(** [while labels[entry_num] <cond>: entry_num += 1], started with [labels]
    the part of the list from [entry_num] on.  Running off the end of the
    list is an [IndexError]. *)
Fixpoint advance_while (cond : Z -> bool) (labels : list Z) (entry_num : nat)
    : result nat :=
  match labels with
  | [] => Raise IndexError
  | l :: rest =>
      if cond l then advance_while cond rest (S entry_num) else Ok entry_num
  end.

Section WithStorage.
Context {robot : Robot} {storage : Storage}.

Definition set_state (st : LearnerState) (s : Learner) : Learner :=
  mkLearner (plant s) (policy s) (policy_maxU s) (st_cost st)
    (evaluate_cost s) (experience s) (learn_from_iteration s)
    (st_n_episodes st) (st_angle_idims st) (st_H st) (st_discount st)
    (max_evals s) (conv_thr s) (min_method s) (st_async_plant st)
    (st_learning_iteration st) (st_n_evals st) (best_p s) (train_fn s)
    (state_changed s) (console s) (rng s).

Definition get_state (s : Learner) : LearnerState :=
  mkState (n_episodes s) (angle_idims s) (async_plant s) (cost s) (H s)
          (discount s) (learning_iteration s) (n_evals s).

(** [load]: the policy and the experience load themselves, then the state
    archive is opened.  The learner is returned also when opening fails,
    since the two loads have already happened. *)
Definition load (s : Learner) : Learner * result unit :=
  let s := set_policy (policy_load (policy s)) s in
  let s := set_experience (experience_load (experience s)) s in
  match state_file with
  | None => (s, Raise IOError)
  | Some st =>
      let s := print_with_stamp MsgLoadingState s in
      let s := set_state st s in
      (set_state_changed false s, Ok tt)
  end.

Definition init_cost (s : Learner) : Learner :=
  match cost s with
  | Some c =>
      let s := print_with_stamp MsgCompilingCost s in
      set_evaluate_cost (Present (Some c)) s
  | None => print_with_stamp MsgNoCost s
  end.

(** Lines 73-87 of [__init__]: revert the datasets and the policy to what
    they were at [learn_from_iteration].  [labels] is
    [experience.episode_labels], read from the constructor's argument. *)
Definition revert_to_iteration (labels : list Z) (history : list Params)
    (s : Learner) : result Learner :=
  let k := learn_from_iteration s in
  let s := print_with_stamp (MsgLoadingFrom k) s in
  n1 <- advance_while (fun l => negb (l =? k)%Z) labels 0 ;;
  n2 <- advance_while (fun l => (l =? k)%Z) (skipn n1 labels) n1 ;;
  let entry_num := Z.of_nat n2 in
  let e := experience s in
  let e := mkExperience (slice_to (time_stamps e) entry_num)
                        (slice_to (states e) entry_num)
                        (slice_to (actions e) entry_num)
                        (slice_to (immediate_cost e) entry_num)
                        (entry_num - 1)%Z
                        (episode_labels e)
                        (policy_history e) in
  let s := set_experience e s in
  s <- (if negb (k =? 0)%Z then
          p <- getitem history (k - 1)%Z ;;
          let s := set_policy p s in
          let e := experience s in
          Ok (set_experience
                (mkExperience (time_stamps e) (states e) (actions e)
                              (immediate_cost e) (curr_episode e)
                              (episode_labels e)
                              (Present (slice_to history k))) s)
        else Ok s) ;;
  Ok (set_learning_iteration (k + 1)%Z s).

(** [__init__].  [experience_arg] is the constructor's [experience]
    argument ([None] makes the learner build its own dataset). *)
Definition init (params : Config) (plant0 : Plant) (policy0 : Params)
    (maxU : vec) (cost_func : option CostEvaluator)
    (experience_arg : option ExperienceDataset) (async : bool)
    (learn_from : Z) (rng0 : Rng) : result Learner :=
  let s :=
    mkLearner plant0 policy0 maxU cost_func Absent
      (match experience_arg with
       | None => fresh_experience
       | Some e => e
       end)
      learn_from 0%Z (cfg_angle_dims params)
      (get_default (cfg_H params) 10%float)
      (get_default (cfg_discount params) 1%float)
      (get_default (cfg_max_evals params) 120%Z)
      (get_default (cfg_conv_thr params) 0x1.19799812dea11p-40%float)
      (get_default (cfg_min_method params) "ADAM"%string)
      async 0%Z 0%Z Absent Absent false [] rng0 in
  match load s with
  | (s, Raise IOError) =>
      let s := print_with_stamp MsgInitNew s in
      Ok (set_state_changed false (init_cost s))
  | (_, Raise e) => Raise e
  | (s, Ok _) =>
      s <- (if negb (learn_from =? -1)%Z then
              match policy_history (experience s) with
              | Absent => Ok s
              | Present history =>
                  if (Z.of_nat (List.length history) <=? learn_from + 1)%Z then
                    let s := print_with_stamp MsgWarnNoIteration s in
                    Ok (raw_input s)
                  else
                    match experience_arg with
                    | None => Raise AttributeError
                    | Some _ =>
                        revert_to_iteration (episode_labels (experience s))
                                            history s
                    end
              end
            else Ok s) ;;
      Ok (set_state_changed false s)
  end.

(** [save].  Writing the archives leaves the learner as it is; the
    history entry and the dirty flag are what changes. *)
Definition save (s : Learner) : Learner :=
  let e := experience s in
  let s :=
    match policy_history e with
    | Present history =>
        set_experience
          (mkExperience (time_stamps e) (states e) (actions e)
                        (immediate_cost e) (curr_episode e)
                        (episode_labels e)
                        (Present (history ++ [policy s]))) s
    | Absent => s
    end in
  if state_changed s then
    let s := print_with_stamp MsgSavingState s in
    set_state_changed false s
  else s.

End WithStorage.

(** *** [apply_controller] *)

Section Rollout.
Context {robot : Robot}.

(** [np.linalg.cholesky(a)].  [None] becomes a 0-dimensional object array,
    which the routine rejects. *)
Definition np_linalg_cholesky (a : option matrix) : result matrix :=
  match a with
  | None => Raise LinAlgError
  | Some m => cholesky_factor m
  end.

Definition vadd (a b : vec) : vec :=
  map (fun ab => (fst ab + snd ab)%float) (combine a b).

(** [v.dot(M)] for a vector and a matrix given by its rows. *)
Definition vdot (v : vec) (M : matrix) : vec :=
  fold_left (fun acc vr => vadd acc (map (fun m => (fst vr * m)%float) (snd vr)))
            (combine v M)
            (map (fun _ => 0%float) (hd [] M)).

Definition zeros_like (v : vec) : vec := map (fun _ => 0%float) v.

Definition zeros (n : nat) : matrix := repeat (repeat 0%float n) n.

(** [if self.plant.noise is not None:
       x_t = x_t + np.random.randn(x_t.shape[0]).dot(L_noise)] *)
Definition randomize_state (L_noise : matrix) (x_t : vec) (s : Learner)
    : vec * Learner :=
  match plant_noise (plant s) with
  | Some _ =>
      let (z, g) := randn (List.length x_t) (rng s) in
      (vadd x_t (vdot z L_noise), set_rng g s)
  | None => (x_t, s)
  end.

(** [policy.evaluate(x_t_)[0].flatten()], with [policy] the learner's own
    policy or a [RandPolicy(self.policy.maxU)]. *)
Definition evaluate_policy (random_controls : bool) (x_t_ : vec) (s : Learner)
    : vec * Learner :=
  if random_controls then
    let (u, g) := rand_policy_evaluate (policy_maxU s) x_t_ (rng s) in
    (u, set_rng g s)
  else (policy_evaluate (policy s) x_t_, s).

(** The [if self.evaluate_cost is not None: ... else: ...] block that
    stores one sample.  Reading the attribute comes first. *)
Definition record_sample (t : float) (x_t u_t : vec) (Sx_t : matrix)
    (s : Learner) : result Learner :=
  ec <- getattr (evaluate_cost s) ;;
  e <- match ec with
       | Some f => add_sample t x_t u_t (CostEval (f x_t Sx_t)) (experience s)
       | None => add_sample t x_t u_t (CostInt 0) (experience s)
       end ;;
  Ok (set_experience e s).

(** The local variables of the rollout loop.  [lu_t] is unbound until the
    first pass through the body. *)
Record Locals : Type := mkLocals {
  lx_t : vec;
  lt : float;
  lu_t : option vec
}.

(** One pass through the body of the [for] loop, up to the test of
    [self.plant.done].  The pacing ([time.sleep]) only spends wall-clock
    time and is left out. *)
Definition rollout_body (random_controls : bool) (L_noise Sx_t : matrix)
    (ls : Locals * Learner) : result (Locals * Learner) :=
  let (l, s) := ls in
  let x_t_ := gTrig_np (lx_t l) (angle_idims s) in
  let (u_t, s) := evaluate_policy random_controls x_t_ s in
  let s := set_plant (plant_apply_control u_t (plant s)) s in
  s <- record_sample (lt l) (lx_t l) u_t Sx_t s ;;
  let s := if negb (async_plant s) then set_plant (plant_step (plant s)) s
           else s in
  let '((x_t, t), p) := plant_get_state (plant s) in
  let s := set_plant p s in
  let (x_t, s) := randomize_state L_noise x_t s in
  Ok (mkLocals x_t t (Some u_t), s).

(** [for i in xrange(H_steps): ...; if self.plant.done: break] *)
Fixpoint rollout (H_steps : nat) (random_controls : bool)
    (L_noise Sx_t : matrix) (ls : Locals * Learner)
    : result (Locals * Learner) :=
  match H_steps with
  | O => Ok ls
  | S n =>
      ls <- rollout_body random_controls L_noise Sx_t ls ;;
      if plant_done (plant (snd ls)) then Ok ls
      else rollout n random_controls L_noise Sx_t ls
  end.

(** Everything up to the end of the [for] loop. *)
Definition apply_controller_loop (H_arg : option float)
    (random_controls : bool) (s : Learner)
    : result (matrix * (Locals * Learner)) :=
  let s := print_with_stamp MsgStartRun s in
  let Hh := match H_arg with
            | None => H s
            | Some h => h
            end in
  let s := print_with_stamp (MsgRunningFor Hh) s in
  let s := set_experience
             (new_episode random_controls (learning_iteration s)
                          (experience s)) s in
  let s := if async_plant s then set_plant (plant_start (plant s)) s
           else s in
  let '((x_t, t0), p) := plant_get_state (plant s) in
  let s := set_plant p s in
  let Sx_t := zeros (List.length x_t) in
  L_noise <- np_linalg_cholesky (plant_noise (plant s)) ;;
  let (x_t, s) := randomize_state L_noise x_t s in
  q <- truediv Hh (plant_dt (plant s)) ;;
  H_steps <- int_ceil q ;;
  n <- xrange sys_maxint H_steps ;;
  ls <- rollout n random_controls L_noise Sx_t (mkLocals x_t t0 None, s) ;;
  Ok (Sx_t, ls).

Definition apply_controller (H_arg : option float) (random_controls : bool)
    (s : Learner) : result Learner :=
  r <- apply_controller_loop H_arg random_controls s ;;
  let '(Sx_t, (l, s)) := r in
  (* add last state to experience *)
  u_t <- match lu_t l with
         | Some u => Ok (zeros_like u)
         | None => Raise NameError
         end ;;
  s <- record_sample (lt l) (lx_t l) u_t Sx_t s ;;
  _ <- getitem (immediate_cost (experience s)) (-1) ;;
  let s := print_with_stamp MsgDoneRun s in
  let s := set_plant (plant_stop (plant s)) s in
  Ok (set_n_episodes (n_episodes s + 1)%Z s).

End Rollout.

(** *** [loss] and [train_policy] *)

Definition DETERMINISTIC_MIN_METHODS : list string :=
  ["L-BFGS-B"; "TNC"; "BFGS"; "SLSQP"; "CG"]%string.

(** The keys of [STOCHASTIC_MIN_METHODS]. *)
Definition STOCHASTIC_MIN_METHODS : list string :=
  ["SGD"; "MOMENTUM"; "NESTEROV"; "NESTEROV_MOMENTUM"; "ADAGRAD"; "RMSPROP";
   "ADADELTA"; "ADAM"]%string.

(** [min_methods = [min_method]], then every deterministic method that is
    not in the list yet is appended. *)
Definition fallback_methods (min_method : string) : list string :=
  fold_left (fun min_methods m =>
               if negb (str_in m min_methods) then min_methods ++ [m]
               else min_methods)
            DETERMINISTIC_MIN_METHODS [min_method].

Section Training.
Context {robot : Robot} {trainer : Trainer}.

(** [loss(policy_parameters, parameter_shapes)] *)
Definition loss (policy_parameters : list float)
    (parameter_shapes : list (list nat)) (s : Learner)
    : result ((float * list float) * Learner) :=
  let p := unwrap_params policy_parameters parameter_shapes in
  let s := set_policy p s in
  let (v, dv) := value_and_grad (experience s) (policy s) in
  let dv := wrap_params dv in
  b <- getattr (best_p s) ;;
  let s := if (v <? fst b)%float then set_best_p (Present (v, p)) s else s in
  let s := set_n_evals (n_evals s + 1)%Z s in
  let s := print_with_stamp (MsgCurrentValue v (n_evals s)) s in
  Ok ((v, dv), s).

(** A call of [minimize(m_loss, x0, jac=m_loss.derivative, ...)]: every
    evaluation the minimizer asks for goes through [loss], which writes to
    the learner.  The learner is returned also when the call raises. *)
Fixpoint run_minimize (r : MinRun) (parameter_shapes : list (list nat))
    (s : Learner) : Learner * result (list float) :=
  match r with
  | Evaluate x k =>
      match loss x parameter_shapes s with
      | Ok ((v, dv), s) => run_minimize (k v dv) parameter_shapes s
      | Raise e => (s, Raise e)
      end
  | Return x => (s, Ok x)
  | Throw e => (s, Raise e)
  end.

(** [for i in range(len(min_methods)): try: ... break
     except ValueError: ...], with [p0] the current start point. *)
Fixpoint try_methods (min_methods : list string) (p0 : Params)
    (parameter_shapes : list (list nat)) (s : Learner) : result Learner :=
  match min_methods with
  | [] => Ok s
  | m :: rest =>
      let s := print_with_stamp (MsgUsing m) s in
      match run_minimize
              (minimize m (wrap_params p0) parameter_shapes (conv_thr s)
                        (max_evals s))
              parameter_shapes s with
      | (s, Ok x) =>
          (* break the loop since we succeeded *)
          Ok (set_policy (unwrap_params x parameter_shapes) s)
      | (s, Raise ValueError) =>
          let s := print_with_stamp (MsgFailed m) s in
          b <- getattr (best_p s) ;;
          let p0 := snd b in
          try_methods rest p0 parameter_shapes (set_policy p0 s)
      | (_, Raise e) => Raise e
      end
  end.

(** [for i in xrange(self.max_evals): ...] of the stochastic branch. *)
Fixpoint stochastic_loop (n : nat) (s : Learner) : result Learner :=
  match n with
  | O => Ok s
  | S n' =>
      fn <- getattr (train_fn s) ;;
      let '(v, p, fn) := train_fn_step fn (experience s) (policy s) in
      let s := set_train_fn (Present fn) s in
      let s := set_policy p s in
      b <- getattr (best_p s) ;;
      let s := if (v <? fst b)%float then set_best_p (Present (v, p)) s
               else s in
      let s := set_n_evals (n_evals s + 1)%Z s in
      let s := print_with_stamp (MsgCurrentValue v (n_evals s)) s in
      stochastic_loop n' s
  end.

Definition train_policy (H_arg : option float) (s : Learner)
    : result Learner :=
  let s := match H_arg with
           | Some h => set_H h s
           | None => s
           end in
  (* optimize value wrt to the policy parameters *)
  let s := set_learning_iteration (learning_iteration s + 1)%Z s in
  let s := set_n_evals 0%Z s in
  let s := print_with_stamp (MsgTraining (learning_iteration s)) s in
  let v0 := value (experience s) (policy s) in
  let s := print_with_stamp (MsgInitialValue v0) s in
  let p0 := policy s in
  let s := set_best_p (Present (v0, p0)) s in
  let min_method := upper (min_method s) in
  s <- (if str_in min_method DETERMINISTIC_MIN_METHODS then
          let parameter_shapes := map shape p0 in
          let min_methods := fallback_methods min_method in
          s <- try_methods min_methods p0 parameter_shapes s ;;
          Ok (print_with_stamp
                (MsgDoneTraining (value (experience s) (policy s))) s)
        else if str_in min_method STOCHASTIC_MIN_METHODS then
          let s := print_with_stamp (MsgUsing min_method) s in
          let s := match train_fn s with
                   | Absent =>
                       let s := print_with_stamp MsgCompilingOptimizer s in
                       set_train_fn
                         (Present (compile_train_fn min_method (policy s))) s
                   | Present _ => s
                   end in
          n <- xrange sys_maxint (max_evals s) ;;
          stochastic_loop n s
        else
          let s := print_with_stamp (MsgUnknownMethod (EpisodicLearner.min_method s)) s in
          Raise ValueError) ;;
  Ok (set_state_changed true s).

End Training.

End EpisodicLearner.

(** ** PDDP: symbolic state propagation and the backward pass *)

Module PDDP.

Local Open Scope R_scope.

(** Symbolic tensors, read as real-valued index functions.  Shapes are
    carried by the operations that need them. *)
Definition tvector : Type := nat -> R.
Definition tmatrix : Type := nat -> nat -> R.

Fixpoint sum_upto (n : nat) (f : nat -> R) : R :=
  match n with
  | O => 0
  | S m => sum_upto m f + f m
  end.

(** [a.dot(b)] for the three shapes that occur; [n] is the contracted
    length. *)
Definition dot_vv (n : nat) (a b : tvector) : R :=
  sum_upto n (fun k => a k * b k).

Definition dot_vm (n : nat) (a : tvector) (B : tmatrix) : tvector :=
  fun j => sum_upto n (fun k => a k * B k j).

Definition dot_mv (n : nat) (A : tmatrix) (b : tvector) : tvector :=
  fun i => sum_upto n (fun k => A i k * b k).

Definition dot_mm (n : nat) (A B : tmatrix) : tmatrix :=
  fun i j => sum_upto n (fun k => A i k * B k j).

(** [A.T] *)
Definition T (A : tmatrix) : tmatrix := fun i j => A j i.

Definition vadd (a b : tvector) : tvector := fun i => a i + b i.
Definition madd (A B : tmatrix) : tmatrix := fun i j => A i j + B i j.

(** Broadcasting: a scalar added to a vector, a vector added to every row
    of a matrix. *)
Definition vadd_scalar (a : tvector) (c : R) : tvector := fun i => a i + c.
Definition madd_row (A : tmatrix) (b : tvector) : tmatrix :=
  fun i j => A i j + b j.

Definition vneg (a : tvector) : tvector := fun i => - a i.
Definition mscale (c : R) (A : tmatrix) : tmatrix := fun i j => c * A i j.

Definition eye : tmatrix := fun i j => if (i =? j)%nat then 1 else 0.
Definition zeros : tmatrix := fun _ _ => 0.
Definition diag (d : tvector) : tmatrix :=
  fun i j => if (i =? j)%nat then d i else 0.

(** [tt.concatenate] of two vectors, and of two matrices along an axis;
    [n] is the extent of the first operand along that axis. *)
Definition concat_v (n : nat) (a b : tvector) : tvector :=
  fun i => if (i <? n)%nat then a i else b (i - n)%nat.

Definition concat_axis1 (n : nat) (A B : tmatrix) : tmatrix :=
  fun i j => if (j <? n)%nat then A i j else B i (j - n)%nat.

Definition concat_axis0 (n : nat) (A B : tmatrix) : tmatrix :=
  fun i j => if (i <? n)%nat then A i j else B (i - n)%nat j.

(** [A[n:]], [A[n:, n:]] and [A[idx]] (rows picked by an index list). *)
Definition rows_from (n : nat) (A : tmatrix) : tmatrix :=
  fun i j => A (i + n)%nat j.

Definition block_from (n : nat) (A : tmatrix) : tmatrix :=
  fun i j => A (i + n)%nat (j + n)%nat.

Definition take_rows (idx : list nat) (A : tmatrix) : tmatrix :=
  fun i j => A (nth i idx O) j.

(** The position of the last occurrence of [i] in [idx], counted from
    [pos]. *)
Fixpoint last_position (i : nat) (idx : list nat) (pos : nat) : option nat :=
  match idx with
  | [] => None
  | k :: rest =>
      match last_position i rest (S pos) with
      | Some p => Some p
      | None => if (k =? i)%nat then Some pos else None
      end
  end.

(** [tt.set_subtensor(A[idx, :], B)] *)
Definition set_rows (idx : list nat) (B A : tmatrix) : tmatrix :=
  fun i j =>
    match last_position i idx O with
    | Some p => B p j
    | None => A i j
    end.

(** Symmetry of the leading [n] by [n] block. *)
Definition symmetric (n : nat) (A : tmatrix) : Prop :=
  forall i j, (i < n)%nat -> (j < n)%nat -> A i j = A j i.

(** The collaborators of [propagate_state]: the angle reparameterization of
    [utils], the policy, the dynamics model, the cost and [solve]. *)
Class Model : Type := {
  D : nat;
  U : nat;
  angle_idims : list nat;
  gTrig2 : tvector -> tmatrix -> list nat -> nat
           -> tvector * tmatrix * option tmatrix;
  u_nominal : nat -> tvector;
  policy_evaluate : tvector -> tmatrix -> nat -> tvector * tmatrix * tmatrix;
  logsn : tvector;
  predict_symbolic : tvector -> tmatrix -> tvector * tmatrix * tmatrix;
  is_SSGP_or_BNN : bool;
  solve : tmatrix -> tmatrix -> tmatrix;
  cost : tvector -> tmatrix -> R * R;
  cost_params_R : option tmatrix
}.

(** The list [mcost, Scost, mx_next, Sx_next, mu, Su] that
    [propagate_state] returns. *)
Record Propagated : Type := mkPropagated {
  mcost : R;
  Scost : R;
  mx_next : tvector;
  Sx_next : tmatrix;
  mu : tvector;
  Su : tmatrix
}.

Section Propagation.
Context {model : Model}.

(** [list(set(range(D)).difference(self.angle_idims))] *)
Definition non_angle_dims : list nat :=
  filter (fun i => negb (existsb (Nat.eqb i) angle_idims)) (seq 0 D).

(** [propagate_state(mx, Sx, t, open_loop)].  A slice [A[:n]] keeps the
    index function as it is.  The update dictionaries are bookkeeping of
    the compiled graph and are left out. *)
Definition propagate_state (mx : tvector) (Sx : tmatrix) (t : nat)
    (open_loop : bool) : result Propagated :=
  let na := List.length angle_idims in
  (* convert angles from input distribution to their complex representation *)
  let '(mxa, Sxa, Ca) := gTrig2 mx Sx angle_idims D in
  let '(mu, Su, Cu) :=
    if open_loop then (u_nominal t, zeros, zeros)
    else
      let sn2 := fun i => exp (2 * logsn i) in
      let Sx_ := madd Sx (diag (fun i => 0.5 * sn2 i)) in
      let '(mxa_, Sxa_, _) := gTrig2 mx Sx_ angle_idims D in
      policy_evaluate mxa_ Sxa_ t in
  (* compute state control joint distribution *)
  let Dxa := (D + na)%nat in
  let mxu := concat_v Dxa mxa mu in
  let q := dot_mm Dxa Sxa Cu in
  let Sxu_up := concat_axis1 Dxa Sxa q in
  let Sxu_lo := concat_axis1 Dxa (T q) Su in
  let Sxu := concat_axis0 Dxa Sxu_up Sxu_lo in
  (* predict the change in state given current state-action *)
  let '(m_deltax, S_deltax, C_deltax) := predict_symbolic mxu Sxu in
  (* compute the successor state distribution *)
  let mx_next := vadd mx m_deltax in
  let Sxu_deltax :=
    if is_SSGP_or_BNN then C_deltax
    else dot_mm (Dxa + U) Sxu C_deltax in
  let Sx_deltax :=
    match Ca with
    | Some Ca =>
        let Dna := (D - na)%nat in
        let Sxa_deltax := Sxu_deltax in
        let sxna_deltax := Sxa_deltax in
        let sxsc_deltax := rows_from Dna Sxa_deltax in
        let Sx_sc := take_rows angle_idims (dot_mm D Sx Ca) in
        let Sa := block_from Dna Sxa in
        let sxa_deltax := dot_mm (2 * na) Sx_sc (solve Sa sxsc_deltax) in
        let Sx_deltax := zeros in
        let Sx_deltax := set_rows non_angle_dims sxna_deltax Sx_deltax in
        set_rows angle_idims sxa_deltax Sx_deltax
    | None => Sxu_deltax
    end in
  let Sx_next := madd (madd (madd Sx S_deltax) Sx_deltax) (T Sx_deltax) in
  (* get cost at previous time step *)
  let '(mcost, Scost) := cost mx Sx in
  (* add a term for the action; the name [T] of the 'R' branch is never
     imported by the module *)
  Rm <- match cost_params_R with
        | Some _ => Raise NameError
        | None => Ok zeros
        end ;;
  let mcost := mcost + dot_vv U (dot_vm U mu Rm) mu in
  Ok (mkPropagated mcost Scost mx_next Sx_next mu Su).

End Propagation.

(** *** The backward pass *)

(** [tt.slinalg.solve] and [tt.slinalg.cholesky] (lower factor; [None] when
    the matrix is not positive definite and the routine raises). *)
Class LinAlg : Type := {
  slinalg_solve : nat -> tmatrix -> tvector -> tvector;
  slinalg_cholesky : nat -> tmatrix -> option tmatrix
}.

(** What [tt.jacobian] and [tt.grad] return for the forward pass at
    [(t-1, z_prev)]: the Jacobians of [z_next] and the derivatives of
    [m_cost], with respect to [u] and [z_prev]. *)
Record Derivatives : Type := mkDerivatives {
  Fu : tmatrix;
  Fx : tmatrix;
  lu : tvector;
  lx : tvector;
  luu : tmatrix;
  lux : tmatrix;
  lxx : tmatrix
}.

(** The outputs [[V, Vx, Vxx, VxdotFx, VxdotFu]] of one step. *)
Record Backward : Type := mkBackward {
  V : R;
  Vx : tvector;
  Vxx : tmatrix;
  VxdotFx : tvector;
  VxdotFu : tvector
}.

(** [theano.tensor.Lop(f, wrt, eval_points)]: the Jacobian [J] of [f] with
    respect to [wrt], multiplied by [eval_points] from the left. *)
Definition Lop (n : nat) (J : tmatrix) (eval_points : tvector) : tvector :=
  dot_vm n eval_points J.

Section BackwardPass.
Context {linalg : LinAlg}.
(** The lengths of [z] and of [u]. *)
Variables (nz nu : nat).

(** The five products that depend on the Jacobians, for [self.lop] set
    and unset.  Line 138 is read as the row-wise [Lop] of [cholVxx] (one
    [Lop] per row, stacked), and line 139 likewise, which is the only
    shape-correct reading of the two lines. *)
Definition jacobian_products (lop : bool) (d : Derivatives)
    (Vx0 : tvector) (Vxx0 : tmatrix)
    : result (tvector * tvector * tmatrix * tmatrix * tmatrix) :=
  if lop then
    let VxdotFx := Lop nz (Fx d) Vx0 in
    let VxdotFu := Lop nz (Fu d) Vx0 in
    match slinalg_cholesky nz Vxx0 with
    | None => Raise LinAlgError
    | Some cholVxx =>
        let VxxFx : tmatrix := fun i => Lop nz (Fx d) (cholVxx i) in
        let VxxFu : tmatrix := fun i => Lop nz (Fu d) (cholVxx i) in
        let FxVxxFx := dot_mm nz (T VxxFx) VxxFx in
        let FuVxxFx := dot_mm nz (T VxxFu) VxxFx in
        let FuVxxFu := dot_mm nz (T VxxFu) VxxFu in
        Ok (VxdotFx, VxdotFu, FxVxxFx, FuVxxFx, FuVxxFu)
    end
  else
    let VxdotFx := dot_vm nz Vx0 (Fx d) in
    let VxdotFu := dot_vm nz Vx0 (Fu d) in
    let FxVxxFx := dot_mm nz (dot_mm nz (T (Fx d)) Vxx0) (Fx d) in
    let FuVxxFx := dot_mm nz (dot_mm nz (T (Fu d)) Vxx0) (Fx d) in
    let FuVxxFu := dot_mm nz (dot_mm nz (T (Fu d)) Vxx0) (Fu d) in
    Ok (VxdotFx, VxdotFu, FxVxxFx, FuVxxFx, FuVxxFu).

(** [backward_pass], from the Jacobians on. *)
Definition backward_pass (lop : bool) (d : Derivatives)
    (V0 : R) (Vx0 : tvector) (Vxx0 : tmatrix) : result Backward :=
  pr <- jacobian_products lop d Vx0 Vxx0 ;;
  let '(VxdotFx, VxdotFu, FxVxxFx, FuVxxFx, FuVxxFu) := pr in
  let Qx := vadd (lx d) VxdotFx in
  let Qu := vadd (lu d) VxdotFu in
  let Qxx := madd (lxx d) FxVxxFx in
  let Qux := madd (lux d) FuVxxFx in
  let Quu := madd (madd (luu d) FuVxxFu) (mscale 0.01 eye) in
  let I := vneg (slinalg_solve nu Quu Qu) in
  let L := vneg (slinalg_solve nu Quu Qu) in
  let V1 := V0 + dot_vv nu Qu I in
  let Vx1 := vadd_scalar Qx (dot_vv nu Qu L) in
  let Vxx1 := madd_row Qxx (dot_mv nu (T Qux) L) in
  Ok (mkBackward V1 Vx1 Vxx1 VxdotFx VxdotFu).

End BackwardPass.

(** *** The forward pass *)

(** [np.triu_indices(n)]: the index pairs of the upper triangle, row by
    row. *)
Definition triu_indices (n : nat) : list (nat * nat) :=
  flat_map (fun i => map (fun j => (i, j)) (seq i (n - i))) (seq 0 n).

(** The position of an index pair in a list of pairs, counted from
    [pos]. *)
Fixpoint pair_position (ij : nat * nat) (l : list (nat * nat)) (pos : nat)
    : option nat :=
  match l with
  | [] => None
  | p :: rest =>
      if ((fst p =? fst ij) && (snd p =? snd ij))%nat%bool then Some pos
      else pair_position ij rest (S pos)
  end.

(** [tt.set_subtensor(tt.zeros((n, n))[triu_indices], v)]: entry [k] of
    [v] goes to the [k]-th index pair (the pairs are distinct). *)
Definition set_triu (n : nat) (v : tvector) : tmatrix :=
  fun i j =>
    match pair_position (i, j) (triu_indices n) O with
    | Some k => v k
    | None => 0
    end.

(** [A[triu_indices]] *)
Definition take_triu (n : nat) (A : tmatrix) : tvector :=
  fun k => A (fst (nth k (triu_indices n) (O, O)))
             (snd (nth k (triu_indices n) (O, O))).

(** [tt.diag] of a matrix. *)
Definition diagonal (A : tmatrix) : tvector := fun i => A i i.

Definition msub (A B : tmatrix) : tmatrix := fun i j => A i j - B i j.

(** Lines 173-176 of [forward_pass]: the covariance that the part [z[D:]]
    of the state encoding stands for. *)
Definition unpack_covariance (n : nat) (Sx_triu : tvector) : tmatrix :=
  let Sx := set_triu n Sx_triu in
  msub (madd Sx (T Sx)) (diag (diagonal Sx)).

Section ForwardPass.
Context {model : Model}.

(** [forward_pass(t, z)], returning [[z_next, mu, m_cost]]. *)
Definition forward_pass (t : nat) (z : tvector)
    : result (tvector * tvector * R) :=
  (* split z into the mean and covariance of the state *)
  let mx := z in
  let Sx_triu := fun k => z (k + D)%nat in
  let Sx := unpack_covariance D Sx_triu in
  (* compute the next state using the dynamics model *)
  out <- propagate_state mx Sx t true ;;
  let z_next := concat_v D (mx_next out) (take_triu D (Sx_next out)) in
  Ok (z_next, mu out, mcost out).

End ForwardPass.

End PDDP.

(** ** Concrete collaborators

    Small plants, archives and minimizers on which the model can be run. *)

Module Examples.

Import EpisodicLearner.

(** A one-dimensional plant that counts its steps, with sample period
    [0.1] (the closest binary64 value), which never reports completion.
    [noise] is its noise covariance. *)
Definition counting_plant (noise : option matrix) : Robot := {|
  Plant := nat;
  plant_dt := fun _ => 0x1.999999999999ap-4%float;
  plant_noise := fun _ => noise;
  plant_done := fun _ => false;
  plant_start := fun p => p;
  plant_stop := fun p => p;
  plant_step := fun p => S p;
  plant_apply_control := fun _ p => p;
  plant_get_state := fun p =>
    (([PrimFloat.of_uint63 (Uint63.of_Z (Z.of_nat p))],
      (PrimFloat.of_uint63 (Uint63.of_Z (Z.of_nat p))
       * 0x1.999999999999ap-4)%float), p);
  Rng := unit;
  randn := fun n g => (repeat 0%float n, g);
  rand_policy_evaluate := fun maxU _ g => (maxU, g);
  policy_evaluate := fun _ x => x;
  gTrig_np := fun x _ => x;
  cholesky_factor := fun m => Ok m;
  OptState := nat;
  sys_maxint := 9223372036854775807;
  sys_maxint_min :=
    proj1 (Z.leb_le 2147483647%Z 9223372036854775807%Z) eq_refl
|}.

Definition noisy_plant : Robot := counting_plant (Some [[1%float]]).
Definition noiseless_plant : Robot := counting_plant None.

Definition pA : Params := [Build_ndarray [1%nat] [1%float]].
Definition pB : Params := [Build_ndarray [1%nat] [2%float]].
Definition pC : Params := [Build_ndarray [1%nat] [3%float]].

(** A buffer of three episodes, opened at iterations 0, 1 and 2, after
    three saved training iterations. *)
Definition three_episodes : ExperienceDataset :=
  mkExperience [[0%float]; [0%float]; [0%float]]
               [[[0%float]]; [[0%float]]; [[0%float]]]
               [[[0%float]]; [[0%float]]; [[0%float]]]
               [[CostInt 0]; [CostInt 0]; [CostInt 0]]
               2 [0; 1; 2]%Z (Present [pA; pB; pC]).

Definition empty_experience : ExperienceDataset :=
  mkExperience [] [] [] [] (-1) [] (Present []).

Definition saved_state (iteration : Z) : LearnerState :=
  mkState 3 [] false None 1%float 1%float iteration 0.

(** Archives that load as they are handed in, with a state blob saved at
    iteration 3. *)
Definition archive : Storage := {|
  policy_load := fun p => p;
  experience_load := fun e => e;
  fresh_experience := empty_experience;
  state_file := Some (saved_state 3)
|}.

(** No state archive: opening it raises [IOError]. *)
Definition no_archive : Storage := {|
  policy_load := fun p => p;
  experience_load := fun e => e;
  fresh_experience := empty_experience;
  state_file := None
|}.

Definition config (method : string) : Config :=
  mkConfig [] (Some 1%float) None (Some 3%Z) None (Some method).

(** A minimizer whose every method raises [ValueError] after one
    evaluation of the loss, and one in which only [failing] does. *)
Definition always_fails : string -> list float -> list (list nat) -> float
                          -> Z -> MinRun :=
  fun _ x0 _ _ _ => Evaluate x0 (fun _ _ => Throw ValueError).

Definition fails_on (failing : list string)
    : string -> list float -> list (list nat) -> float -> Z -> MinRun :=
  fun m x0 _ _ _ =>
    if str_in m failing then Evaluate x0 (fun _ _ => Throw ValueError)
    else Evaluate x0 (fun _ _ => Return x0).

Definition flat (p : Params) : list float := List.concat (map data p).

Definition trainer_with {noise : option matrix}
    (min : string -> list float -> list (list nat) -> float -> Z -> MinRun)
    : Trainer (robot := counting_plant noise) := {|
  value := fun _ p => hd 0%float (flat p);
  value_and_grad := fun _ p => (hd 0%float (flat p), p);
  wrap_params := flat;
  unwrap_params := fun x shapes =>
    map (fun xs => Build_ndarray (snd xs) [fst xs]) (combine x shapes);
  minimize := min;
  compile_train_fn := fun _ _ => (O : @OptState (counting_plant noise));
  train_fn_step := fun (fn : @OptState (counting_plant noise)) _ p =>
    (hd 0%float (flat p), p, (S fn : @OptState (counting_plant noise)))
|}.

Definition a_cost : CostEvaluator := fun x _ => x.

(** A learner on the counting plant with nothing recorded yet;
    [evaluate_cost] is the state of that attribute. *)
Definition learner_on (noise : option matrix)
    (evaluate_cost : attr (option CostEvaluator)) (method : string)
    : Learner (robot := counting_plant noise) :=
  mkLearner (robot := counting_plant noise) O pA [1%float] (Some a_cost)
    evaluate_cost empty_experience (-1) 0 [] 1%float 1%float 3
    0x1.19799812dea11p-40%float method false 0 0 Absent Absent false [] tt.

(** The same on the noisy plant, with a compiled cost evaluator. *)
Definition learner (method : string) : Learner (robot := noisy_plant) :=
  learner_on (Some [[1%float]]) (Present (Some a_cost)) method.

End Examples.

Unset Implicit Arguments.

(** ** Concrete PDDP inputs *)

Module PDDPExamples.

Import PDDP.
Local Open Scope R_scope.

(** A one-dimensional model without angles whose dynamics model predicts
    a constant change of state. *)
Definition still_model : Model := {|
  D := 1;
  U := 1;
  angle_idims := [];
  gTrig2 := fun m S _ _ => (m, S, None);
  u_nominal := fun _ _ => 0;
  policy_evaluate := fun m _ _ => (m, zeros, zeros);
  logsn := fun _ => 0;
  predict_symbolic := fun _ _ => (fun _ => 1, eye, zeros);
  is_SSGP_or_BNN := false;
  solve := fun A B => B;
  cost := fun _ _ => (0, 0);
  cost_params_R := None
|}.

(** A positive definite [Vxx] and its lower Cholesky factor:
    [[1,1],[1,2]] = [[1,0],[1,1]] . [[1,0],[1,1]]^T. *)
Definition Vxx_pd : tmatrix :=
  fun i j =>
    match i, j with
    | O, O => 1
    | O, S O => 1
    | S O, O => 1
    | S O, S O => 2
    | _, _ => 0
    end.

Definition chol_pd : tmatrix :=
  fun i j =>
    match i, j with
    | O, O => 1
    | S O, O => 1
    | S O, S O => 1
    | _, _ => 0
    end.

(** A forward pass whose next state is its previous state, with no cost:
    [Fx] is the identity and everything else vanishes. *)
Definition identity_step : Derivatives :=
  mkDerivatives zeros eye (fun _ => 0) (fun _ => 0) zeros zeros zeros.

(** A factorization routine that rejects a matrix with a vanishing first
    pivot and returns the factor above otherwise. *)
Definition pivot_linalg : LinAlg := {|
  slinalg_solve := fun _ _ b => b;
  slinalg_cholesky := fun _ A =>
    if Req_dec_T (A O O) 0 then None else Some chol_pd
|}.

End PDDPExamples.

(** ** Vocabulary of the statements

    Predicates and named learner states that the theorems are stated
    with. *)

Module Vocabulary.

Import EpisodicLearner.

(** Episode labels in the order the learner produces them: the iteration
    counter never decreases between two episodes. *)
Fixpoint nondecreasing (l : list Z) : bool :=
  match l with
  | [] => true
  | a :: t =>
      match t with
      | [] => true
      | b :: _ => (a <=? b)%Z && nondecreasing t
      end
  end.

(** The binary64 values that the literals [0.1] and [1.0] denote. *)
Definition tenth : float := 0x1.999999999999ap-4%float.
Definition one : float := 1%float.

(** [e] is [pre] with one more episode, holding the samples listed. *)
Definition recorded (pre e : ExperienceDataset) (ts : list float)
    (xs us : list vec) (cs : list cost_sample) : Prop :=
  time_stamps e = time_stamps pre ++ [ts] /\
  states e = states pre ++ [xs] /\
  actions e = actions pre ++ [us] /\
  immediate_cost e = immediate_cost pre ++ [cs] /\
  List.length xs = List.length ts /\
  List.length us = List.length ts /\
  List.length cs = List.length ts.

Section OnRobot.
Context {robot : Robot}.

(** What the resume code leaves behind, for the loaded buffer [e], its
    history, the target iteration [k] and the cut position [n]. *)
Definition resumed_at (e : ExperienceDataset) (history : list Params)
    (k : Z) (s : Learner) (n : nat) : Prop :=
  (n < List.length (episode_labels e))%nat /\
  (forall i, (i < n)%nat -> (nth i (episode_labels e) 0 <= k)%Z) /\
  (0 < n)%nat /\
  nth (n - 1) (episode_labels e) 0%Z = k /\
  (k < nth n (episode_labels e) 0)%Z /\
  time_stamps (experience s) = firstn n (time_stamps e) /\
  states (experience s) = firstn n (states e) /\
  actions (experience s) = firstn n (actions e) /\
  immediate_cost (experience s) = firstn n (immediate_cost e) /\
  ((0 < k)%Z ->
   nth_error history (Z.to_nat (k - 1)) = Some (policy s) /\
   exists h, policy_history (experience s) = Present h /\
             h = firstn (Z.to_nat k) history /\
             List.length h = Z.to_nat k) /\
  (k = 0%Z -> policy_history (experience s) = Present history).

(** The part of the learner that the history invariant talks about. *)
Definition same_buffer (s s' : Learner) : Prop :=
  experience s' = experience s /\
  learning_iteration s' = learning_iteration s.

(** The two sides of the history invariant. *)
Definition same_history (s s' : Learner) : Prop :=
  policy_history (experience s') = policy_history (experience s) /\
  learning_iteration s' = learning_iteration s.

End OnRobot.

Section OnTrainer.
Context {robot : Robot} {trainer : Trainer}.

(** The learner at the point where [train_policy] starts to loop over the
    methods: iteration counted, evaluations reset, baseline value taken and
    stored with the current parameters as the best known. *)
Definition at_first_attempt (H_arg : option float) (s : Learner) : Learner :=
  let s := match H_arg with
           | Some h => set_H h s
           | None => s
           end in
  let s := set_learning_iteration (learning_iteration s + 1)%Z s in
  let s := set_n_evals 0%Z s in
  let s := print_with_stamp (MsgTraining (learning_iteration s)) s in
  let v0 := value (experience s) (policy s) in
  let s := print_with_stamp (MsgInitialValue v0) s in
  set_best_p (Present (v0, policy s)) s.

(** One pass through the [try] block with method [m] from start point
    [p0]: the learner after the call, and what the call did. *)
Definition attempt (m : string) (p0 : Params) (shapes : list (list nat))
    (s : Learner) : Learner * result (list float) :=
  let s := print_with_stamp (MsgUsing m) s in
  run_minimize
    (minimize m (wrap_params p0) shapes (conv_thr s) (max_evals s)) shapes s.

(** The [except ValueError] block after a failed attempt with [m]: the
    failure is reported and the best-known parameters [snd b] are put back
    on the policy. *)
Definition restored (m : string) (b : float * Params) (s : Learner)
    : Learner :=
  set_policy (snd b) (print_with_stamp (MsgFailed m) s).

(** [fails_through shapes ms p0 s p1 s1]: tried in order from start point
    [p0] and learner [s], with the best-known parameters restored after
    each failure, every method of [ms] raises [ValueError]; [p1] and [s1]
    are the start point and the learner after the last of them. *)
Inductive fails_through (shapes : list (list nat))
    : list string -> Params -> Learner -> Params -> Learner -> Prop :=
| fails_nil (p0 : Params) (s : Learner) :
    fails_through shapes [] p0 s p0 s
| fails_cons (m : string) (ms : list string) (p0 : Params) (s s' : Learner)
    (b : float * Params) (p1 : Params) (s1 : Learner) :
    attempt m p0 shapes s = (s', Raise ValueError) ->
    best_p s' = Present b ->
    fails_through shapes ms (snd b) (restored m b s') p1 s1 ->
    fails_through shapes (m :: ms) p0 s p1 s1.

(** The end of the deterministic branch and of [train_policy]. *)
Definition finish (s : Learner) : Learner :=
  set_state_changed true
    (print_with_stamp (MsgDoneTraining (value (experience s) (policy s))) s).

End OnTrainer.

End Vocabulary.

(** ** More concrete collaborators *)

Module MoreExamples.

Import EpisodicLearner.

(** Archives whose experience file holds the three-episode buffer, whatever
    dataset object loads it. *)
Definition archive_of_three : Storage := {|
  policy_load := fun p => p;
  experience_load := fun _ => Examples.three_episodes;
  fresh_experience := Examples.empty_experience;
  state_file := Some (Examples.saved_state 3)
|}.

(** The three-episode buffer after a fourth saved training iteration and
    before any episode of iteration 3. *)
Definition three_episodes_four_saves : ExperienceDataset :=
  mkExperience (time_stamps Examples.three_episodes)
               (states Examples.three_episodes)
               (actions Examples.three_episodes)
               (immediate_cost Examples.three_episodes)
               2 [0; 1; 2]%Z
               (Present [Examples.pA; Examples.pB; Examples.pC; Examples.pA]).

(** A plant like the counting plant that reports completion at once. *)
Definition finished_plant : Robot := {|
  Plant := nat;
  plant_dt := fun _ => 0x1.999999999999ap-4%float;
  plant_noise := fun _ => Some [[1%float]];
  plant_done := fun _ => true;
  plant_start := fun p => p;
  plant_stop := fun p => p;
  plant_step := fun p => S p;
  plant_apply_control := fun _ p => p;
  plant_get_state := fun p =>
    (([PrimFloat.of_uint63 (Uint63.of_Z (Z.of_nat p))],
      (PrimFloat.of_uint63 (Uint63.of_Z (Z.of_nat p))
       * 0x1.999999999999ap-4)%float), p);
  Rng := unit;
  randn := fun n g => (repeat 0%float n, g);
  rand_policy_evaluate := fun maxU _ g => (maxU, g);
  policy_evaluate := fun _ x => x;
  gTrig_np := fun x _ => x;
  cholesky_factor := fun m => Ok m;
  OptState := nat;
  sys_maxint := 9223372036854775807;
  sys_maxint_min :=
    proj1 (Z.leb_le 2147483647%Z 9223372036854775807%Z) eq_refl
|}.

Definition finished_learner : Learner (robot := finished_plant) :=
  mkLearner (robot := finished_plant) O Examples.pA [1%float]
    (Some Examples.a_cost) (Present (Some Examples.a_cost))
    Examples.empty_experience (-1) 0 [] 1%float 1%float 3
    0x1.19799812dea11p-40%float "adam" false 0 0 Absent Absent false [] tt.

End MoreExamples.

(** ** More concrete PDDP inputs *)

Module MorePDDPExamples.

Import PDDP.
Local Open Scope R_scope.

(** The still model with an action-cost weight [R] configured. *)
Definition weighted_model : Model := {|
  D := 1;
  U := 1;
  angle_idims := [];
  gTrig2 := fun m S _ _ => (m, S, None);
  u_nominal := fun _ _ => 0;
  policy_evaluate := fun m _ _ => (m, zeros, zeros);
  logsn := fun _ => 0;
  predict_symbolic := fun _ _ => (fun _ => 1, eye, zeros);
  is_SSGP_or_BNN := false;
  solve := fun A B => B;
  cost := fun _ _ => (0, 0);
  cost_params_R := Some eye
|}.

End MorePDDPExamples.

(** ** More vocabulary *)

Module MoreVocabulary.

Import EpisodicLearner.

(** What the immediate cost stored with a sample can be: the literal [0]
    when the evaluator is [None], and otherwise the evaluator's output at
    the covariance [Sx_t] of the rollout. *)
Definition stored_cost (ec : option CostEvaluator) (Sx_t : matrix)
    (c : cost_sample) : Prop :=
  match ec with
  | None => c = CostInt 0
  | Some f => exists x, c = CostEval (f x Sx_t)
  end.

Section OnRobot.
Context {robot : Robot}.

(** What the passes through the rollout loop leave as it is. *)
Definition rollout_frame (s s' : Learner) : Prop :=
  policy s' = policy s /\
  n_episodes s' = n_episodes s /\
  learning_iteration s' = learning_iteration s /\
  console s' = console s /\
  evaluate_cost s' = evaluate_cost s /\
  episode_labels (experience s') = episode_labels (experience s) /\
  curr_episode (experience s') = curr_episode (experience s) /\
  policy_history (experience s') = policy_history (experience s).

(** The horizon in effect for a call of [apply_controller]. *)
Definition horizon (H_arg : option float) (s : Learner) : float :=
  match H_arg with
  | None => H s
  | Some h => h
  end.

End OnRobot.

Section OnTrainer.
Context {robot : Robot} {trainer : Trainer}.

(** What one call of the compiled update does to the parameters and to the
    optimizer's own state. *)
Definition update_step (e : ExperienceDataset) (st : Params * OptState)
    : Params * OptState :=
  let '(_, p, fn) := train_fn_step (snd st) e (fst st) in (p, fn).

(** The optimizer state the stochastic loop starts from: the one already on
    the learner, or a freshly compiled one. *)
Definition optimizer_entry (s : Learner) : OptState :=
  match train_fn s with
  | Present fn => fn
  | Absent => compile_train_fn (upper (min_method s)) (policy s)
  end.

End OnTrainer.

End MoreVocabulary.

(** ** PDDP: the propagation and the forward pass as the compiled graph
    computes them *)

Module PDDPEval.

(** The numbers a compiled graph computes with, and the elementwise
    operations on them: binary64 at run time, the reals for the algebra of
    the symbolic expressions.  No law is assumed of the operations. *)
Class Scalar : Type := {
  num : Type;
  zero : num;
  half : num;
  two : num;
  add : num -> num -> num;
  sub : num -> num -> num;
  mul : num -> num -> num
}.

Definition binary64 : Scalar := {|
  num := float;
  zero := 0%float;
  half := 0x1p-1%float;
  two := 2%float;
  add := PrimFloat.add;
  sub := PrimFloat.sub;
  mul := PrimFloat.mul
|}.

Definition real : Scalar := {|
  num := R;
  zero := 0%R;
  half := 0.5%R;
  two := 2%R;
  add := Rplus;
  sub := Rminus;
  mul := Rmult
|}.

Section Tensors.
Context {scalar : Scalar}.

(** Tensors as index functions; shapes are carried by the operations that
    need them. *)
Definition tvector : Type := nat -> num.
Definition tmatrix : Type := nat -> nat -> num.

(** [A.T] *)
Definition T (A : tmatrix) : tmatrix := fun i j => A j i.

Definition vadd (a b : tvector) : tvector := fun i => add (a i) (b i).
Definition madd (A B : tmatrix) : tmatrix := fun i j => add (A i j) (B i j).
Definition msub (A B : tmatrix) : tmatrix := fun i j => sub (A i j) (B i j).

Definition zeros : tmatrix := fun _ _ => zero.
Definition diag (d : tvector) : tmatrix :=
  fun i j => if (i =? j)%nat then d i else zero.

(** [tt.diag] of a matrix. *)
Definition diagonal (A : tmatrix) : tvector := fun i => A i i.

(** [tt.concatenate] of two vectors, and of two matrices along an axis;
    [n] is the extent of the first operand along that axis. *)
Definition concat_v (n : nat) (a b : tvector) : tvector :=
  fun i => if (i <? n)%nat then a i else b (i - n)%nat.

Definition concat_axis1 (n : nat) (A B : tmatrix) : tmatrix :=
  fun i j => if (j <? n)%nat then A i j else B i (j - n)%nat.

Definition concat_axis0 (n : nat) (A B : tmatrix) : tmatrix :=
  fun i j => if (i <? n)%nat then A i j else B (i - n)%nat j.

(** [A[n:]], [A[n:, n:]] and [A[idx]] (rows picked by an index list). *)
Definition rows_from (n : nat) (A : tmatrix) : tmatrix :=
  fun i j => A (i + n)%nat j.

Definition block_from (n : nat) (A : tmatrix) : tmatrix :=
  fun i j => A (i + n)%nat (j + n)%nat.

Definition take_rows (idx : list nat) (A : tmatrix) : tmatrix :=
  fun i j => A (nth i idx O) j.

(** [tt.set_subtensor(A[idx, :], B)] *)
Definition set_rows (idx : list nat) (B A : tmatrix) : tmatrix :=
  fun i j =>
    match PDDP.last_position i idx O with
    | Some p => B p j
    | None => A i j
    end.

(** [tt.set_subtensor(tt.zeros((n, n))[triu_indices], v)] *)
Definition set_triu (n : nat) (v : tvector) : tmatrix :=
  fun i j =>
    match PDDP.pair_position (i, j) (PDDP.triu_indices n) O with
    | Some k => v k
    | None => zero
    end.

(** [A[triu_indices]] *)
Definition take_triu (n : nat) (A : tmatrix) : tvector :=
  fun k => A (fst (nth k (PDDP.triu_indices n) (O, O)))
             (snd (nth k (PDDP.triu_indices n) (O, O))).

(** Lines 173-176 of [forward_pass]: [Sx + Sx.T - tt.diag(tt.diag(Sx))],
    the sum first and the difference second. *)
Definition unpack_covariance (n : nat) (Sx_triu : tvector) : tmatrix :=
  let Sx := set_triu n Sx_triu in
  msub (madd Sx (T Sx)) (diag (diagonal Sx)).

(** The same value at [(i, j)] and [(j, i)] throughout the leading [n] by
    [n] block. *)
Definition symmetric (n : nat) (A : tmatrix) : Prop :=
  forall i j, (i < n)%nat -> (j < n)%nat -> A i j = A j i.

(** What line 176 makes of a number [x] stored in the upper triangle: at
    its own place above the diagonal, at the mirrored place below it, and
    on the diagonal. *)
Definition rebuilt_above (x : num) : num := sub (add x zero) zero.
Definition rebuilt_below (x : num) : num := sub (add zero x) zero.
Definition rebuilt_diagonal (x : num) : num := sub (add x x) x.

(** [x] comes back from line 176 as it went in. *)
Definition survives (x : num) : Prop :=
  rebuilt_above x = x /\ rebuilt_below x = x /\ rebuilt_diagonal x = x.

End Tensors.

(** The collaborators of [propagate_state] at run time: the angle
    reparameterization of [utils], the policy, the dynamics model, the cost
    and [solve], each of which may raise where it factorizes or solves; the
    exponential of the math library and the products of the BLAS, whose
    rounding and order of accumulation are theirs. *)
Class Model {scalar : Scalar} : Type := {
  D : nat;
  U : nat;
  angle_idims : list nat;
  gTrig2 : tvector -> tmatrix -> list nat -> nat
           -> tvector * tmatrix * option tmatrix;
  u_nominal : nat -> tvector;
  policy_evaluate : tvector -> tmatrix -> nat
                    -> result (tvector * tmatrix * tmatrix);
  logsn : tvector;
  predict_symbolic : tvector -> tmatrix
                     -> result (tvector * tmatrix * tmatrix);
  is_SSGP_or_BNN : bool;
  solve : tmatrix -> tmatrix -> result tmatrix;
  cost : tvector -> tmatrix -> result (num * num);
  cost_params_R : option tmatrix;
  tt_exp : num -> num;
  dot_vv : nat -> tvector -> tvector -> num;
  dot_vm : nat -> tvector -> tmatrix -> tvector;
  dot_mm : nat -> tmatrix -> tmatrix -> tmatrix
}.

(** What lines 45-102 of [propagate_state] compute: the control
    distribution and the model's prediction of the change in state, with
    the cross-covariance [Sx_deltax] between state and change. *)
Record Delta {scalar : Scalar} : Type := mkDelta {
  m_deltax : tvector;
  S_deltax : tmatrix;
  Sx_deltax : tmatrix;
  u_mean : tvector;
  u_cov : tmatrix
}.

Arguments mkDelta {scalar} _ _ _ _ _.

(** The list [mcost, Scost, mx_next, Sx_next, mu, Su] that
    [propagate_state] returns. *)
Record Propagated {scalar : Scalar} : Type := mkPropagated {
  mcost : num;
  Scost : num;
  mx_next : tvector;
  Sx_next : tmatrix;
  mu : tvector;
  Su : tmatrix
}.

Arguments mkPropagated {scalar} _ _ _ _ _ _.

Section Propagation.
Context {scalar : Scalar} {model : Model}.

(** [list(set(range(D)).difference(self.angle_idims))] *)
Definition non_angle_dims : list nat :=
  filter (fun i => negb (existsb (Nat.eqb i) angle_idims)) (seq 0 D).

(** Lines 45-102 of [propagate_state(mx, Sx, t, open_loop)].  A slice
    [A[:n]] keeps the index function as it is. *)
Definition state_delta (mx : tvector) (Sx : tmatrix) (t : nat)
    (open_loop : bool) : result Delta :=
  let na := List.length angle_idims in
  (* convert angles from input distribution to their complex representation *)
  let '(mxa, Sxa, Ca) := gTrig2 mx Sx angle_idims D in
  control <- (if open_loop then Ok (u_nominal t, zeros, zeros)
              else
                (* compute control signal given uncertain state *)
                let sn2 := fun i => tt_exp (mul two (logsn i)) in
                let Sx_ := madd Sx (diag (fun i => mul half (sn2 i))) in
                let '(mxa_, Sxa_, _) := gTrig2 mx Sx_ angle_idims D in
                policy_evaluate mxa_ Sxa_ t) ;;
  let '(mu, Su, Cu) := control in
  (* compute state control joint distribution *)
  let Dxa := (D + na)%nat in
  let mxu := concat_v Dxa mxa mu in
  let q := dot_mm Dxa Sxa Cu in
  let Sxu_up := concat_axis1 Dxa Sxa q in
  let Sxu_lo := concat_axis1 Dxa (T q) Su in
  let Sxu := concat_axis0 Dxa Sxu_up Sxu_lo in
  (* predict the change in state given current state-action *)
  prediction <- predict_symbolic mxu Sxu ;;
  let '(m_deltax, S_deltax, C_deltax) := prediction in
  let Sxu_deltax :=
    if is_SSGP_or_BNN then C_deltax
    else dot_mm (Dxa + U) Sxu C_deltax in
  Sx_deltax <- match Ca with
               | Some Ca =>
                   let Dna := (D - na)%nat in
                   let Sxa_deltax := Sxu_deltax in
                   let sxna_deltax := Sxa_deltax in
                   let sxsc_deltax := rows_from Dna Sxa_deltax in
                   let Sx_sc := take_rows angle_idims (dot_mm D Sx Ca) in
                   let Sa := block_from Dna Sxa in
                   solved <- solve Sa sxsc_deltax ;;
                   let sxa_deltax := dot_mm (2 * na) Sx_sc solved in
                   let Sx_deltax := zeros in
                   let Sx_deltax :=
                     set_rows non_angle_dims sxna_deltax Sx_deltax in
                   Ok (set_rows angle_idims sxa_deltax Sx_deltax)
               | None => Ok Sxu_deltax
               end ;;
  Ok (mkDelta m_deltax S_deltax Sx_deltax mu Su).

(** [propagate_state(mx, Sx, t, open_loop)].  Building the graph comes
    before any value is computed, so the name [T] of the 'R' branch, which
    the module never imports, is missed first.  The sums of lines 73 and
    104 are taken elementwise, from left to right.  The update
    dictionaries are bookkeeping of the compiled graph and are left
    out. *)
Definition propagate_state (mx : tvector) (Sx : tmatrix) (t : nat)
    (open_loop : bool) : result Propagated :=
  Rm <- match cost_params_R with
        | Some _ => Raise NameError
        | None => Ok zeros
        end ;;
  d <- state_delta mx Sx t open_loop ;;
  (* compute the successor state distribution *)
  let mx_next := vadd mx (m_deltax d) in
  let Sx_next :=
    madd (madd (madd Sx (S_deltax d)) (Sx_deltax d)) (T (Sx_deltax d)) in
  (* get cost at previous time step *)
  c <- cost mx Sx ;;
  let '(mcost, Scost) := c in
  (* add a term for the action *)
  let mcost := add mcost (dot_vv U (dot_vm U (u_mean d) Rm) (u_mean d)) in
  Ok (mkPropagated mcost Scost mx_next Sx_next (u_mean d) (u_cov d)).

(** [forward_pass(t, z)], returning [[z_next, mu, m_cost]]. *)
Definition forward_pass (t : nat) (z : tvector)
    : result (tvector * tvector * num) :=
  (* split z into the mean and covariance of the state *)
  let mx := z in
  let Sx_triu := fun k => z (k + D)%nat in
  let Sx := unpack_covariance D Sx_triu in
  (* compute the next state using the dynamics model *)
  out <- propagate_state mx Sx t true ;;
  let z_next := concat_v D (mx_next out) (take_triu D (Sx_next out)) in
  Ok (z_next, mu out, mcost out).

End Propagation.

(** The symbolic model of [PDDP], read as a run in exact arithmetic in
    which no collaborator raises. *)
Definition of_symbolic (m : PDDP.Model) : Model (scalar := real) :=
  @Build_Model real
    PDDP.D PDDP.U PDDP.angle_idims PDDP.gTrig2 PDDP.u_nominal
    (fun a b t => Ok (PDDP.policy_evaluate a b t))
    PDDP.logsn
    (fun a b => Ok (PDDP.predict_symbolic a b))
    PDDP.is_SSGP_or_BNN
    (fun a b => Ok (PDDP.solve a b))
    (fun a b => Ok (PDDP.cost a b))
    PDDP.cost_params_R
    exp PDDP.dot_vv PDDP.dot_vm PDDP.dot_mm.

End PDDPEval.

(** ** Example runs in binary64 *)

Module PDDPEvalExamples.

Import PDDPEval.

(** A two by two matrix of binary64 entries. *)
Definition two_by_two (a b c d : float) : tmatrix (scalar := binary64) :=
  fun i j =>
    match i, j with
    | O, O => a
    | O, S O => b
    | S O, O => c
    | S O, S O => d
    | _, _ => 0%float
    end.

(** Products accumulated from the left, starting from zero. *)
Fixpoint sum_upto (n : nat) (f : nat -> float) : float :=
  match n with
  | O => 0%float
  | S m => (sum_upto m f + f m)%float
  end.

(** A dynamics model of the SSGP kind on a two-dimensional state without
    angle dimensions ([D = 2], [angle_idims = []], so that [gTrig2] hands
    the distribution on with no [Ca]) and one control ([U = 1]), nominally
    zero.  Whatever the input, the model reports the mean change 0.25, the
    delta covariance [S_d] and the input-output covariance [C_d].  The
    cost is zero and carries no 'R' entry.  The products accumulate from
    the left; the policy, [solve] and the exponential are not reached in
    open loop. *)
Definition ssgp_like (S_d C_d : tmatrix (scalar := binary64))
    : Model (scalar := binary64) :=
  @Build_Model binary64
    2 1 []
    (fun m S _ _ => (m, S, None))
    (fun _ _ => 0%float)
    (fun m _ _ => Ok (m, zeros, zeros))
    (fun _ => 0%float)
    (fun _ _ => Ok (fun _ => 0x1p-2%float, S_d, C_d))
    true
    (fun _ B => Ok B)
    (fun _ _ => Ok (0%float, 0%float))
    None
    (fun x => x)
    (fun n a b => sum_upto n (fun k => (a k * b k)%float))
    (fun n a B j => sum_upto n (fun k => (a k * B k j)%float))
    (fun n A B i j => sum_upto n (fun k => (A i k * B k j)%float)).

(** A state covariance with variances 1 and covariance 0.5; a delta
    covariance with variances 0.1 and covariance 0.05; an input-output
    covariance with 0.1 above the diagonal and 0.2 below it, and one with
    0.1 on both sides. *)
Definition Sx0 : tmatrix (scalar := binary64) :=
  two_by_two 1 0x1p-1 0x1p-1 1.

Definition S_d0 : tmatrix (scalar := binary64) :=
  two_by_two 0x1.999999999999ap-4 0x1.999999999999ap-5
             0x1.999999999999ap-5 0x1.999999999999ap-4.

Definition C_skewed : tmatrix (scalar := binary64) :=
  two_by_two 0x1p-2 0x1.999999999999ap-4 0x1.999999999999ap-3 0x1p-2.

Definition C_even : tmatrix (scalar := binary64) :=
  two_by_two 0x1p-2 0x1.999999999999ap-4 0x1.999999999999ap-4 0x1p-2.

Definition mx0 : tvector (scalar := binary64) := fun _ => 1%float.

(** The encoding of the mean [mx0] and the covariance [Sx0]: two entries
    for the mean, three for the upper triangle. *)
Definition z0 : tvector (scalar := binary64) :=
  fun k =>
    match k with
    | 3%nat => 0x1p-1%float
    | _ => 1%float
    end.

(** The largest power of two in binary64, as a one by one covariance. *)
Definition huge : tmatrix (scalar := binary64) :=
  fun _ _ => 0x1p1023%float.

End PDDPEvalExamples.

(** ** Properties of the episodic learner *)

Module LearnerProofs.

Import EpisodicLearner.
Import Vocabulary.

(** Reads of a field after writes to the record. *)
Ltac fields :=
  cbn [plant policy policy_maxU cost evaluate_cost experience
       learn_from_iteration n_episodes angle_idims H discount max_evals
       conv_thr min_method async_plant learning_iteration n_evals best_p
       train_fn state_changed console rng
       set_plant set_policy set_evaluate_cost set_experience set_n_episodes
       set_H set_learning_iteration set_n_evals set_best_p set_train_fn
       set_state_changed set_rng emit print_with_stamp raw_input
       time_stamps states actions immediate_cost curr_episode episode_labels
       policy_history Py.bind getattr negb fst snd] in *.

Lemma nondecreasing_cons (a : Z) (l : list Z) :
  nondecreasing (a :: l) = true ->
  nondecreasing l = true /\ (forall x, In x l -> (a <= x)%Z).
Proof.
  revert a; induction l as [|b l IH]; intros a Hs.
  - split; [reflexivity | intros x []].
  - change (((a <=? b)%Z && nondecreasing (b :: l)) = true) in Hs.
    apply andb_true_iff in Hs as [Hab Hl].
    apply Z.leb_le in Hab.
    split; [exact Hl|].
    intros x [<-|Hx]; [exact Hab|].
    destruct (IH b Hl) as [_ Hb].
    specialize (Hb x Hx); lia.
Qed.

Lemma nondecreasing_nth (l : list Z) :
  nondecreasing l = true ->
  forall i j, (i <= j)%nat -> (j < List.length l)%nat ->
  (nth i l 0 <= nth j l 0)%Z.
Proof.
  induction l as [|a l IH]; intros Hs i j Hij Hj; [simpl in Hj; lia|].
  destruct (nondecreasing_cons _ _ Hs) as [Hl Ha].
  destruct i as [|i], j as [|j]; simpl in *; try lia.
  - apply Ha, nth_In; lia.
  - apply IH; [exact Hl | lia | lia].
Qed.

(** The [while] loops of the resume code stop at the first entry that fails
    the test, when there is one. *)
Lemma advance_while_stops (cond : Z -> bool) (labels : list Z) :
  (exists x, In x labels /\ cond x = false) ->
  forall start, exists n,
    advance_while cond labels start = Ok (start + n)%nat /\
    (n < List.length labels)%nat /\
    (forall i, (i < n)%nat -> cond (nth i labels 0%Z) = true) /\
    cond (nth n labels 0%Z) = false.
Proof.
  induction labels as [|l rest IH]; intros [x [Hin Hx]] start.
  - destruct Hin.
  - simpl. destruct (cond l) eqn:Hl.
    + destruct Hin as [->|Hin]; [congruence|].
      destruct (IH (ex_intro _ x (conj Hin Hx)) (S start)) as (n & Hr & Hn & Hpre & Hstop).
      exists (S n). repeat split.
      * rewrite Hr. f_equal. lia.
      * simpl. lia.
      * intros [|i] Hi; [exact Hl | apply Hpre; lia].
      * exact Hstop.
    + exists O. repeat split.
      * f_equal. lia.
      * simpl. lia.
      * intros i Hi. lia.
      * exact Hl.
Qed.

Lemma slice_to_firstn {A : Type} (l : list A) (n : nat) :
  slice_to l (Z.of_nat n) = firstn n l.
Proof.
  unfold slice_to.
  destruct (Z.of_nat n <? 0)%Z eqn:E; [apply Z.ltb_lt in E; lia|].
  now rewrite Nat2Z.id.
Qed.

Lemma nth_skipn {A : Type} (n i : nat) (l : list A) (d : A) :
  nth i (skipn n l) d = nth (n + i) l d.
Proof.
  revert l; induction n as [|n IH]; intros l; [reflexivity|].
  destruct l as [|a l]; [now destruct i | apply IH].
Qed.

(** The two loops together: on non-decreasing labels that contain [k] and a
    later iteration, they stop at the boundary [n] between the entries with
    label at most [k] and the entries with a larger label. *)
Lemma boundary_found (labels : list Z) (k : Z) :
  nondecreasing labels = true ->
  In k labels ->
  (exists l, In l labels /\ (k < l)%Z) ->
  exists n1 n2,
    advance_while (fun l => negb (l =? k)%Z) labels 0 = Ok n1 /\
    advance_while (fun l => (l =? k)%Z) (skipn n1 labels) n1 = Ok n2 /\
    (n1 < n2)%nat /\ (n2 < List.length labels)%nat /\
    (forall i, (i < n2)%nat -> (nth i labels 0 <= k)%Z) /\
    (forall i, (n1 <= i)%nat -> (i < n2)%nat -> nth i labels 0%Z = k) /\
    (k < nth n2 labels 0)%Z.
Proof.
  intros Hs Hk [l [Hl Hkl]].
  destruct (advance_while_stops (fun l => negb (l =? k)%Z) labels) with (start := O)
    as (n1 & Hr1 & Hn1 & Hpre1 & Hstop1).
  { exists k. split; [exact Hk|]. now rewrite Z.eqb_refl. }
  simpl in Hr1.
  apply negb_false_iff, Z.eqb_eq in Hstop1.
  destruct (In_nth _ _ 0%Z Hl) as (il & Hil & Hnl).
  assert (Hlt : (n1 < il)%nat).
  { destruct (Nat.lt_ge_cases n1 il) as [H|H]; [exact H|].
    pose proof (nondecreasing_nth labels Hs il n1 H Hn1) as Hle.
    destruct (Nat.eq_dec il n1) as [->|Hne]; lia. }
  destruct (advance_while_stops (fun l => (l =? k)%Z) (skipn n1 labels)) with (start := n1)
    as (m & Hr2 & Hm & Hpre2 & Hstop2).
  { exists l. split.
    - rewrite <- Hnl. replace il with (n1 + (il - n1))%nat by lia.
      rewrite <- nth_skipn. apply nth_In. rewrite length_skipn. lia.
    - apply Z.eqb_neq. lia. }
  rewrite length_skipn in Hm.
  rewrite nth_skipn in Hstop2. apply Z.eqb_neq in Hstop2.
  assert (Hm0 : (0 < m)%nat).
  { destruct m; [|lia]. rewrite Nat.add_0_r in Hstop2. congruence. }
  exists n1, (n1 + m)%nat. repeat split; try assumption; try lia.
  - intros i Hi.
    destruct (Nat.lt_ge_cases i n1) as [H|H].
    + rewrite <- Hstop1. apply nondecreasing_nth; [exact Hs | lia | exact Hn1].
    + specialize (Hpre2 (i - n1)%nat ltac:(lia)).
      rewrite nth_skipn in Hpre2. apply Z.eqb_eq in Hpre2.
      replace (n1 + (i - n1))%nat with i in Hpre2 by lia. lia.
  - intros i H1 H2.
    specialize (Hpre2 (i - n1)%nat ltac:(lia)).
    rewrite nth_skipn in Hpre2. apply Z.eqb_eq in Hpre2.
    replace (n1 + (i - n1))%nat with i in Hpre2 by lia. exact Hpre2.
  - assert (Hle : (nth n1 labels 0 <= nth (n1 + m) labels 0)%Z)
      by (apply nondecreasing_nth; [exact Hs | lia | lia]).
    lia.
Qed.

Section Resume.
Context {robot : Robot} {storage : Storage}.

(** The constructor on the path where the archives load and a resume
    iteration inside the history is asked for. *)
Lemma init_resume_path (params : Config) (plant0 : Plant) (policy0 : Params)
    (maxU : vec) (cost_func : option CostEvaluator) (e0 : ExperienceDataset)
    (async : bool) (k : Z) (rng0 : Rng) (st : LearnerState)
    (history : list Params) :
  state_file = Some st ->
  policy_history (experience_load e0) = Present history ->
  (0 <= k)%Z -> (k + 1 < Z.of_nat (List.length history))%Z ->
  exists s0,
    experience s0 = experience_load e0 /\
    policy s0 = policy_load policy0 /\
    learn_from_iteration s0 = k /\
    init params plant0 policy0 maxU cost_func (Some e0) async k rng0
    = (s <- revert_to_iteration (episode_labels (experience_load e0))
                                history s0 ;;
       Ok (set_state_changed false s)).
Proof.
  intros Hst Hh Hk Hlen.
  unfold init, load. rewrite Hst. unfold set_state. fields.
  rewrite Hh.
  destruct (k =? -1)%Z eqn:E1; [apply Z.eqb_eq in E1; lia|].
  destruct (Z.of_nat (List.length history) <=? k + 1)%Z eqn:E2;
    [apply Z.leb_le in E2; lia|].
  fields.
  eexists. split; [|split; [|split; [|reflexivity]]]; reflexivity.
Qed.

(** C3, as amended: resuming from an existing iteration [k] cuts the four
    time-aligned arrays at the boundary [n] that follows the entries
    labelled [k], so that every retained entry carries a label at most [k];
    when [k > 0] the policy parameters come from [policy_history[k-1]] and
    the history is cut to exactly [k] entries, and when [k = 0] the
    history is left as it was loaded. *)
Theorem resume_truncates_at_iteration_boundary
    (params : Config) (plant0 : Plant) (policy0 : Params) (maxU : vec)
    (cost_func : option CostEvaluator) (e0 : ExperienceDataset)
    (async : bool) (k : Z) (rng0 : Rng) (st : LearnerState)
    (history : list Params) :
  state_file = Some st ->
  policy_history (experience_load e0) = Present history ->
  (0 <= k)%Z -> (k + 1 < Z.of_nat (List.length history))%Z ->
  nondecreasing (episode_labels (experience_load e0)) = true ->
  In k (episode_labels (experience_load e0)) ->
  (exists l, In l (episode_labels (experience_load e0)) /\ (k < l)%Z) ->
  exists s n,
    init params plant0 policy0 maxU cost_func (Some e0) async k rng0 = Ok s /\
    resumed_at (experience_load e0) history k s n.
Proof.
  intros Hst Hh Hk Hlen Hs Hin Hlater.
  destruct (init_resume_path params plant0 policy0 maxU cost_func e0 async
              k rng0 st history Hst Hh Hk Hlen) as (s0 & He & Hp & Hl & ->).
  destruct (boundary_found _ k Hs Hin Hlater)
    as (n1 & n2 & Hr1 & Hr2 & H12 & Hn2 & Hle & Hrun & Hgt).
  unfold revert_to_iteration. fields. rewrite Hl.
  rewrite Hr1. fields. rewrite Hr2. fields.
  rewrite !slice_to_firstn, He.
  destruct (k =? 0)%Z eqn:E0; fields.
  - apply Z.eqb_eq in E0.
    eexists; exists n2. split; [reflexivity|]. unfold resumed_at.
    cbn. repeat split; try assumption; try lia.
    + apply Hrun; lia.
    + intros _. exact Hh.
  - apply Z.eqb_neq in E0.
    unfold getitem.
    destruct (k - 1 <? 0)%Z eqn:E1; [apply Z.ltb_lt in E1; lia|].
    destruct ((k - 1 <? 0)%Z || (Z.of_nat (List.length history) <=? k - 1)%Z)%bool
      eqn:E2.
    { apply orb_true_iff in E2 as [E2|E2];
        [apply Z.ltb_lt in E2 | apply Z.leb_le in E2]; lia. }
    destruct (nth_error history (Z.to_nat (k - 1))) as [p|] eqn:E3.
    2:{ apply nth_error_None in E3. lia. }
    fields.
    eexists; exists n2. split; [reflexivity|].
    assert (Hcut : slice_to history k = firstn (Z.to_nat k) history).
    { unfold slice_to.
      destruct (k <? 0)%Z eqn:E4; [apply Z.ltb_lt in E4; lia | reflexivity]. }
    unfold resumed_at. cbn. rewrite Hcut. repeat split; try assumption; try lia.
    + apply Hrun; lia.
    + eexists. split; [reflexivity|]. split; [reflexivity|].
      rewrite length_firstn. lia.
Qed.

End Resume.

(** Resuming the three-episode buffer from iteration 1. *)
Lemma resume_truncates_witness :
  exists s n,
    init (robot := Examples.noisy_plant) (storage := Examples.archive)
         (Examples.config "BFGS") O Examples.pA [] None
         (Some Examples.three_episodes) false 1 tt = Ok s /\
    resumed_at (robot := Examples.noisy_plant) Examples.three_episodes
               [Examples.pA; Examples.pB; Examples.pC] 1 s n.
Proof.
  apply (resume_truncates_at_iteration_boundary
           (robot := Examples.noisy_plant) (storage := Examples.archive)
           (Examples.config "BFGS") O Examples.pA [] None
           Examples.three_episodes false 1 tt (Examples.saved_state 3)
           [Examples.pA; Examples.pB; Examples.pC]).
  - reflexivity.
  - reflexivity.
  - lia.
  - simpl. lia.
  - reflexivity.
  - simpl. auto.
  - exists 2%Z. simpl. split; [auto | lia].
Defined.

(** C3 as stated fails for [k = 0]: the buffer is cut after the entries of
    iteration 0, but [policy_history] keeps its three entries instead of
    being cut to none. *)
Lemma resume_from_zero_keeps_history :
  exists s,
    init (robot := Examples.noisy_plant) (storage := Examples.archive)
         (Examples.config "BFGS") O Examples.pA [] None
         (Some Examples.three_episodes) false 0 tt = Ok s /\
    time_stamps (experience s) = [[0%float]] /\
    policy_history (experience s)
    = Present [Examples.pA; Examples.pB; Examples.pC] /\
    List.length [Examples.pA; Examples.pB; Examples.pC] <> Z.to_nat 0.
Proof.
  eexists. split; [vm_compute; reflexivity|].
  split; [reflexivity|]. split; [reflexivity|]. simpl. lia.
Qed.

Section MissingIteration.
Context {robot : Robot} {storage : Storage}.

(** C8: when the archives load and the requested iteration [k] is past the
    end of the loaded [policy_history], the constructor prints the warning,
    blocks on [raw_input()] for the operator, and then continues from the
    loaded (latest) iteration with the buffer and the policy as loaded:
    nothing is truncated. *)
Theorem resume_from_missing_iteration_asks_operator
    (params : Config) (plant0 : Plant) (policy0 : Params) (maxU : vec)
    (cost_func : option CostEvaluator)
    (experience_arg : option ExperienceDataset)
    (async : bool) (k : Z) (rng0 : Rng) (st : LearnerState)
    (history : list Params) :
  let e := experience_load (match experience_arg with
                            | None => fresh_experience
                            | Some e0 => e0
                            end) in
  state_file = Some st ->
  policy_history e = Present history ->
  (Z.of_nat (List.length history) <= k)%Z ->
  exists s,
    init params plant0 policy0 maxU cost_func experience_arg async k rng0
    = Ok s /\
    console s = [Print MsgLoadingState; Print MsgWarnNoIteration; RawInput] /\
    experience s = e /\
    policy s = policy_load policy0 /\
    learning_iteration s = st_learning_iteration st.
Proof.
  intros e Hst Hh Hk. subst e.
  unfold init, load. rewrite Hst. unfold set_state. fields.
  rewrite Hh.
  destruct (k =? -1)%Z eqn:E1; [apply Z.eqb_eq in E1; lia|].
  destruct (Z.of_nat (List.length history) <=? k + 1)%Z eqn:E2;
    [|apply Z.leb_gt in E2; lia].
  fields. eexists. split; [reflexivity|].
  repeat split.
Qed.

End MissingIteration.

(** Asking for iteration 7 of a three-entry history. *)
Lemma resume_from_missing_iteration_witness :
  exists s,
    init (robot := Examples.noisy_plant) (storage := Examples.archive)
         (Examples.config "BFGS") O Examples.pA [] None
         (Some Examples.three_episodes) false 7 tt = Ok s /\
    console s = [Print MsgLoadingState; Print MsgWarnNoIteration; RawInput] /\
    experience s = Examples.three_episodes /\
    policy s = Examples.pA /\
    learning_iteration s = 3%Z.
Proof.
  apply (resume_from_missing_iteration_asks_operator
           (robot := Examples.noisy_plant) (storage := Examples.archive)
           (Examples.config "BFGS") O Examples.pA [] None
           (Some Examples.three_episodes) false 7 tt (Examples.saved_state 3)
           [Examples.pA; Examples.pB; Examples.pC]).
  - reflexivity.
  - reflexivity.
  - simpl. lia.
Defined.

(** *** Training leaves the buffer alone and counts one iteration *)

Section TrainingFrame.
Context {robot : Robot} {trainer : Trainer}.

Lemma same_buffer_refl (s : Learner) : same_buffer s s.
Proof. split; reflexivity. Qed.

Lemma same_buffer_trans (s1 s2 s3 : Learner) :
  same_buffer s1 s2 -> same_buffer s2 s3 -> same_buffer s1 s3.
Proof. intros [H1 H2] [H3 H4]. split; congruence. Qed.

Lemma loss_same_buffer (x : list float) (sh : list (list nat))
    (s s' : Learner) (r : float * list float) :
  loss x sh s = Ok (r, s') -> same_buffer s s'.
Proof.
  unfold loss. fields.
  destruct (value_and_grad (experience s) (unwrap_params x sh)) as [v dv].
  destruct (best_p s) as [|b]; fields; [discriminate|].
  intros Heq. inversion Heq; subst.
  destruct (v <? fst b)%float; split; reflexivity.
Qed.

Lemma run_minimize_same_buffer (r : MinRun) (sh : list (list nat)) :
  forall (s s' : Learner) (o : result (list float)),
    run_minimize r sh s = (s', o) -> same_buffer s s'.
Proof.
  induction r as [x k IH|x|e]; intros s s' o Hrun; simpl in Hrun.
  - destruct (loss x sh s) as [[[v dv] s1]|e] eqn:Hl.
    + apply same_buffer_trans with s1.
      * eapply loss_same_buffer; exact Hl.
      * eapply IH; exact Hrun.
    + injection Hrun as <- _. apply same_buffer_refl.
  - injection Hrun as <- _. apply same_buffer_refl.
  - injection Hrun as <- _. apply same_buffer_refl.
Qed.

Lemma try_methods_same_buffer (ms : list string) (sh : list (list nat)) :
  forall (p0 : Params) (s s' : Learner),
    try_methods ms p0 sh s = Ok s' -> same_buffer s s'.
Proof.
  induction ms as [|m rest IH]; intros p0 s s' Htry; simpl in Htry.
  - injection Htry as <-. apply same_buffer_refl.
  - destruct (run_minimize _ sh (print_with_stamp (MsgUsing m) s))
      as [s1 o] eqn:Hrun.
    apply run_minimize_same_buffer in Hrun.
    destruct o as [x|e].
    + injection Htry as <-. destruct Hrun as [H1 H2]. split; assumption.
    + destruct e; try discriminate.
      fields. destruct (best_p s1) as [|b]; fields; [discriminate|].
      apply IH in Htry. destruct Hrun as [H1 H2], Htry as [H3 H4].
      split; [rewrite H3 | rewrite H4]; assumption.
Qed.

Lemma stochastic_loop_same_buffer (n : nat) :
  forall (s s' : Learner),
    stochastic_loop n s = Ok s' -> same_buffer s s'.
Proof.
  induction n as [|n IH]; intros s s' Hloop; simpl in Hloop.
  - injection Hloop as <-. apply same_buffer_refl.
  - destruct (train_fn s) as [|fn]; fields; [discriminate|].
    destruct (train_fn_step fn (experience s) (policy s)) as [[v p] fn'].
    fields. destruct (best_p s) as [|b]; fields; [discriminate|].
    apply IH in Hloop. destruct Hloop as [H1 H2].
    destruct (v <? fst b)%float; split; assumption.
Qed.

(** A completed [train_policy] has counted one more iteration, has marked
    the state dirty and has not touched the experience buffer. *)
Lemma train_policy_counts_one (H_arg : option float) (s s' : Learner) :
  train_policy H_arg s = Ok s' ->
  experience s' = experience s /\
  learning_iteration s' = (learning_iteration s + 1)%Z /\
  state_changed s' = true.
Proof.
  unfold train_policy.
  set (s0 := match H_arg with Some h => set_H h s | None => s end).
  assert (H0 : same_buffer s s0) by (subst s0; destruct H_arg; split; reflexivity).
  destruct H0 as [He Hi].
  fields.
  match goal with
  | |- context [try_methods ?ms ?p ?sh ?st] =>
      set (entry := st); set (methods := ms); set (shapes := sh); set (p0 := p)
  end.
  assert (Hentry : experience entry = experience s /\
                   learning_iteration entry = (learning_iteration s + 1)%Z).
  { subst entry. fields. split; congruence. }
  destruct Hentry as [Hee Hei].
  destruct (str_in (upper (min_method s0)) DETERMINISTIC_MIN_METHODS).
  - destruct (try_methods methods p0 shapes entry) as [s1|e] eqn:Htry;
      fields; [|discriminate].
    apply try_methods_same_buffer in Htry. destruct Htry as [H1 H2].
    intros Heq. injection Heq as <-. fields.
    repeat split; congruence.
  - destruct (str_in (upper (min_method s0)) STOCHASTIC_MIN_METHODS);
      fields; [|discriminate].
    match goal with
    | |- context [xrange ?m ?k] => destruct (xrange m k) as [n|]
    end; fields; [|discriminate].
    match goal with
    | |- context [stochastic_loop ?k ?st] =>
        destruct (stochastic_loop k st) as [s1|e] eqn:Hloop
    end; fields; [|discriminate].
    apply stochastic_loop_same_buffer in Hloop. destruct Hloop as [H1 H2].
    intros Heq. injection Heq as <-. fields.
    destruct (train_fn s0); fields; repeat split; congruence.
Qed.

End TrainingFrame.

(** *** The fallback ordering of the deterministic minimizers *)

Section Fallback.
Context {robot : Robot} {trainer : Trainer}.

Lemma try_methods_after_failures (shapes : list (list nat))
    (pre rest : list string) (p0 p1 : Params) (s s1 : Learner) :
  fails_through shapes pre p0 s p1 s1 ->
  try_methods (pre ++ rest) p0 shapes s = try_methods rest p1 shapes s1.
Proof.
  induction 1 as [|m ms p0 s s' b p1 s1 Hatt Hb _ IH]; [reflexivity|].
  simpl. unfold attempt in Hatt. fields. rewrite Hatt. fields.
  rewrite Hb. fields. exact IH.
Qed.

Lemma fails_through_restores (shapes : list (list nat)) (ms : list string)
    (p0 p1 : Params) (s s1 : Learner) :
  fails_through shapes ms p0 s p1 s1 -> ms <> [] ->
  policy s1 = p1 /\ exists v, best_p s1 = Present (v, p1).
Proof.
  induction 1 as [|m ms p0 s s' b p1 s1 Hatt Hb Hrest IH]; intros Hne.
  - congruence.
  - destruct ms as [|m' ms'].
    + inversion Hrest; subst. unfold restored. fields.
      split; [reflexivity|]. exists (fst b). rewrite Hb. now destruct b.
    + apply IH. discriminate.
Qed.

Lemma fallback_methods_order (m : string) :
  In m DETERMINISTIC_MIN_METHODS ->
  fallback_methods m
  = m :: filter (fun d => negb (String.eqb d m)) DETERMINISTIC_MIN_METHODS.
Proof.
  intros Hin. simpl in Hin.
  repeat (destruct Hin as [<-|Hin]; [vm_compute; reflexivity|]).
  destruct Hin.
Qed.

Lemma str_in_In (x : string) (l : list string) :
  In x l -> str_in x l = true.
Proof.
  intros Hin. unfold str_in. apply existsb_exists.
  exists x. split; [exact Hin | apply String.eqb_refl].
Qed.

(** [train_policy] on the deterministic branch, reduced to the loop over
    the methods. *)
Lemma train_policy_deterministic (H_arg : option float) (s : Learner) :
  In (upper (min_method s)) DETERMINISTIC_MIN_METHODS ->
  train_policy H_arg s
  = (s' <- try_methods (fallback_methods (upper (min_method s))) (policy s)
                       (map shape (policy s)) (at_first_attempt H_arg s) ;;
     Ok (finish s')).
Proof.
  intros Hin. unfold train_policy, at_first_attempt, finish.
  assert (Hm : min_method (match H_arg with Some h => set_H h s | None => s end)
               = min_method s) by now destruct H_arg.
  assert (Hp : policy (match H_arg with Some h => set_H h s | None => s end)
               = policy s) by now destruct H_arg.
  fields. rewrite Hm, Hp, (str_in_In _ _ Hin).
  destruct (try_methods _ _ _ _); reflexivity.
Qed.

End Fallback.

Section FallbackTheorem.
Context {robot : Robot} {trainer : Trainer}.

(** C1, as amended: with a configured deterministic method [m], the
    methods are tried in the order [m], then the remaining ones of
    L-BFGS-B, TNC, BFGS, SLSQP, CG; after every [ValueError] the policy is
    put back to the best-known parameters and the next method starts from
    them; the first method that returns ends the loop; and when every
    method has failed, [train_policy] still returns normally, with the
    policy on the best-known parameters. *)
Theorem train_policy_falls_back_in_order
    (H_arg : option float) (s : Learner) (m : string) :
  upper (min_method s) = m ->
  In m DETERMINISTIC_MIN_METHODS ->
  let shapes := map shape (policy s) in
  let s0 := at_first_attempt H_arg s in
  fallback_methods m
  = m :: filter (fun d => negb (String.eqb d m)) DETERMINISTIC_MIN_METHODS /\
  (forall pre p1 s1,
      pre <> [] ->
      fails_through shapes pre (policy s) s0 p1 s1 ->
      policy s1 = p1 /\ exists v, best_p s1 = Present (v, p1)) /\
  (forall pre ok post p1 s1 s2 x,
      fallback_methods m = pre ++ ok :: post ->
      fails_through shapes pre (policy s) s0 p1 s1 ->
      attempt ok p1 shapes s1 = (s2, Ok x) ->
      train_policy H_arg s
      = Ok (finish (set_policy (unwrap_params x shapes) s2))) /\
  (forall p1 s1,
      fails_through shapes (fallback_methods m) (policy s) s0 p1 s1 ->
      train_policy H_arg s = Ok (finish s1) /\
      policy s1 = p1 /\ exists v, best_p s1 = Present (v, p1)).
Proof.
  intros Hm Hin shapes s0. subst shapes s0.
  assert (Hdet : In (upper (min_method s)) DETERMINISTIC_MIN_METHODS)
    by (rewrite Hm; exact Hin).
  split; [apply fallback_methods_order; exact Hin|].
  split; [|split].
  - intros pre p1 s1 Hne Hfail.
    eapply fails_through_restores; eassumption.
  - intros pre ok post p1 s1 s2 x Hsplit Hfail Hok.
    rewrite (train_policy_deterministic H_arg s Hdet), Hm, Hsplit.
    rewrite (try_methods_after_failures _ pre (ok :: post) _ _ _ _ Hfail).
    simpl. unfold attempt in Hok. fields. rewrite Hok. reflexivity.
  - intros p1 s1 Hfail.
    split.
    + rewrite (train_policy_deterministic H_arg s Hdet), Hm.
      rewrite <- (app_nil_r (fallback_methods m)).
      rewrite (try_methods_after_failures _ _ [] _ _ _ _ Hfail).
      reflexivity.
    + eapply fails_through_restores; [exact Hfail|].
      rewrite (fallback_methods_order m Hin). discriminate.
Qed.

End FallbackTheorem.

(** Configured with [bfgs], in a setting where BFGS and L-BFGS-B raise:
    TNC is the third method tried and the first to return, and SLSQP and CG
    are never started. *)
Lemma train_policy_falls_back_witness :
  exists s',
    train_policy (robot := Examples.noisy_plant)
      (trainer := Examples.trainer_with
                    (Examples.fails_on ["BFGS"; "L-BFGS-B"]%string))
      None (Examples.learner "bfgs") = Ok s' /\
    console s'
    = [Print (MsgTraining 1); Print (MsgInitialValue 1);
       Print (MsgUsing "BFGS"); Print (MsgCurrentValue 1 1);
       Print (MsgFailed "BFGS"); Print (MsgUsing "L-BFGS-B");
       Print (MsgCurrentValue 1 2); Print (MsgFailed "L-BFGS-B");
       Print (MsgUsing "TNC"); Print (MsgCurrentValue 1 3);
       Print (MsgDoneTraining 1)].
Proof.
  destruct (train_policy_falls_back_in_order
              (robot := Examples.noisy_plant)
              (trainer := Examples.trainer_with
                            (Examples.fails_on ["BFGS"; "L-BFGS-B"]%string))
              None (Examples.learner "bfgs") "BFGS"%string)
    as (_ & _ & Hfirst & _).
  - reflexivity.
  - simpl. auto.
  - eexists. split.
    + eapply (Hfirst ["BFGS"; "L-BFGS-B"]%string "TNC"%string
                    ["SLSQP"; "CG"]%string).
      * reflexivity.
      * eapply fails_cons; [lazy; reflexivity | reflexivity |].
        eapply fails_cons; [lazy; reflexivity | reflexivity |].
        apply fails_nil.
      * lazy. reflexivity.
    + reflexivity.
Defined.

(** C1 as stated fails where it makes the exhausted list fatal: with every
    method raising [ValueError], all five are tried and [train_policy]
    returns normally. *)
Lemma train_policy_all_methods_fail_no_error :
  exists s',
    train_policy (robot := Examples.noisy_plant)
      (trainer := Examples.trainer_with Examples.always_fails)
      None (Examples.learner "bfgs") = Ok s' /\
    raises (train_policy (robot := Examples.noisy_plant)
              (trainer := Examples.trainer_with Examples.always_fails)
              None (Examples.learner "bfgs")) = false /\
    console s'
    = [Print (MsgTraining 1); Print (MsgInitialValue 1);
       Print (MsgUsing "BFGS"); Print (MsgCurrentValue 1 1);
       Print (MsgFailed "BFGS"); Print (MsgUsing "L-BFGS-B");
       Print (MsgCurrentValue 1 2); Print (MsgFailed "L-BFGS-B");
       Print (MsgUsing "TNC"); Print (MsgCurrentValue 1 3);
       Print (MsgFailed "TNC"); Print (MsgUsing "SLSQP");
       Print (MsgCurrentValue 1 4); Print (MsgFailed "SLSQP");
       Print (MsgUsing "CG"); Print (MsgCurrentValue 1 5);
       Print (MsgFailed "CG"); Print (MsgDoneTraining 1)] /\
    policy s' = Examples.pA.
Proof.
  eexists. split; [vm_compute; reflexivity|].
  split; [vm_compute; reflexivity|].
  split; reflexivity.
Qed.

(** *** What a rollout leaves alone *)

Section RolloutFrame.
Context {robot : Robot}.

Lemma same_history_refl (s : Learner) : same_history s s.
Proof. split; reflexivity. Qed.

Lemma same_history_trans (s1 s2 s3 : Learner) :
  same_history s1 s2 -> same_history s2 s3 -> same_history s1 s3.
Proof. intros [H1 H2] [H3 H4]. split; congruence. Qed.

Lemma add_sample_history (t : float) (x u : vec) (c : cost_sample)
    (e e' : ExperienceDataset) :
  add_sample t x u c e = Ok e' -> policy_history e' = policy_history e.
Proof.
  unfold add_sample.
  destruct (push_last t (time_stamps e)); fields; [|discriminate].
  destruct (push_last x (states e)); fields; [|discriminate].
  destruct (push_last u (actions e)); fields; [|discriminate].
  destruct (push_last c (immediate_cost e)); fields; [|discriminate].
  intros Heq. inversion Heq. reflexivity.
Qed.

Lemma record_sample_history (t : float) (x u : vec) (Sx : matrix)
    (s s' : Learner) :
  record_sample t x u Sx s = Ok s' -> same_history s s'.
Proof.
  unfold record_sample.
  destruct (evaluate_cost s) as [|ec]; fields; [discriminate|].
  destruct ec as [f|];
    match goal with
    | |- context [add_sample ?a ?b ?c ?d ?e] =>
        destruct (add_sample a b c d e) as [e'|] eqn:Hadd
    end; fields; try discriminate;
    intros Heq; inversion Heq; subst;
    apply add_sample_history in Hadd; split; fields; auto.
Qed.

Lemma randomize_state_history (L : matrix) (x : vec) (s : Learner) :
  same_history s (snd (randomize_state L x s)).
Proof.
  unfold randomize_state.
  destruct (plant_noise (plant s)); [|apply same_history_refl].
  destruct (randn (List.length x) (rng s)). split; reflexivity.
Qed.

Lemma evaluate_policy_history (rc : bool) (x : vec) (s : Learner) :
  same_history s (snd (evaluate_policy rc x s)).
Proof.
  unfold evaluate_policy. destruct rc; [|apply same_history_refl].
  destruct (rand_policy_evaluate (policy_maxU s) x (rng s)).
  split; reflexivity.
Qed.

Lemma rollout_body_history (rc : bool) (L Sx : matrix)
    (ls ls' : Locals * Learner) :
  rollout_body rc L Sx ls = Ok ls' -> same_history (snd ls) (snd ls').
Proof.
  destruct ls as [l s]. unfold rollout_body.
  pose proof (evaluate_policy_history rc (gTrig_np (lx_t l) (angle_idims s)) s)
    as Hev.
  destruct (evaluate_policy rc (gTrig_np (lx_t l) (angle_idims s)) s)
    as [u s1].
  fields.
  destruct (record_sample (lt l) (lx_t l) u Sx
              (set_plant (plant_apply_control u (plant s1)) s1))
    as [s2|] eqn:Hrec; fields; [|discriminate].
  apply record_sample_history in Hrec.
  set (s3 := if negb (async_plant s2)
             then set_plant (plant_step (plant s2)) s2 else s2).
  assert (H3 : same_history s2 s3)
    by (subst s3; destruct (async_plant s2); split; reflexivity).
  destruct (plant_get_state (plant s3)) as [[x t] p].
  pose proof (randomize_state_history L x (set_plant p s3)) as Hrand.
  destruct (randomize_state L x (set_plant p s3)) as [x' s4].
  intros Heq. inversion Heq; subst. fields.
  destruct Hev as [A1 A2], Hrec as [B1 B2], H3 as [C1 C2], Hrand as [D1 D2].
  fields. split; congruence.
Qed.

Lemma rollout_history (n : nat) (rc : bool) (L Sx : matrix) :
  forall ls ls' : Locals * Learner,
    rollout n rc L Sx ls = Ok ls' -> same_history (snd ls) (snd ls').
Proof.
  induction n as [|n IH]; intros ls ls' Hroll; simpl in Hroll.
  - inversion Hroll. apply same_history_refl.
  - destruct (rollout_body rc L Sx ls) as [ls1|] eqn:Hbody;
      fields; [|discriminate].
    apply rollout_body_history in Hbody.
    destruct (plant_done (plant (snd ls1))).
    + inversion Hroll; subst. exact Hbody.
    + eapply same_history_trans; [exact Hbody | apply IH; exact Hroll].
Qed.

End RolloutFrame.

Section HistoryInvariant.
Context {robot : Robot} {trainer : Trainer}.

Lemma apply_controller_loop_history (H_arg : option float) (rc : bool)
    (s : Learner) (Sx : matrix) (ls : Locals * Learner) :
  apply_controller_loop H_arg rc s = Ok (Sx, ls) -> same_history s (snd ls).
Proof.
  unfold apply_controller_loop. fields.
  set (s1 := set_experience _ _).
  assert (H1 : same_history s s1) by (subst s1; split; reflexivity).
  set (s2 := if async_plant s then _ else _).
  assert (H2 : same_history s1 s2)
    by (subst s2; destruct (async_plant s); split; reflexivity).
  destruct (plant_get_state (plant s2)) as [[x t0] p].
  fields.
  destruct (np_linalg_cholesky (plant_noise p)) as [L|]; fields;
    [|discriminate].
  pose proof (randomize_state_history L x (set_plant p s2)) as H3.
  destruct (randomize_state L x (set_plant p s2)) as [x' s3].
  destruct (truediv _ _) as [q|]; fields; [|discriminate].
  destruct (int_ceil q) as [n|]; fields; [|discriminate].
  destruct (xrange sys_maxint n) as [k|]; fields; [|discriminate].
  destruct (rollout _ _ _ _ _) as [ls1|] eqn:Hroll; fields; [|discriminate].
  apply rollout_history in Hroll.
  intros Heq. inversion Heq; subst.
  destruct H1 as [A1 A2], H2 as [B1 B2], H3 as [C1 C2], Hroll as [D1 D2].
  fields.
  split; [rewrite D1, C1, B1; exact A1 | rewrite D2, C2, B2; exact A2].
Qed.

Lemma apply_controller_history (H_arg : option float) (rc : bool)
    (s s' : Learner) :
  apply_controller H_arg rc s = Ok s' -> same_history s s'.
Proof.
  unfold apply_controller.
  destruct (apply_controller_loop H_arg rc s) as [[Sx [l s1]]|] eqn:Hloop;
    fields; [|discriminate].
  apply apply_controller_loop_history in Hloop.
  destruct (lu_t l) as [u|]; fields; [|discriminate].
  destruct (record_sample _ _ _ _ _) as [s2|] eqn:Hrec; fields;
    [|discriminate].
  apply record_sample_history in Hrec.
  destruct (getitem _ _); fields; [|discriminate].
  intros Heq. inversion Heq; subst.
  destruct Hloop as [A1 A2], Hrec as [B1 B2].
  unfold same_history. fields.
  split; [rewrite B1; exact A1 | rewrite B2; exact A2].
Qed.

(** C7, as amended: when the buffer has a [policy_history] whose length
    equals the iteration counter, a completed [train_policy] followed by
    [save] appends the trained parameters and leaves the two equal again,
    and a completed [apply_controller] changes neither of them. *)
Theorem history_length_follows_training
    (H_arg H_run : option float) (random_controls : bool)
    (s : Learner) (h : list Params) :
  policy_history (experience s) = Present h ->
  Z.of_nat (List.length h) = learning_iteration s ->
  (forall s1,
      train_policy H_arg s = Ok s1 ->
      policy_history (experience (save s1)) = Present (h ++ [policy s1]) /\
      Z.of_nat (List.length (h ++ [policy s1]))
      = learning_iteration (save s1)) /\
  (forall s2,
      apply_controller H_run random_controls s = Ok s2 ->
      policy_history (experience s2) = Present h /\
      learning_iteration s2 = learning_iteration s).
Proof.
  intros Hh Hlen. split.
  - intros s1 Htrain.
    destruct (train_policy_counts_one H_arg s s1 Htrain) as (He & Hi & Hc).
    unfold save. rewrite He, Hh. fields. rewrite Hc. fields.
    split; [reflexivity|].
    rewrite length_app. simpl. lia.
  - intros s2 Hrun.
    destruct (apply_controller_history H_run random_controls s s2 Hrun)
      as [H1 H2].
    split; congruence.
Qed.

End HistoryInvariant.

(** One training iteration and a save on the fresh learner. *)
Lemma history_length_follows_training_witness :
  exists s1,
    train_policy (robot := Examples.noisy_plant)
      (trainer := Examples.trainer_with (Examples.fails_on []))
      None (Examples.learner "bfgs") = Ok s1 /\
    policy_history (experience (save s1)) = Present ([] ++ [policy s1]) /\
    Z.of_nat (List.length ([] ++ [policy s1])) = learning_iteration (save s1).
Proof.
  eexists. split; [vm_compute; reflexivity|].
  apply (history_length_follows_training
           (robot := Examples.noisy_plant)
           (trainer := Examples.trainer_with (Examples.fails_on []))
           None None false (Examples.learner "bfgs") []).
  - reflexivity.
  - reflexivity.
  - vm_compute. reflexivity.
Defined.

(** C7 as stated fails where it says that nothing else changes the
    equality.  The archives load with three history entries at iteration 3;
    resuming from iteration 1 leaves one entry at iteration 2, and a second
    [save] without training leaves four entries at iteration 3. *)
Lemma history_length_changed_by_resume_and_by_save :
  exists loaded resumed,
    init (robot := Examples.noisy_plant) (storage := Examples.archive)
         (Examples.config "BFGS") O Examples.pA [] None
         (Some Examples.three_episodes) false (-1) tt = Ok loaded /\
    policy_history (experience loaded)
    = Present [Examples.pA; Examples.pB; Examples.pC] /\
    learning_iteration loaded = 3%Z /\
    init (robot := Examples.noisy_plant) (storage := Examples.archive)
         (Examples.config "BFGS") O Examples.pA [] None
         (Some Examples.three_episodes) false 1 tt = Ok resumed /\
    policy_history (experience resumed) = Present [Examples.pA] /\
    learning_iteration resumed = 2%Z /\
    policy_history (experience (save loaded))
    = Present [Examples.pA; Examples.pB; Examples.pC; Examples.pA] /\
    learning_iteration (save loaded) = 3%Z.
Proof.
  eexists. eexists.
  split; [vm_compute; reflexivity|].
  split; [reflexivity|]. split; [reflexivity|].
  split; [vm_compute; reflexivity|].
  repeat split.
Qed.

(** *** Counting the samples of a rollout *)

Lemma push_last_app {A : Type} (x : A) (l : list (list A)) (ep : list A) :
  push_last x (l ++ [ep]) = Ok (l ++ [ep ++ [x]]).
Proof.
  induction l as [|a l IH]; [reflexivity|].
  simpl. rewrite IH. simpl.
  destruct (l ++ [ep]) eqn:E; [|reflexivity].
  now destruct l.
Qed.

Lemma add_sample_recorded (pre e : ExperienceDataset) (ts : list float)
    (xs us : list vec) (cs : list cost_sample) (t : float) (x u : vec)
    (c : cost_sample) :
  recorded pre e ts xs us cs ->
  exists e',
    add_sample t x u c e = Ok e' /\
    recorded pre e' (ts ++ [t]) (xs ++ [x]) (us ++ [u]) (cs ++ [c]).
Proof.
  intros (Ht & Hx & Hu & Hc & L1 & L2 & L3).
  unfold add_sample. rewrite Ht, Hx, Hu, Hc, !push_last_app. simpl.
  eexists. split; [reflexivity|].
  unfold recorded. simpl. rewrite !length_app. simpl.
  repeat split; lia.
Qed.

Section Counting.
Context {robot : Robot}.

Lemma record_sample_recorded (pre : ExperienceDataset) (s : Learner)
    (ec : option CostEvaluator) (ts : list float) (xs us : list vec)
    (cs : list cost_sample) (t : float) (x u : vec) (Sx : matrix) :
  evaluate_cost s = Present ec ->
  recorded pre (experience s) ts xs us cs ->
  exists e' c,
    record_sample t x u Sx s = Ok (set_experience e' s) /\
    recorded pre e' (ts ++ [t]) (xs ++ [x]) (us ++ [u]) (cs ++ [c]) /\
    (ec = None -> c = CostInt 0).
Proof.
  intros Hec Hrec. unfold record_sample. rewrite Hec. fields.
  destruct ec as [f|].
  - destruct (add_sample_recorded _ _ _ _ _ _ t x u (CostEval (f x Sx)) Hrec)
      as (e' & Hadd & Hrec').
    rewrite Hadd. fields. exists e', (CostEval (f x Sx)).
    split; [reflexivity|]. split; [exact Hrec' | discriminate].
  - destruct (add_sample_recorded _ _ _ _ _ _ t x u (CostInt 0) Hrec)
      as (e' & Hadd & Hrec').
    rewrite Hadd. fields. exists e', (CostInt 0).
    split; [reflexivity|]. split; [exact Hrec' | reflexivity].
Qed.

(** One pass through the loop body stores one sample. *)
Lemma rollout_body_records (pre : ExperienceDataset) (rc : bool)
    (L Sx : matrix) (l : Locals) (s : Learner) (ec : option CostEvaluator)
    (ts : list float) (xs us : list vec) (cs : list cost_sample) :
  evaluate_cost s = Present ec ->
  recorded pre (experience s) ts xs us cs ->
  exists l' s' t x u c,
    rollout_body rc L Sx (l, s) = Ok (l', s') /\
    evaluate_cost s' = Present ec /\
    lu_t l' = Some u /\
    recorded pre (experience s') (ts ++ [t]) (xs ++ [x]) (us ++ [u])
             (cs ++ [c]) /\
    (ec = None -> c = CostInt 0).
Proof.
  intros Hec Hrec. unfold rollout_body.
  destruct (evaluate_policy rc (gTrig_np (lx_t l) (angle_idims s)) s)
    as [u s1] eqn:Hev.
  assert (H1 : evaluate_cost s1 = evaluate_cost s /\
               experience s1 = experience s).
  { unfold evaluate_policy in Hev. destruct rc.
    - destruct (rand_policy_evaluate _ _ _). inversion Hev. split; reflexivity.
    - inversion Hev. split; reflexivity. }
  destruct H1 as [Hec1 Hex1].
  set (s2 := set_plant (plant_apply_control u (plant s1)) s1).
  assert (Hec2 : evaluate_cost s2 = Present ec) by (subst s2; fields; congruence).
  assert (Hrec2 : recorded pre (experience s2) ts xs us cs)
    by (subst s2; fields; rewrite Hex1; exact Hrec).
  destruct (record_sample_recorded pre s2 ec ts xs us cs (lt l) (lx_t l) u Sx
              Hec2 Hrec2) as (e' & c & Hr & Hrec' & Hc).
  rewrite Hr. fields.
  set (s3 := if negb (async_plant s2) then _ else _).
  assert (H3 : evaluate_cost s3 = Present ec /\ experience s3 = e').
  { subst s3. destruct (async_plant s2); fields; split;
      solve [reflexivity | subst s2; fields; congruence]. }
  destruct H3 as [Hec3 Hex3].
  destruct (plant_get_state (plant s3)) as [[x' t'] p].
  destruct (randomize_state L x' (set_plant p s3)) as [x'' s4] eqn:Hrand.
  assert (H4 : evaluate_cost s4 = Present ec /\ experience s4 = e').
  { unfold randomize_state in Hrand. fields.
    destruct (plant_noise p).
    - destruct (randn _ _). inversion Hrand. fields. split; assumption.
    - inversion Hrand. fields. split; assumption. }
  destruct H4 as [Hec4 Hex4].
  exists (mkLocals x'' t' (Some u)), s4, (lt l), (lx_t l), u, c.
  split; [reflexivity|]. split; [exact Hec4|]. split; [reflexivity|].
  rewrite Hex4. split; assumption.
Qed.

End Counting.

Section CountingRollout.
Context {robot : Robot}.

(** [n] passes through the loop store [n] samples when the plant never
    reports completion. *)
Lemma rollout_records (pre : ExperienceDataset) (rc : bool) (L Sx : matrix)
    (ec : option CostEvaluator) :
  (forall p, plant_done p = false) ->
  forall (n : nat) (l : Locals) (s : Learner) (ts : list float)
         (xs us : list vec) (cs : list cost_sample),
    evaluate_cost s = Present ec ->
    recorded pre (experience s) ts xs us cs ->
    exists l' s' ts' xs' us' cs',
      rollout n rc L Sx (l, s) = Ok (l', s') /\
      evaluate_cost s' = Present ec /\
      recorded pre (experience s') (ts ++ ts') (xs ++ xs') (us ++ us')
               (cs ++ cs') /\
      List.length ts' = n /\
      (n <> O -> exists u, lu_t l' = Some u) /\
      (ec = None -> Forall (fun c => c = CostInt 0) cs').
Proof.
  intros Hdone.
  induction n as [|n IH]; intros l s ts xs us cs Hec Hrec.
  - exists l, s, [], [], [], []. rewrite !app_nil_r.
    split; [reflexivity|]. split; [exact Hec|]. split; [exact Hrec|].
    split; [reflexivity|]. split.
    + intros H0. congruence.
    + intros _. constructor.
  - destruct (rollout_body_records pre rc L Sx l s ec ts xs us cs Hec Hrec)
      as (l1 & s1 & t & x & u & c & Hbody & Hec1 & Hu & Hrec1 & Hc).
    destruct (IH l1 s1 _ _ _ _ Hec1 Hrec1)
      as (l2 & s2 & ts' & xs' & us' & cs' & Hroll & Hec2 & Hrec2 & Hlen
          & Hlast & Hcs).
    exists l2, s2, (t :: ts'), (x :: xs'), (u :: us'), (c :: cs').
    cbn [rollout]. rewrite Hbody. fields. rewrite Hdone, Hroll.
    split; [reflexivity|]. split; [exact Hec2|].
    rewrite <- !app_assoc in Hrec2. simpl in Hrec2.
    split; [exact Hrec2|]. split; [simpl; lia|]. split.
    + intros _. destruct n as [|n'].
      * simpl in Hroll. inversion Hroll; subst. exists u. exact Hu.
      * apply Hlast. discriminate.
    + intros Hnone. constructor; [apply Hc; exact Hnone | apply Hcs; exact Hnone].
Qed.

Lemma zeros_like_zero (u : vec) :
  Forall (fun a => a = 0%float) (zeros_like u).
Proof.
  unfold zeros_like. induction u; simpl; constructor; auto.
Qed.

Lemma horizon_steps : Py.bind (truediv one tenth) int_ceil = Ok 10%Z.
Proof. vm_compute. reflexivity. Qed.

End CountingRollout.

Lemma getitem_last {A : Type} (l : list A) (a : A) :
  getitem (l ++ [a]) (-1) = Ok a.
Proof.
  unfold getitem. rewrite length_app. simpl List.length.
  change (-1 <? 0)%Z with true. cbv iota.
  replace (-1 + Z.of_nat (List.length l + 1))%Z with (Z.of_nat (List.length l))
    by lia.
  destruct (Z.of_nat (List.length l) <? 0)%Z eqn:E1;
    [apply Z.ltb_lt in E1; lia|].
  destruct (Z.of_nat (List.length l + 1) <=? Z.of_nat (List.length l))%Z eqn:E2;
    [apply Z.leb_le in E2; lia|].
  simpl. rewrite Nat2Z.id, nth_error_app2, Nat.sub_diag; [reflexivity | lia].
Qed.

Lemma xrange_fits (maxint n : Z) :
  (- maxint - 1 <= n <= maxint)%Z -> xrange maxint n = Ok (Z.to_nat n).
Proof.
  intros Hn. unfold xrange.
  destruct (maxint <? n)%Z eqn:E1; [apply Z.ltb_lt in E1; lia|].
  destruct (n <? - maxint - 1)%Z eqn:E2; [apply Z.ltb_lt in E2; lia|].
  reflexivity.
Qed.

Section TenPlusOne.
Context {robot : Robot}.

(** The loop of [apply_controller(H=1.0)] on a plant with [dt = 0.1] that
    never reports completion: ten samples. *)
Lemma apply_controller_loop_records_ten (random_controls : bool)
    (s : Learner) (ec : option CostEvaluator) :
  (forall p, plant_dt p = tenth) ->
  (forall p, plant_done p = false) ->
  (forall p, exists L, np_linalg_cholesky (plant_noise p) = Ok L) ->
  evaluate_cost s = Present ec ->
  exists Sx l s_loop ts xs us cs u_last,
    apply_controller_loop (Some one) random_controls s
    = Ok (Sx, (l, s_loop)) /\
    evaluate_cost s_loop = Present ec /\
    recorded (experience s) (experience s_loop) ts xs us cs /\
    List.length ts = 10%nat /\
    lu_t l = Some u_last /\
    (ec = None -> Forall (fun c => c = CostInt 0) cs).
Proof.
  intros Hdt Hdone Hchol Hec.
  unfold apply_controller_loop. fields.
  set (s1 := set_experience _ _).
  assert (H1 : evaluate_cost s1 = Present ec /\
               recorded (experience s) (experience s1) [] [] [] []).
  { subst s1. fields. split; [exact Hec|].
    unfold recorded, new_episode. simpl. repeat split. }
  destruct H1 as [Hec1 Hrec1].
  set (s2 := if async_plant s then _ else _).
  assert (H2 : evaluate_cost s2 = Present ec /\
               recorded (experience s) (experience s2) [] [] [] []).
  { subst s2. destruct (async_plant s); fields; split; assumption. }
  destruct H2 as [Hec2 Hrec2].
  destruct (plant_get_state (plant s2)) as [[x0 t0] p]. fields.
  destruct (Hchol p) as [L HL]. rewrite HL. fields.
  destruct (randomize_state L x0 (set_plant p s2)) as [x0' s3] eqn:Hrand.
  assert (H3 : evaluate_cost s3 = Present ec /\
               recorded (experience s) (experience s3) [] [] [] []).
  { unfold randomize_state in Hrand. fields.
    destruct (plant_noise p).
    - destruct (randn _ _). inversion Hrand. fields. split; assumption.
    - inversion Hrand. fields. split; assumption. }
  destruct H3 as [Hec3 Hrec3].
  rewrite Hdt.
  change (truediv one tenth) with (Ok 10%float). fields.
  change (int_ceil 10%float) with (Ok 10%Z). fields.
  rewrite (xrange_fits sys_maxint 10)
    by (pose proof sys_maxint_min; lia).
  fields.
  change (Z.to_nat 10) with 10%nat.
  destruct (rollout_records (experience s) random_controls L
              (zeros (List.length x0)) ec Hdone 10
              (mkLocals x0' t0 None) s3 [] [] [] [] Hec3 Hrec3)
    as (l' & s' & ts & xs & us & cs & Hroll & Hec' & Hrec' & Hlen & Hlast
        & Hcs).
  rewrite Hroll. fields.
  destruct Hlast as [u Hu]; [discriminate|].
  exists (zeros (List.length x0)), l', s', ts, xs, us, cs, u.
  split; [reflexivity|]. split; [exact Hec'|]. split; [exact Hrec'|].
  split; [exact Hlen|]. split; [exact Hu | exact Hcs].
Qed.

(** Where the Cholesky factorization of the noise covariance succeeds and
    the [evaluate_cost] attribute is set, on a plant with [dt = 0.1] that
    never reports completion [apply_controller(H=1.0)] stores exactly ten
    samples in the loop ([ceil(H/dt)] passes) and then exactly one more,
    whose action is all zeros. *)
Lemma apply_controller_records_ten_plus_one (random_controls : bool)
    (s : Learner) (ec : option CostEvaluator) :
  (forall p, plant_dt p = tenth) ->
  (forall p, plant_done p = false) ->
  (forall p, exists L, np_linalg_cholesky (plant_noise p) = Ok L) ->
  evaluate_cost s = Present ec ->
  Py.bind (truediv one tenth) int_ceil = Ok 10%Z /\
  exists Sx l s_loop s' ts xs us cs t x u c,
    apply_controller_loop (Some one) random_controls s
    = Ok (Sx, (l, s_loop)) /\
    recorded (experience s) (experience s_loop) ts xs us cs /\
    List.length ts = 10%nat /\
    apply_controller (Some one) random_controls s = Ok s' /\
    recorded (experience s) (experience s')
             (ts ++ [t]) (xs ++ [x]) (us ++ [u]) (cs ++ [c]) /\
    Forall (fun a => a = 0%float) u.
Proof.
  intros Hdt Hdone Hchol Hec.
  split; [apply horizon_steps|].
  destruct (apply_controller_loop_records_ten random_controls s ec
              Hdt Hdone Hchol Hec)
    as (Sx & l & s_loop & ts & xs & us & cs & u_last & Hloop & Hec' & Hrec
        & Hlen & Hu & _).
  destruct (record_sample_recorded (experience s) s_loop ec ts xs us cs
              (lt l) (lx_t l) (zeros_like u_last) Sx Hec' Hrec)
    as (e' & c & Hr & Hrec' & _).
  exists Sx, l, s_loop.
  eexists. exists ts, xs, us, cs, (lt l), (lx_t l), (zeros_like u_last), c.
  split; [exact Hloop|]. split; [exact Hrec|]. split; [exact Hlen|].
  split.
  - unfold apply_controller. rewrite Hloop. fields. rewrite Hu. fields.
    rewrite Hr. fields.
    destruct Hrec' as (_ & _ & _ & Hc & _). rewrite Hc, getitem_last. fields.
    reflexivity.
  - split; [fields; exact Hrec' | apply zeros_like_zero].
Qed.

End TenPlusOne.

(** The counting plant with unit noise covariance, run for [H = 1.0]. *)
Lemma apply_controller_ten_plus_one_witness :
  exists s' us u,
    apply_controller (robot := Examples.noisy_plant) (Some one) false
                     (Examples.learner "bfgs") = Ok s' /\
    actions (experience s') = [us ++ [u]] /\
    List.length us = 10%nat /\
    Forall (fun a => a = 0%float) u.
Proof.
  destruct (apply_controller_records_ten_plus_one
              (robot := Examples.noisy_plant) false (Examples.learner "bfgs")
              (Some Examples.a_cost))
    as (_ & Sx & l & s_loop & s' & ts & xs & us & cs & t & x & u & c
        & _ & Hloop & Hlen & Hrun & Hrec & Hzero).
  - intros p. reflexivity.
  - intros p. reflexivity.
  - intros p. exists [[1%float]]. reflexivity.
  - reflexivity.
  - exists s', us, u.
    destruct Hloop as (_ & _ & _ & _ & _ & Hus & _).
    destruct Hrec as (_ & _ & Hact & _).
    split; [exact Hrun|]. split; [exact Hact|].
    split; [congruence | exact Hzero].
Defined.

Section MissingNoise.
Context {robot : Robot}.

(** C9 (the code departs from the claim): the Cholesky factorization is
    requested before [plant.noise] is compared with [None], so on a plant
    without a noise covariance [apply_controller] raises [LinAlgError]
    instead of completing the rollout. *)
Theorem apply_controller_without_noise_raises (H_arg : option float)
    (random_controls : bool) (s : Learner) :
  (forall p, plant_noise p = None) ->
  apply_controller H_arg random_controls s = Raise LinAlgError.
Proof.
  intros Hnone. unfold apply_controller, apply_controller_loop. fields.
  match goal with
  | |- context [plant_get_state ?p] => destruct (plant_get_state p) as [[x t] q]
  end.
  fields. rewrite Hnone. reflexivity.
Qed.

(** C4 (the code departs from the claim): on a plant with [dt = 0.1] and
    zero noise ([noise = None]) that never reports completion,
    [apply_controller(H=1.0)] records no sample at all.  The horizon gives
    ten passes, but the Cholesky factorization requested before the loop
    raises [LinAlgError]: the loop is never entered and no terminal sample
    is appended. *)
Theorem apply_controller_zero_noise_records_nothing
    (random_controls : bool) (s : Learner) :
  (forall p, plant_dt p = tenth) ->
  (forall p, plant_done p = false) ->
  (forall p, plant_noise p = None) ->
  Py.bind (truediv one tenth) int_ceil = Ok 10%Z /\
  apply_controller_loop (Some one) random_controls s = Raise LinAlgError /\
  apply_controller (Some one) random_controls s = Raise LinAlgError.
Proof.
  intros _ _ Hnone.
  split; [apply horizon_steps|].
  assert (Hloop : apply_controller_loop (Some one) random_controls s
                  = Raise LinAlgError).
  { unfold apply_controller_loop. fields.
    match goal with
    | |- context [plant_get_state ?p] =>
        destruct (plant_get_state p) as [[x t] q]
    end.
    fields. rewrite Hnone. reflexivity. }
  split; [exact Hloop|].
  unfold apply_controller. rewrite Hloop. reflexivity.
Qed.

End MissingNoise.

(** The counting plant with [dt = 0.1] and [noise = None], and a learner
    that has a cost evaluator. *)
Lemma apply_controller_zero_noise_witness :
  apply_controller (robot := Examples.noiseless_plant) (Some one) true
    (Examples.learner_on None (Present (Some Examples.a_cost)) "cg")
  = Raise LinAlgError.
Proof.
  apply (apply_controller_zero_noise_records_nothing
           (robot := Examples.noiseless_plant)).
  - intros p. reflexivity.
  - intros p. reflexivity.
  - intros p. reflexivity.
Defined.

(** The counting plant with [noise = None]. *)
Lemma apply_controller_without_noise_witness :
  apply_controller (robot := Examples.noiseless_plant) (Some one) false
    (Examples.learner_on None (Present (Some Examples.a_cost)) "bfgs")
  = Raise LinAlgError.
Proof.
  apply (apply_controller_without_noise_raises
           (robot := Examples.noiseless_plant)).
  intros p. reflexivity.
Defined.

Section MissingCost.
Context {robot : Robot} {storage : Storage}.

Lemma revert_to_iteration_evaluate_cost (labels : list Z)
    (history : list Params) (s s' : Learner) :
  revert_to_iteration labels history s = Ok s' ->
  evaluate_cost s' = evaluate_cost s.
Proof.
  unfold revert_to_iteration. fields.
  destruct (advance_while _ labels 0) as [n1|]; fields; [|discriminate].
  destruct (advance_while _ (skipn n1 labels) n1) as [n2|]; fields;
    [|discriminate].
  destruct (learn_from_iteration s =? 0)%Z; fields.
  - intros Heq. inversion Heq. reflexivity.
  - destruct (getitem history (learn_from_iteration s - 1)); fields;
      [|discriminate].
    intros Heq. inversion Heq. reflexivity.
Qed.

(** No path through the constructor sets [evaluate_cost] when no cost
    function is given. *)
Lemma init_without_cost (params : Config) (plant0 : Plant)
    (policy0 : Params) (maxU : vec)
    (experience_arg : option ExperienceDataset) (async : bool)
    (learn_from : Z) (rng0 : Rng) (s : Learner) :
  init params plant0 policy0 maxU None experience_arg async learn_from rng0
  = Ok s ->
  evaluate_cost s = Absent.
Proof.
  unfold init, load, init_cost.
  destruct state_file as [st|]; unfold set_state; fields.
  - destruct (learn_from =? -1)%Z; fields.
    + intros Heq. inversion Heq. reflexivity.
    + destruct (policy_history (experience_load _)) as [|history]; fields.
      * intros Heq. inversion Heq. reflexivity.
      * destruct (Z.of_nat (List.length history) <=? learn_from + 1)%Z; fields.
        -- intros Heq. inversion Heq. reflexivity.
        -- destruct experience_arg as [e0|]; fields; [|discriminate].
           match goal with
           | |- context [revert_to_iteration ?a ?b ?c] =>
               destruct (revert_to_iteration a b c) as [s1|] eqn:Hrev
           end; fields; [|discriminate].
           apply revert_to_iteration_evaluate_cost in Hrev.
           intros Heq. inversion Heq. fields. exact Hrev.
  - intros Heq. inversion Heq. reflexivity.
Qed.

Lemma rollout_body_without_cost (rc : bool) (L Sx : matrix) (l : Locals)
    (s : Learner) :
  evaluate_cost s = Absent ->
  rollout_body rc L Sx (l, s) = Raise AttributeError.
Proof.
  intros Habs. unfold rollout_body.
  destruct (evaluate_policy rc (gTrig_np (lx_t l) (angle_idims s)) s)
    as [u s1] eqn:Hev.
  assert (H1 : evaluate_cost s1 = Absent).
  { unfold evaluate_policy in Hev. destruct rc.
    - destruct (rand_policy_evaluate _ _ _). inversion Hev. exact Habs.
    - inversion Hev. subst. exact Habs. }
  unfold record_sample. fields. rewrite H1. reflexivity.
Qed.

(** With the attribute unset, a rollout never gets past its first
    sample. *)
Lemma apply_controller_needs_evaluate_cost (H_arg : option float)
    (rc : bool) (s : Learner) :
  evaluate_cost s = Absent ->
  raises (apply_controller H_arg rc s) = true.
Proof.
  intros Habs. unfold apply_controller, apply_controller_loop. fields.
  set (s1 := set_experience _ _).
  set (s2 := if async_plant s then _ else _).
  assert (H2 : evaluate_cost s2 = Absent)
    by (subst s2 s1; destruct (async_plant s); fields; exact Habs).
  destruct (plant_get_state (plant s2)) as [[x0 t0] p]. fields.
  destruct (np_linalg_cholesky (plant_noise p)) as [L|]; fields;
    [|reflexivity].
  destruct (randomize_state L x0 (set_plant p s2)) as [x0' s3] eqn:Hrand.
  assert (H3 : evaluate_cost s3 = Absent).
  { unfold randomize_state in Hrand. fields.
    destruct (plant_noise p).
    - destruct (randn _ _). inversion Hrand. fields. exact H2.
    - inversion Hrand. fields. exact H2. }
  destruct (truediv _ _) as [q|]; fields; [|reflexivity].
  destruct (int_ceil q) as [n|]; fields; [|reflexivity].
  destruct (xrange sys_maxint n) as [[|k]|]; fields; [| |reflexivity].
  - reflexivity.
  - cbn [rollout]. rewrite (rollout_body_without_cost _ _ _ _ _ H3).
    reflexivity.
Qed.

(** C10 (the code departs from the claim): a learner constructed without
    a cost function never gets the [evaluate_cost] attribute, so the
    branch that stores cost 0 is not reached: every call of
    [apply_controller] raises. *)
Theorem apply_controller_without_cost_raises (params : Config)
    (plant0 : Plant) (policy0 : Params) (maxU : vec)
    (experience_arg : option ExperienceDataset) (async : bool)
    (learn_from : Z) (rng0 : Rng) (s : Learner) (H_arg : option float)
    (random_controls : bool) :
  init params plant0 policy0 maxU None experience_arg async learn_from rng0
  = Ok s ->
  raises (apply_controller H_arg random_controls s) = true.
Proof.
  intros Hinit.
  apply apply_controller_needs_evaluate_cost.
  eapply init_without_cost. exact Hinit.
Qed.

End MissingCost.

(** A fresh learner without a cost function on the noisy counting plant:
    the first pass through the loop raises [AttributeError]. *)
Lemma apply_controller_without_cost_witness :
  exists s,
    init (robot := Examples.noisy_plant) (storage := Examples.no_archive)
         (Examples.config "bfgs") O Examples.pA [1%float] None
         (Some Examples.empty_experience) false (-1) tt = Ok s /\
    raises (apply_controller (Some one) false s) = true /\
    apply_controller (Some one) false s = Raise AttributeError.
Proof.
  eexists. split; [vm_compute; reflexivity|].
  split.
  - apply (apply_controller_without_cost_raises
             (robot := Examples.noisy_plant) (storage := Examples.no_archive)
             (Examples.config "bfgs") O Examples.pA [1%float]
             (Some Examples.empty_experience) false (-1) tt).
    vm_compute. reflexivity.
  - vm_compute. reflexivity.
Defined.

End LearnerProofs.

(** ** Properties of the PDDP backward pass *)

Module PDDPProofs.

Import PDDP.
Local Open Scope R_scope.

Section BackwardFormulas.
Context {linalg : LinAlg}.
Variables (nz nu : nat).

Lemma backward_pass_direct_returns (d : Derivatives)
    (V0 : R) (Vx0 : tvector) (Vxx0 : tmatrix) :
  exists b, backward_pass nz nu false d V0 Vx0 Vxx0 = Ok b.
Proof. eexists. reflexivity. Qed.


End BackwardFormulas.

Section LopMode.
Context {linalg : LinAlg}.

Import PDDPExamples.

Lemma chol_pd_is_lower_factor :
  (forall i j, (i < 2)%nat -> (j < 2)%nat ->
               dot_mm 2 chol_pd (T chol_pd) i j = Vxx_pd i j) /\
  (forall i j, (i < j)%nat -> chol_pd i j = 0).
Proof.
  split.
  - intros i j Hi Hj.
    destruct i as [|[|i]], j as [|[|j]]; try lia;
      unfold dot_mm, T, chol_pd, Vxx_pd; simpl; ring.
  - intros i j Hij.
    destruct i as [|[|i]], j as [|[|j]]; try lia; reflexivity.
Qed.

(** C6 (the code departs from the claim): the two modes do not return the
    same outputs.  From the zero [Vxx] that every backward scan starts
    with, the [lop] mode asks for a Cholesky factor of a matrix that is not
    positive definite and raises, while the direct mode returns.  From a
    positive definite [Vxx] with lower factor [C], the [lop] mode forms
    [Fx^T.(C^T.C).Fx] where the direct mode forms [Fx^T.(C.C^T).Fx], and
    the returned [Vxx] differ. *)
Theorem lop_mode_departs_from_direct_mode :
  slinalg_cholesky 2 zeros = None ->
  slinalg_cholesky 2 Vxx_pd = Some chol_pd ->
  (backward_pass 2 1 true identity_step 0 (fun _ => 0) zeros
   = Raise LinAlgError /\
   exists b,
     backward_pass 2 1 false identity_step 0 (fun _ => 0) zeros = Ok b) /\
  (exists b_lop b_direct,
      backward_pass 2 1 true identity_step 0 (fun _ => 0) Vxx_pd = Ok b_lop /\
      backward_pass 2 1 false identity_step 0 (fun _ => 0) Vxx_pd
      = Ok b_direct /\
      Vxx b_lop O O = 2 /\
      Vxx b_direct O O = 1 /\
      Vxx b_lop O O <> Vxx b_direct O O).
Proof.
  intros Hzero Hpd. split.
  - split.
    + unfold backward_pass, jacobian_products. rewrite Hzero. reflexivity.
    + eexists. reflexivity.
  - assert (Hlop : exists b,
               backward_pass 2 1 true identity_step 0 (fun _ => 0) Vxx_pd
               = Ok b /\ Vxx b O O = 2).
    { unfold backward_pass, jacobian_products. rewrite Hpd. cbn [Py.bind].
      eexists. split; [reflexivity|].
      cbn [Vxx]. unfold madd_row, madd, dot_mv, dot_mm, Lop, dot_vm, T,
        vneg, vadd, identity_step, chol_pd, zeros, eye.
      simpl. ring. }
    assert (Hdir : exists b,
               backward_pass 2 1 false identity_step 0 (fun _ => 0) Vxx_pd
               = Ok b /\ Vxx b O O = 1).
    { unfold backward_pass, jacobian_products. cbn [Py.bind].
      eexists. split; [reflexivity|].
      cbn [Vxx]. unfold madd_row, madd, dot_mv, dot_mm, dot_vm, T,
        vneg, vadd, identity_step, Vxx_pd, zeros, eye.
      simpl. ring. }
    destruct Hlop as (b1 & H1 & V1), Hdir as (b2 & H2 & V2).
    exists b1, b2. repeat split; try assumption.
    rewrite V1, V2. lra.
Qed.

End LopMode.

(** The factorization routine that rejects a vanishing first pivot. *)
Lemma lop_mode_departs_witness :
  exists b_lop b_direct,
    backward_pass (linalg := PDDPExamples.pivot_linalg) 2 1 true
      PDDPExamples.identity_step 0 (fun _ => 0) PDDPExamples.Vxx_pd = Ok b_lop /\
    backward_pass (linalg := PDDPExamples.pivot_linalg) 2 1 false
      PDDPExamples.identity_step 0 (fun _ => 0) PDDPExamples.Vxx_pd
    = Ok b_direct /\
    Vxx b_lop O O <> Vxx b_direct O O.
Proof.
  destruct (lop_mode_departs_from_direct_mode
              (linalg := PDDPExamples.pivot_linalg))
    as (_ & b1 & b2 & H1 & H2 & _ & _ & Hne).
  - simpl. destruct (Req_dec_T _ _) as [_|Hn];
      [reflexivity | exfalso; apply Hn; reflexivity].
  - simpl. destruct (Req_dec_T _ _) as [He|_];
      [exfalso; lra | reflexivity].
  - exists b1, b2. repeat split; assumption.
Defined.

End PDDPProofs.

(** ** Further properties of the constructor, [save] and the state blob *)

Module LearnerExtras.

Import EpisodicLearner.
Import Vocabulary.
Import LearnerProofs.
Import MoreVocabulary.

Section Construction.
Context {robot : Robot} {storage : Storage}.

(** X1: the positional state blob round-trips: reading the state back after
    [set_state] gives the blob that was set, and setting the learner's own
    state changes nothing. *)
Theorem state_blob_round_trip (st : LearnerState) (s : Learner) :
  get_state (set_state st s) = st /\ set_state (get_state s) s = s.
Proof.
  split.
  - destruct st. reflexivity.
  - destruct s. reflexivity.
Qed.

(** X2: when the state archive cannot be opened, the constructor builds a
    fresh learner whatever resume iteration was asked for: nothing is
    truncated, no warning is printed, the counters are zero, and the cost
    evaluator is compiled exactly when a cost function was given. *)
Theorem init_without_archive_is_fresh (params : Config) (plant0 : Plant)
    (policy0 : Params) (maxU : vec) (cost_func : option CostEvaluator)
    (experience_arg : option ExperienceDataset) (async : bool)
    (learn_from : Z) (rng0 : Rng) :
  state_file = None ->
  exists s,
    init params plant0 policy0 maxU cost_func experience_arg async learn_from
         rng0 = Ok s /\
    experience s = experience_load (match experience_arg with
                                    | None => fresh_experience
                                    | Some e => e
                                    end) /\
    policy s = policy_load policy0 /\
    learning_iteration s = 0%Z /\ n_episodes s = 0%Z /\ n_evals s = 0%Z /\
    state_changed s = false /\
    evaluate_cost s = match cost_func with
                      | Some c => Present (Some c)
                      | None => Absent
                      end /\
    console s = [Print MsgInitNew;
                 Print (match cost_func with
                        | Some _ => MsgCompilingCost
                        | None => MsgNoCost
                        end)].
Proof.
  intros Hst. unfold init, load, init_cost. rewrite Hst. fields.
  destruct cost_func as [c|]; eexists; (split; [reflexivity|]);
    repeat split.
Qed.

(** The constructor on the path where the state archive loads leaves
    [evaluate_cost] unset, with or without a cost function. *)
Lemma init_loaded_evaluate_cost (params : Config) (plant0 : Plant)
    (policy0 : Params) (maxU : vec) (cost_func : option CostEvaluator)
    (experience_arg : option ExperienceDataset) (async : bool)
    (learn_from : Z) (rng0 : Rng) (st : LearnerState) (s : Learner) :
  state_file = Some st ->
  init params plant0 policy0 maxU cost_func experience_arg async learn_from
       rng0 = Ok s ->
  evaluate_cost s = Absent.
Proof.
  intros Hst. unfold init, load. rewrite Hst. unfold set_state. fields.
  destruct (learn_from =? -1)%Z; fields.
  - intros Heq. inversion Heq. reflexivity.
  - destruct (policy_history (experience_load _)) as [|history]; fields.
    + intros Heq. inversion Heq. reflexivity.
    + destruct (Z.of_nat (List.length history) <=? learn_from + 1)%Z; fields.
      * intros Heq. inversion Heq. reflexivity.
      * destruct experience_arg as [e0|]; fields; [|discriminate].
        match goal with
        | |- context [revert_to_iteration ?a ?b ?c] =>
            destruct (revert_to_iteration a b c) as [s1|] eqn:Hrev
        end; fields; [|discriminate].
        apply revert_to_iteration_evaluate_cost in Hrev.
        intros Heq. inversion Heq. fields. exact Hrev.
Qed.

(** X3: a learner whose state archive loaded never has a cost evaluator:
    [init_cost] is only called when loading fails.  Every call of
    [apply_controller] on such a learner raises, even when a cost function
    was passed to the constructor. *)
Theorem loaded_learner_cannot_roll_out (params : Config) (plant0 : Plant)
    (policy0 : Params) (maxU : vec) (cost_func : option CostEvaluator)
    (experience_arg : option ExperienceDataset) (async : bool)
    (learn_from : Z) (rng0 : Rng) (st : LearnerState) (s : Learner)
    (H_arg : option float) (random_controls : bool) :
  state_file = Some st ->
  init params plant0 policy0 maxU cost_func experience_arg async learn_from
       rng0 = Ok s ->
  evaluate_cost s = Absent /\
  raises (apply_controller H_arg random_controls s) = true.
Proof.
  intros Hst Hinit.
  assert (Habs : evaluate_cost s = Absent)
    by (eapply init_loaded_evaluate_cost; eassumption).
  split; [exact Habs|].
  apply apply_controller_needs_evaluate_cost. exact Habs.
Qed.

(** X4: when the archives load and either no resume is asked for
    ([learn_from_iteration = -1]) or the loaded buffer has no
    [policy_history] attribute, the learner is the loaded one: the buffer is
    the loaded buffer, the counters and the cost come from the state blob
    (the constructor's cost function is discarded), and the console shows
    the loading message only, without a warning. *)
Theorem init_loaded_without_resume (params : Config) (plant0 : Plant)
    (policy0 : Params) (maxU : vec) (cost_func : option CostEvaluator)
    (experience_arg : option ExperienceDataset) (async : bool)
    (learn_from : Z) (rng0 : Rng) (st : LearnerState) :
  let e := experience_load (match experience_arg with
                            | None => fresh_experience
                            | Some e0 => e0
                            end) in
  state_file = Some st ->
  learn_from = (-1)%Z \/ policy_history e = Absent ->
  exists s,
    init params plant0 policy0 maxU cost_func experience_arg async learn_from
         rng0 = Ok s /\
    experience s = e /\
    policy s = policy_load policy0 /\
    get_state s = st /\
    state_changed s = false /\
    console s = [Print MsgLoadingState].
Proof.
  intros e Hst Hcase. subst e.
  unfold init, load. rewrite Hst. unfold set_state. fields.
  destruct Hcase as [-> | Habs].
  - change (-1 =? -1)%Z with true. fields.
    eexists. split; [reflexivity|]. destruct st. repeat split.
  - rewrite Habs.
    destruct (learn_from =? -1)%Z; fields;
      eexists; (split; [reflexivity|]); destruct st; repeat split.
Qed.

End Construction.

(** Witnesses on the example archives. *)
Lemma init_without_archive_witness :
  exists s,
    init (robot := Examples.noisy_plant) (storage := Examples.no_archive)
         (Examples.config "bfgs") O Examples.pA [1%float]
         (Some Examples.a_cost) (Some Examples.three_episodes) false 1 tt
    = Ok s /\
    experience s = Examples.three_episodes /\
    learning_iteration s = 0%Z /\
    console s = [Print MsgInitNew; Print MsgCompilingCost].
Proof.
  destruct (init_without_archive_is_fresh
              (robot := Examples.noisy_plant) (storage := Examples.no_archive)
              (Examples.config "bfgs") O Examples.pA [1%float]
              (Some Examples.a_cost) (Some Examples.three_episodes) false 1 tt)
    as (s & Hinit & He & _ & Hi & _ & _ & _ & _ & Hc).
  - reflexivity.
  - exists s. repeat split; assumption.
Defined.

Lemma loaded_learner_cannot_roll_out_witness :
  exists s,
    init (robot := Examples.noisy_plant) (storage := Examples.archive)
         (Examples.config "bfgs") O Examples.pA [1%float]
         (Some Examples.a_cost) (Some Examples.three_episodes) false (-1) tt
    = Ok s /\
    evaluate_cost s = Absent /\
    raises (apply_controller (Some one) false s) = true.
Proof.
  eexists. split; [vm_compute; reflexivity|].
  apply (loaded_learner_cannot_roll_out
           (robot := Examples.noisy_plant) (storage := Examples.archive)
           (Examples.config "bfgs") O Examples.pA [1%float]
           (Some Examples.a_cost) (Some Examples.three_episodes) false (-1) tt
           (Examples.saved_state 3)).
  - reflexivity.
  - vm_compute. reflexivity.
Defined.

Lemma init_loaded_without_resume_witness :
  exists s,
    init (robot := Examples.noisy_plant) (storage := Examples.archive)
         (Examples.config "bfgs") O Examples.pA [1%float]
         (Some Examples.a_cost) (Some Examples.three_episodes) false (-1) tt
    = Ok s /\
    experience s = Examples.three_episodes /\
    policy s = Examples.pA /\
    get_state s = Examples.saved_state 3 /\
    state_changed s = false /\
    console s = [Print MsgLoadingState].
Proof.
  apply (init_loaded_without_resume
           (robot := Examples.noisy_plant) (storage := Examples.archive)
           (Examples.config "bfgs") O Examples.pA [1%float]
           (Some Examples.a_cost) (Some Examples.three_episodes) false (-1) tt
           (Examples.saved_state 3)).
  - reflexivity.
  - left. reflexivity.
Defined.

(** A loop that never meets an entry failing its test runs off the list. *)
Lemma advance_while_exhausts (cond : Z -> bool) (labels : list Z) :
  (forall x, In x labels -> cond x = true) ->
  forall start, advance_while cond labels start = Raise IndexError.
Proof.
  induction labels as [|l rest IH]; intros Hall start; [reflexivity|].
  simpl. rewrite (Hall l (or_introl eq_refl)).
  apply IH. intros x Hx. apply Hall. right. exact Hx.
Qed.

Section ResumeErrors.
Context {robot : Robot} {storage : Storage}.

(** X5: a learner constructed without an [experience] argument cannot
    resume: the resume code reads [experience.episode_labels] from the
    constructor's argument, which is [None], and the constructor raises
    [AttributeError]. *)
Theorem resume_without_experience_argument_raises (params : Config)
    (plant0 : Plant) (policy0 : Params) (maxU : vec)
    (cost_func : option CostEvaluator) (async : bool) (k : Z) (rng0 : Rng)
    (st : LearnerState) (history : list Params) :
  state_file = Some st ->
  policy_history (experience_load fresh_experience) = Present history ->
  k <> (-1)%Z ->
  (k + 1 < Z.of_nat (List.length history))%Z ->
  init params plant0 policy0 maxU cost_func None async k rng0
  = Raise AttributeError.
Proof.
  intros Hst Hh Hk Hlen.
  unfold init, load. rewrite Hst. unfold set_state. fields. rewrite Hh.
  destruct (k =? -1)%Z eqn:E1; [apply Z.eqb_eq in E1; contradiction|].
  destruct (Z.of_nat (List.length history) <=? k + 1)%Z eqn:E2;
    [apply Z.leb_le in E2; lia|].
  reflexivity.
Qed.

(** X6: resuming from an iteration inside the history raises [IndexError]
    when the buffer holds no episode of that iteration, and also when the
    episodes of that iteration are the last ones in the buffer: the second
    [while] loop then runs off the end of [episode_labels]. *)
Theorem resume_without_later_episode_raises (params : Config)
    (plant0 : Plant) (policy0 : Params) (maxU : vec)
    (cost_func : option CostEvaluator) (e0 : ExperienceDataset)
    (async : bool) (k : Z) (rng0 : Rng) (st : LearnerState)
    (history : list Params) :
  let labels := episode_labels (experience_load e0) in
  state_file = Some st ->
  policy_history (experience_load e0) = Present history ->
  (0 <= k)%Z -> (k + 1 < Z.of_nat (List.length history))%Z ->
  ~ In k labels \/
  (nondecreasing labels = true /\ forall l, In l labels -> (l <= k)%Z) ->
  init params plant0 policy0 maxU cost_func (Some e0) async k rng0
  = Raise IndexError.
Proof.
  intros labels Hst Hh Hk Hlen Hcase. subst labels.
  destruct (init_resume_path params plant0 policy0 maxU cost_func e0 async
              k rng0 st history Hst Hh Hk Hlen) as (s0 & He & Hp & Hl & ->).
  unfold revert_to_iteration. fields. rewrite Hl.
  destruct (in_dec Z.eq_dec k (episode_labels (experience_load e0)))
    as [Hin|Hnin].
  - destruct Hcase as [Hnin | [Hs Hmax]]; [contradiction|].
    destruct (advance_while_stops (fun l => negb (l =? k)%Z)
                (episode_labels (experience_load e0))) with (start := O)
      as (n1 & Hr1 & Hn1 & _ & Hstop1).
    { exists k. split; [exact Hin|]. now rewrite Z.eqb_refl. }
    simpl in Hr1. rewrite Hr1. fields.
    rewrite advance_while_exhausts; [reflexivity|].
    intros x Hx. apply Z.eqb_eq.
    apply negb_false_iff, Z.eqb_eq in Hstop1.
    destruct (In_nth _ _ 0%Z Hx) as (i & Hi & Hnth).
    rewrite length_skipn in Hi. rewrite nth_skipn in Hnth.
    assert (Hle : (nth n1 (episode_labels (experience_load e0)) 0
                   <= nth (n1 + i) (episode_labels (experience_load e0)) 0)%Z)
      by (apply nondecreasing_nth; [exact Hs | lia | lia]).
    assert (Hup : (x <= k)%Z).
    { apply Hmax. rewrite <- Hnth. apply nth_In. lia. }
    lia.
  - rewrite advance_while_exhausts; [reflexivity|].
    intros x Hx. apply negb_true_iff, Z.eqb_neq. intros ->. contradiction.
Qed.

(** The constructor on the resume path, with the console of the learner
    that reaches the resume code. *)
Lemma init_resume_console (params : Config) (plant0 : Plant)
    (policy0 : Params) (maxU : vec) (cost_func : option CostEvaluator)
    (e0 : ExperienceDataset) (async : bool) (k : Z) (rng0 : Rng)
    (st : LearnerState) (history : list Params) :
  state_file = Some st ->
  policy_history (experience_load e0) = Present history ->
  (0 <= k)%Z -> (k + 1 < Z.of_nat (List.length history))%Z ->
  exists s0,
    experience s0 = experience_load e0 /\
    learn_from_iteration s0 = k /\
    console s0 = [Print MsgLoadingState] /\
    init params plant0 policy0 maxU cost_func (Some e0) async k rng0
    = (s <- revert_to_iteration (episode_labels (experience_load e0))
                                history s0 ;;
       Ok (set_state_changed false s)).
Proof.
  intros Hst Hh Hk Hlen.
  unfold init, load. rewrite Hst. unfold set_state. fields.
  rewrite Hh.
  destruct (k =? -1)%Z eqn:E1; [apply Z.eqb_eq in E1; lia|].
  destruct (Z.of_nat (List.length history) <=? k + 1)%Z eqn:E2;
    [apply Z.leb_le in E2; lia|].
  fields.
  eexists. split; [|split; [|split; [|reflexivity]]]; reflexivity.
Qed.

(** X7: the bookkeeping of a resume.  Under the conditions that let it
    complete, the iteration counter is set to [k + 1], [curr_episode] to the
    last retained entry (an entry labelled [k], followed by a later
    iteration), the dirty flag is clear, the console shows the two loading
    messages, and [episode_labels] is not cut: it keeps the labels of the
    entries that were dropped. *)
Theorem resume_bookkeeping (params : Config) (plant0 : Plant)
    (policy0 : Params) (maxU : vec) (cost_func : option CostEvaluator)
    (e0 : ExperienceDataset) (async : bool) (k : Z) (rng0 : Rng)
    (st : LearnerState) (history : list Params) :
  let labels := episode_labels (experience_load e0) in
  state_file = Some st ->
  policy_history (experience_load e0) = Present history ->
  (0 <= k)%Z -> (k + 1 < Z.of_nat (List.length history))%Z ->
  nondecreasing labels = true ->
  In k labels ->
  (exists l, In l labels /\ (k < l)%Z) ->
  exists s,
    init params plant0 policy0 maxU cost_func (Some e0) async k rng0 = Ok s /\
    learning_iteration s = (k + 1)%Z /\
    episode_labels (experience s) = labels /\
    (0 <= curr_episode (experience s))%Z /\
    nth (Z.to_nat (curr_episode (experience s))) labels 0%Z = k /\
    (k < nth (Z.to_nat (curr_episode (experience s) + 1)) labels 0)%Z /\
    state_changed s = false /\
    console s = [Print MsgLoadingState; Print (MsgLoadingFrom k)].
Proof.
  intros labels Hst Hh Hk Hlen Hs Hin Hlater. subst labels.
  destruct (init_resume_console params plant0 policy0 maxU cost_func e0 async
              k rng0 st history Hst Hh Hk Hlen)
    as (s0 & He & Hl & Hc0 & ->).
  destruct (boundary_found _ k Hs Hin Hlater)
    as (n1 & n2 & Hr1 & Hr2 & H12 & Hn2 & Hle & Hrun & Hgt).
  unfold revert_to_iteration. fields. rewrite Hl.
  rewrite Hr1. fields. rewrite Hr2. fields. rewrite He.
  assert (Hcur : Z.to_nat (Z.of_nat n2 - 1) = (n2 - 1)%nat) by lia.
  assert (Hnext : Z.to_nat (Z.of_nat n2 - 1 + 1) = n2) by lia.
  destruct (k =? 0)%Z eqn:E0; fields.
  - eexists. split; [reflexivity|]. fields. rewrite Hc0, Hcur, Hnext.
    repeat split; try assumption; try lia.
    apply Hrun; lia.
  - apply Z.eqb_neq in E0.
    destruct (getitem history (k - 1)) as [p|] eqn:Hget.
    + fields. eexists. split; [reflexivity|]. fields.
      rewrite Hc0, Hcur, Hnext.
      repeat split; try assumption; try lia.
      apply Hrun; lia.
    + exfalso. unfold getitem in Hget.
      destruct (k - 1 <? 0)%Z eqn:E1; [apply Z.ltb_lt in E1; lia|].
      destruct ((k - 1 <? 0)%Z
                || (Z.of_nat (List.length history) <=? k - 1)%Z)%bool eqn:E2.
      { apply orb_true_iff in E2 as [E2|E2];
          [apply Z.ltb_lt in E2 | apply Z.leb_le in E2]; lia. }
      destruct (nth_error history (Z.to_nat (k - 1))) eqn:E3;
        [discriminate|].
      apply nth_error_None in E3. lia.
Qed.

End ResumeErrors.

Lemma resume_without_experience_argument_witness :
  init (robot := Examples.noisy_plant)
       (storage := MoreExamples.archive_of_three)
       (Examples.config "bfgs") O Examples.pA [1%float] None None false 1 tt
  = Raise AttributeError.
Proof.
  apply (resume_without_experience_argument_raises
           (robot := Examples.noisy_plant)
           (storage := MoreExamples.archive_of_three)
           (Examples.config "bfgs") O Examples.pA [1%float] None false 1 tt
           (Examples.saved_state 3)
           [Examples.pA; Examples.pB; Examples.pC]).
  - reflexivity.
  - reflexivity.
  - discriminate.
  - simpl. lia.
Defined.

(** Iteration 2 is inside the four-entry history, but its episode is the
    last one in the buffer. *)
Lemma resume_without_later_episode_witness :
  init (robot := Examples.noisy_plant) (storage := Examples.archive)
       (Examples.config "bfgs") O Examples.pA [1%float] None
       (Some MoreExamples.three_episodes_four_saves) false 2 tt
  = Raise IndexError.
Proof.
  apply (resume_without_later_episode_raises
           (robot := Examples.noisy_plant) (storage := Examples.archive)
           (Examples.config "bfgs") O Examples.pA [1%float] None
           MoreExamples.three_episodes_four_saves false 2 tt
           (Examples.saved_state 3)
           [Examples.pA; Examples.pB; Examples.pC; Examples.pA]).
  - reflexivity.
  - reflexivity.
  - lia.
  - simpl. lia.
  - right. split; [reflexivity|].
    simpl. intros l [<-|[<-|[<-|[]]]]; lia.
Defined.

Lemma resume_bookkeeping_witness :
  exists s,
    init (robot := Examples.noisy_plant) (storage := Examples.archive)
         (Examples.config "bfgs") O Examples.pA [1%float] None
         (Some Examples.three_episodes) false 1 tt = Ok s /\
    learning_iteration s = 2%Z /\
    episode_labels (experience s) = [0; 1; 2]%Z /\
    List.length (states (experience s)) = 2%nat.
Proof.
  destruct (resume_bookkeeping
              (robot := Examples.noisy_plant) (storage := Examples.archive)
              (Examples.config "bfgs") O Examples.pA [1%float] None
              Examples.three_episodes false 1 tt (Examples.saved_state 3)
              [Examples.pA; Examples.pB; Examples.pC])
    as (s & Hinit & Hli & Hlab & _).
  - reflexivity.
  - reflexivity.
  - lia.
  - simpl. lia.
  - reflexivity.
  - simpl. auto.
  - exists 2%Z. simpl. split; [auto | lia].
  - exists s. split; [exact Hinit|]. split; [exact Hli|].
    split; [exact Hlab|].
    vm_compute in Hinit. inversion Hinit. reflexivity.
Defined.

Section SaveAndTrain.
Context {robot : Robot} {trainer : Trainer}.

(** One [save], field by field. *)
Lemma save_fields (s : Learner) :
  policy_history (experience (save s))
  = match policy_history (experience s) with
    | Present h => Present (h ++ [policy s])
    | Absent => Absent
    end /\
  state_changed (save s) = false /\
  console (save s)
  = console s ++ (if state_changed s then [Print MsgSavingState] else []) /\
  states (experience (save s)) = states (experience s) /\
  actions (experience (save s)) = actions (experience s) /\
  time_stamps (experience (save s)) = time_stamps (experience s) /\
  immediate_cost (experience (save s)) = immediate_cost (experience s) /\
  episode_labels (experience (save s)) = episode_labels (experience s) /\
  policy (save s) = policy s /\
  learning_iteration (save s) = learning_iteration s /\
  n_episodes (save s) = n_episodes s.
Proof.
  unfold save.
  destruct (policy_history (experience s)) as [|h] eqn:Hh; fields;
    destruct (state_changed s) eqn:Hc; fields;
    rewrite ?Hh, ?app_nil_r; repeat split; assumption.
Qed.

(** X8: [save] appends the current parameters to [policy_history] when the
    buffer has one and leaves a buffer without one as it is; it clears the
    dirty flag, so a second [save] writes no state archive again, although
    it appends to the history once more.  The recorded samples, the policy
    and the counters are not touched. *)
Theorem save_appends_and_writes_state_once (s : Learner) :
  policy_history (experience (save s))
  = match policy_history (experience s) with
    | Present h => Present (h ++ [policy s])
    | Absent => Absent
    end /\
  policy_history (experience (save (save s)))
  = match policy_history (experience s) with
    | Present h => Present (h ++ [policy s; policy s])
    | Absent => Absent
    end /\
  state_changed (save s) = false /\
  console (save s)
  = console s ++ (if state_changed s then [Print MsgSavingState] else []) /\
  console (save (save s)) = console (save s) /\
  states (experience (save s)) = states (experience s) /\
  actions (experience (save s)) = actions (experience s) /\
  time_stamps (experience (save s)) = time_stamps (experience s) /\
  immediate_cost (experience (save s)) = immediate_cost (experience s) /\
  episode_labels (experience (save s)) = episode_labels (experience s) /\
  policy (save s) = policy s /\
  learning_iteration (save s) = learning_iteration s /\
  n_episodes (save s) = n_episodes s.
Proof.
  destruct (save_fields s)
    as (Hh & Hc & Hcon & Hx & Hu & Ht & Hi & Hl & Hp & Hli & Hn).
  destruct (save_fields (save s)) as (Hh2 & _ & Hcon2 & _).
  split; [exact Hh|]. split.
  { rewrite Hh2, Hh, Hp.
    destruct (policy_history (experience s)) as [|h]; [reflexivity|].
    now rewrite <- app_assoc. }
  split; [exact Hc|]. split; [exact Hcon|]. split.
  { rewrite Hcon2, Hc. apply app_nil_r. }
  repeat split; assumption.
Qed.

(** X9: for a configured deterministic method, the fallback list holds
    every deterministic method exactly once, so no method is tried twice
    and none is left out. *)
Theorem fallback_methods_each_once (m : string) :
  In m DETERMINISTIC_MIN_METHODS ->
  NoDup (fallback_methods m) /\
  forall d, In d (fallback_methods m) <-> In d DETERMINISTIC_MIN_METHODS.
Proof.
  intros Hin. simpl in Hin.
  repeat (destruct Hin as [<-|Hin];
          [split;
           [vm_compute;
            repeat (constructor; [simpl; intuition discriminate|]);
            constructor
           |intros d; vm_compute; tauto]|]).
  destruct Hin.
Qed.

(** X10: a method name that, in upper case, is neither a deterministic nor
    a stochastic method makes [train_policy] raise [ValueError]. *)
Theorem train_policy_unknown_method_raises (H_arg : option float)
    (s : Learner) :
  str_in (upper (min_method s)) DETERMINISTIC_MIN_METHODS = false ->
  str_in (upper (min_method s)) STOCHASTIC_MIN_METHODS = false ->
  train_policy H_arg s = Raise ValueError.
Proof.
  intros Hd Hs. unfold train_policy.
  assert (Hm : min_method (match H_arg with Some h => set_H h s | None => s end)
               = min_method s) by now destruct H_arg.
  fields. rewrite Hm, Hd, Hs. reflexivity.
Qed.

End SaveAndTrain.

Lemma fallback_methods_each_once_witness :
  NoDup (fallback_methods "CG") /\
  forall d, In d (fallback_methods "CG") <-> In d DETERMINISTIC_MIN_METHODS.
Proof.
  apply (fallback_methods_each_once "CG").
  simpl. do 4 right. left. reflexivity.
Defined.

Lemma train_policy_unknown_method_witness :
  train_policy (robot := Examples.noisy_plant)
    (trainer := Examples.trainer_with Examples.always_fails)
    None (Examples.learner "newton") = Raise ValueError.
Proof.
  apply (train_policy_unknown_method_raises
           (robot := Examples.noisy_plant)
           (trainer := Examples.trainer_with Examples.always_fails)).
  - reflexivity.
  - reflexivity.
Defined.

Lemma stochastic_is_not_deterministic (m : string) :
  In m STOCHASTIC_MIN_METHODS ->
  str_in m DETERMINISTIC_MIN_METHODS = false /\
  str_in m STOCHASTIC_MIN_METHODS = true.
Proof.
  intros Hin. simpl in Hin.
  repeat (destruct Hin as [<-|Hin]; [split; reflexivity|]).
  destruct Hin.
Qed.

Section Stochastic.
Context {robot : Robot} {trainer : Trainer}.

(** The stochastic loop always runs to its end once [best_p] and
    [train_fn] are set. *)
Lemma stochastic_loop_runs (n : nat) :
  forall (s : Learner) (b : float * Params) (fn : OptState),
    best_p s = Present b ->
    train_fn s = Present fn ->
    exists s' b',
      stochastic_loop n s = Ok s' /\
      (policy s', train_fn s')
      = (fst (Nat.iter n (update_step (experience s)) (policy s, fn)),
         Present (snd (Nat.iter n (update_step (experience s))
                                (policy s, fn)))) /\
      n_evals s' = (n_evals s + Z.of_nat n)%Z /\
      experience s' = experience s /\
      best_p s' = Present b' /\
      learning_iteration s' = learning_iteration s /\
      H s' = H s /\
      state_changed s' = state_changed s.
Proof.
  induction n as [|n IH]; intros s b fn Hb Hfn.
  - exists s, b. simpl. rewrite Z.add_0_r, Hfn. repeat split. exact Hb.
  - cbn [stochastic_loop]. rewrite Hfn. fields.
    destruct (train_fn_step fn (experience s) (policy s)) as [[v p] fn1]
      eqn:Hstep.
    fields. rewrite Hb. fields.
    set (s1 := print_with_stamp _ _).
    assert (H1 : policy s1 = p /\ experience s1 = experience s /\
                 n_evals s1 = (n_evals s + 1)%Z /\
                 learning_iteration s1 = learning_iteration s /\
                 train_fn s1 = Present fn1 /\ H s1 = H s /\
                 state_changed s1 = state_changed s /\
                 exists b1, best_p s1 = Present b1).
    { subst s1. destruct (v <? fst b)%float; fields;
        repeat split; eexists; first [reflexivity | eassumption]. }
    destruct H1 as (Hp & He & Hn & Hl & Ht & HH & Hs & b1 & Hb1).
    destruct (IH s1 b1 fn1 Hb1 Ht)
      as (s' & b' & Hrun & Hp' & Hn' & He' & Hb' & Hl' & HH' & Hs').
    exists s', b'. split; [exact Hrun|].
    split.
    { assert (Hu : update_step (experience s) (policy s, fn) = (p, fn1))
        by (unfold update_step; cbn [fst snd]; rewrite Hstep; reflexivity).
      rewrite Hp', He, Hp, !Nat.iter_succ_r, Hu. reflexivity. }
    repeat split; try congruence.
    rewrite Hn', Hn. lia.
Qed.

(** X11: with a stochastic method configured (in any letter case) and
    [max_evals] within the range of a C long, [train_policy] returns.  It
    takes exactly [max_evals] update steps (none when [max_evals] is
    negative) and counts them in [n_evals]; the policy and the optimizer's
    state end where that many calls of the compiled update lead from the
    current parameters and from the optimizer state already on the learner
    (a freshly compiled one when there is none); the best-seen parameters
    in [best_p] are not put back on the policy; the iteration counter goes
    up by one, the state is marked dirty, and the buffer is not touched. *)
Theorem train_policy_stochastic (H_arg : option float) (s : Learner) :
  In (upper (min_method s)) STOCHASTIC_MIN_METHODS ->
  (- sys_maxint - 1 <= max_evals s <= sys_maxint)%Z ->
  exists s',
    train_policy H_arg s = Ok s' /\
    n_evals s' = Z.of_nat (Z.to_nat (max_evals s)) /\
    (policy s', train_fn s')
    = (fst (Nat.iter (Z.to_nat (max_evals s)) (update_step (experience s))
                     (policy s, optimizer_entry s)),
       Present (snd (Nat.iter (Z.to_nat (max_evals s))
                              (update_step (experience s))
                              (policy s, optimizer_entry s)))) /\
    learning_iteration s' = (learning_iteration s + 1)%Z /\
    state_changed s' = true /\
    experience s' = experience s /\
    H s' = match H_arg with
           | Some h => h
           | None => H s
           end.
Proof.
  intros Hin Hfit.
  destruct (stochastic_is_not_deterministic _ Hin) as [Hd Hs].
  unfold train_policy.
  set (s0 := match H_arg with Some h => set_H h s | None => s end).
  assert (H0 : min_method s0 = min_method s /\ policy s0 = policy s /\
               experience s0 = experience s /\
               learning_iteration s0 = learning_iteration s /\
               max_evals s0 = max_evals s /\
               train_fn s0 = train_fn s /\
               H s0 = match H_arg with Some h => h | None => H s end)
    by (subst s0; destruct H_arg; repeat split).
  destruct H0 as (Hm & Hp & He & Hl & Hmax & Htf & HH).
  fields. rewrite Hm, Hd, Hs.
  match goal with
  | |- context [xrange ?m ?k] =>
      replace (xrange m k) with (Ok (A := nat) (Z.to_nat (max_evals s)))
  end.
  2:{ symmetry. rewrite <- (xrange_fits sys_maxint (max_evals s) Hfit).
      f_equal. destruct (train_fn s0); fields; exact Hmax. }
  fields.
  match goal with
  | |- context [stochastic_loop ?n ?st] => set (entry := st)
  end.
  assert (Hentry : policy entry = policy s /\ experience entry = experience s /\
                   n_evals entry = 0%Z /\
                   learning_iteration entry = (learning_iteration s + 1)%Z /\
                   train_fn entry = Present (optimizer_entry s) /\
                   H entry = match H_arg with Some h => h | None => H s end /\
                   exists b, best_p entry = Present b).
  { subst entry. unfold optimizer_entry. rewrite <- Htf, <- Hm.
    destruct (train_fn s0) as [|fn] eqn:E; fields;
      rewrite ?E; repeat split; try congruence;
      eexists; reflexivity. }
  destruct Hentry as (Ep & Ee & En & El & Et & EH & b & Eb).
  destruct (stochastic_loop_runs (Z.to_nat (max_evals s)) entry b _ Eb Et)
    as (s' & b' & Hrun & Hp' & Hn' & He' & Hb' & Hl' & HH' & Hs').
  rewrite Hrun. fields. eexists. split; [reflexivity|]. fields.
  rewrite Hp', Hn', He', Hl', HH', Ee, Ep, En, El, EH.
  repeat split.
Qed.

End Stochastic.

(** Three steps of Adam on the example learner. *)
Lemma train_policy_stochastic_witness :
  exists s',
    train_policy (robot := Examples.noisy_plant)
      (trainer := Examples.trainer_with Examples.always_fails)
      None (Examples.learner "adam") = Ok s' /\
    n_evals s' = 3%Z /\
    learning_iteration s' = 1%Z /\
    state_changed s' = true.
Proof.
  destruct (train_policy_stochastic
              (robot := Examples.noisy_plant)
              (trainer := Examples.trainer_with Examples.always_fails)
              None (Examples.learner "adam"))
    as (s' & Hrun & Hn & _ & Hl & Hc & _).
  - simpl. do 7 right. left. reflexivity.
  - cbn. lia.
  - exists s'. repeat split; assumption.
Defined.

(** *** Rollouts in general *)


Lemma add_sample_step (pre e : ExperienceDataset) (ts : list float)
    (xs us : list vec) (cs : list cost_sample) (t : float) (x u : vec)
    (c : cost_sample) :
  recorded pre e ts xs us cs ->
  exists e',
    add_sample t x u c e = Ok e' /\
    recorded pre e' (ts ++ [t]) (xs ++ [x]) (us ++ [u]) (cs ++ [c]) /\
    episode_labels e' = episode_labels e /\
    curr_episode e' = curr_episode e /\
    policy_history e' = policy_history e.
Proof.
  intros (Ht & Hx & Hu & Hc & L1 & L2 & L3).
  unfold add_sample. rewrite Ht, Hx, Hu, Hc, !push_last_app. simpl.
  eexists. split; [reflexivity|].
  unfold recorded. simpl. rewrite !length_app. simpl.
  repeat split; lia.
Qed.

Lemma bind_ok_inv {A B : Type} (c : result A) (k : A -> result B) (b : B) :
  Py.bind c k = Ok b -> exists a, c = Ok a /\ k a = Ok b.
Proof.
  destruct c as [a|e]; simpl; [|discriminate].
  intros Hk. exists a. split; [reflexivity | exact Hk].
Qed.

Section GeneralRollout.
Context {robot : Robot}.

Lemma rollout_frame_refl (s : Learner) : rollout_frame s s.
Proof. repeat split. Qed.

Lemma rollout_frame_trans (s1 s2 s3 : Learner) :
  rollout_frame s1 s2 -> rollout_frame s2 s3 -> rollout_frame s1 s3.
Proof.
  intros (A1 & A2 & A3 & A4 & A5 & A6 & A7 & A8)
         (B1 & B2 & B3 & B4 & B5 & B6 & B7 & B8).
  repeat split; congruence.
Qed.

(** One pass through the loop body, with everything it stores and
    everything it leaves alone. *)
Lemma rollout_body_step (pre : ExperienceDataset) (rc : bool)
    (L Sx : matrix) (l : Locals) (s : Learner) (ec : option CostEvaluator)
    (ts : list float) (xs us : list vec) (cs : list cost_sample) :
  evaluate_cost s = Present ec ->
  recorded pre (experience s) ts xs us cs ->
  exists l' s' u c,
    rollout_body rc L Sx (l, s) = Ok (l', s') /\
    rollout_frame s s' /\
    lu_t l' = Some u /\
    recorded pre (experience s') (ts ++ [lt l]) (xs ++ [lx_t l]) (us ++ [u])
             (cs ++ [c]) /\
    stored_cost ec Sx c.
Proof.
  intros Hec Hrec. unfold rollout_body.
  destruct (evaluate_policy rc (gTrig_np (lx_t l) (angle_idims s)) s)
    as [u s1] eqn:Hev.
  assert (H1 : rollout_frame s s1 /\ experience s1 = experience s).
  { unfold evaluate_policy in Hev. destruct rc.
    - destruct (rand_policy_evaluate _ _ _). inversion Hev.
      split; [repeat split | reflexivity].
    - inversion Hev. split; [repeat split | reflexivity]. }
  destruct H1 as [F1 Hex1].
  set (s2 := set_plant (plant_apply_control u (plant s1)) s1).
  assert (F2 : rollout_frame s1 s2) by (subst s2; repeat split).
  assert (Hec2 : evaluate_cost s2 = Present ec).
  { destruct F1 as (_ & _ & _ & _ & E & _). subst s2. fields. congruence. }
  assert (Hrec2 : recorded pre (experience s2) ts xs us cs)
    by (subst s2; fields; rewrite Hex1; exact Hrec).
  unfold record_sample. rewrite Hec2. fields.
  set (c := match ec with
            | Some f => CostEval (f (lx_t l) Sx)
            | None => CostInt 0
            end).
  assert (Hc : stored_cost ec Sx c).
  { subst c. destruct ec as [f|]; simpl; [eexists|]; reflexivity. }
  destruct (add_sample_step pre (experience s2) ts xs us cs (lt l) (lx_t l)
              u c Hrec2) as (e' & Hadd & Hrec' & Hlab & Hcur & Hhist).
  assert (Hadd' : match ec with
                  | Some f => add_sample (lt l) (lx_t l) u
                                (CostEval (f (lx_t l) Sx)) (experience s2)
                  | None => add_sample (lt l) (lx_t l) u (CostInt 0)
                              (experience s2)
                  end = Ok e')
    by (subst c; destruct ec; exact Hadd).
  rewrite Hadd'. fields.
  set (s3 := set_experience e' s2).
  assert (F3 : rollout_frame s2 s3) by (subst s3; repeat split; assumption).
  set (s4 := if negb _ then _ else _).
  assert (F4 : rollout_frame s3 s4 /\ experience s4 = e').
  { subst s4.
    match goal with
    | |- context [if ?b then _ else _] => destruct b
    end; fields; (split; [repeat split | reflexivity]). }
  destruct F4 as [F4 Hex4].
  destruct (plant_get_state (plant s4)) as [[x' t'] p].
  destruct (randomize_state L x' (set_plant p s4)) as [x'' s5] eqn:Hrand.
  assert (F5 : rollout_frame s4 s5 /\ experience s5 = e').
  { unfold randomize_state in Hrand. fields.
    destruct (plant_noise p).
    - destruct (randn _ _). inversion Hrand. fields.
      split; [repeat split | exact Hex4].
    - inversion Hrand. fields. split; [repeat split | exact Hex4]. }
  destruct F5 as [F5 Hex5].
  exists (mkLocals x'' t' (Some u)), s5, u, c.
  split; [reflexivity|]. split.
  { eapply rollout_frame_trans; [exact F1|].
    eapply rollout_frame_trans; [exact F2|].
    eapply rollout_frame_trans; [exact F3|].
    eapply rollout_frame_trans; [exact F4 | exact F5]. }
  split; [reflexivity|]. rewrite Hex5. split; assumption.
Qed.

End GeneralRollout.

Section GeneralApplyController.
Context {robot : Robot}.

(** [n] passes at most: the loop stores one sample per pass and stops
    after the first pass at whose end the plant reports completion. *)
Lemma rollout_steps (pre : ExperienceDataset) (rc : bool) (L Sx : matrix)
    (ec : option CostEvaluator) :
  forall (n : nat) (l : Locals) (s : Learner) (ts : list float)
         (xs us : list vec) (cs : list cost_sample),
    evaluate_cost s = Present ec ->
    recorded pre (experience s) ts xs us cs ->
    exists l' s' ts' xs' us' cs',
      rollout n rc L Sx (l, s) = Ok (l', s') /\
      rollout_frame s s' /\
      recorded pre (experience s') (ts ++ ts') (xs ++ xs') (us ++ us')
               (cs ++ cs') /\
      Forall (stored_cost ec Sx) cs' /\
      (List.length ts' <= n)%nat /\
      (n <> O -> (1 <= List.length ts')%nat /\ exists u, lu_t l' = Some u) /\
      (n = O -> l' = l) /\
      ((forall p, plant_done p = false) -> List.length ts' = n) /\
      ((forall p, plant_done p = true) -> List.length ts' = Nat.min n 1).
Proof.
  induction n as [|n IH]; intros l s ts xs us cs Hec Hrec.
  - exists l, s, [], [], [], []. rewrite !app_nil_r.
    split; [reflexivity|]. split; [apply rollout_frame_refl|].
    split; [exact Hrec|]. split; [constructor|]. split; [simpl; lia|].
    split; [intros H0; congruence|]. split; [reflexivity|].
    split; intros _; reflexivity.
  - destruct (rollout_body_step pre rc L Sx l s ec ts xs us cs Hec Hrec)
      as (l1 & s1 & u & c & Hbody & F1 & Hu & Hrec1 & Hc).
    cbn [rollout]. rewrite Hbody. fields.
    destruct (plant_done (plant s1)) eqn:Hdone.
    + exists l1, s1, [lt l], [lx_t l], [u], [c].
      split; [reflexivity|]. split; [exact F1|]. split; [exact Hrec1|].
      split; [constructor; [exact Hc | constructor]|].
      split; [simpl; lia|].
      split; [intros _; split; [simpl; lia | exists u; exact Hu]|].
      split; [intros H0; discriminate|].
      split.
      * intros Hnever. rewrite Hnever in Hdone. discriminate.
      * intros _. destruct n; reflexivity.
    + assert (Hec1 : evaluate_cost s1 = Present ec).
      { destruct F1 as (_ & _ & _ & _ & E & _). congruence. }
      destruct (IH l1 s1 _ _ _ _ Hec1 Hrec1)
        as (l2 & s2 & ts' & xs' & us' & cs' & Hroll & F2 & Hrec2 & Hcs
            & Hle & Hpos & Hzero & Hnever & Halways).
      exists l2, s2, (lt l :: ts'), (lx_t l :: xs'), (u :: us'), (c :: cs').
      rewrite <- !app_assoc in Hrec2. simpl in Hrec2.
      split; [exact Hroll|].
      split; [eapply rollout_frame_trans; eassumption|].
      split; [exact Hrec2|].
      split; [constructor; assumption|].
      split; [simpl; lia|].
      split.
      { intros _. split; [simpl; lia|].
        destruct n as [|n'].
        - rewrite (Hzero eq_refl). exists u. exact Hu.
        - apply Hpos. discriminate. }
      split; [intros H0; discriminate|].
      split.
      * intros Hall. simpl. rewrite (Hnever Hall). reflexivity.
      * intros Hall. rewrite Hall in Hdone. discriminate.
Qed.

(** A rollout whose Cholesky factorization succeeds, whose cost evaluator
    attribute is set and whose horizon gives at least one step and no more
    than [xrange] accepts. *)
Lemma apply_controller_general (H_arg : option float) (rc : bool)
    (s : Learner) (ec : option CostEvaluator) (n : Z) :
  evaluate_cost s = Present ec ->
  (forall p, exists L, np_linalg_cholesky (plant_noise p) = Ok L) ->
  (forall p, Py.bind (truediv (horizon H_arg s) (plant_dt p)) int_ceil
             = Ok n) ->
  (1 <= n <= sys_maxint)%Z ->
  exists s' ts xs us cs u k,
    apply_controller H_arg rc s = Ok s' /\
    recorded (experience s) (experience s') ts xs (us ++ [u]) cs /\
    Forall (fun a => a = 0%float) u /\
    (2 <= List.length ts <= Z.to_nat n + 1)%nat /\
    Forall (stored_cost ec (zeros k)) cs /\
    n_episodes s' = (n_episodes s + 1)%Z /\
    episode_labels (experience s')
    = episode_labels (experience s) ++ [learning_iteration s] /\
    curr_episode (experience s') = (curr_episode (experience s) + 1)%Z /\
    policy_history (experience s') = policy_history (experience s) /\
    policy s' = policy s /\
    learning_iteration s' = learning_iteration s /\
    console s'
    = console s ++ [Print MsgStartRun;
                    Print (MsgRunningFor (horizon H_arg s));
                    Print MsgDoneRun] /\
    ((forall p, plant_done p = false) ->
     List.length ts = (Z.to_nat n + 1)%nat) /\
    ((forall p, plant_done p = true) -> List.length ts = 2%nat).
Proof.
  intros Hec Hchol Hsteps Hn.
  unfold apply_controller, apply_controller_loop. fields.
  fold (horizon H_arg s).
  set (s1 := set_experience _ _).
  assert (H1 : evaluate_cost s1 = Present ec /\
               recorded (experience s) (experience s1) [] [] [] [] /\
               policy s1 = policy s /\ n_episodes s1 = n_episodes s /\
               learning_iteration s1 = learning_iteration s /\
               console s1 = console s ++ [Print MsgStartRun;
                              Print (MsgRunningFor (horizon H_arg s))] /\
               episode_labels (experience s1)
               = episode_labels (experience s) ++ [learning_iteration s] /\
               curr_episode (experience s1)
               = (curr_episode (experience s) + 1)%Z /\
               policy_history (experience s1) = policy_history (experience s)).
  { subst s1. fields. split; [exact Hec|].
    split; [unfold recorded, new_episode; simpl; repeat split|].
    rewrite <- app_assoc. repeat split. }
  destruct H1 as (Hec1 & Hrec1 & A1 & A2 & A3 & A4 & A5 & A6 & A7).
  set (s2 := if async_plant s then _ else _).
  assert (F2 : rollout_frame s1 s2 /\ experience s2 = experience s1).
  { subst s2. destruct (async_plant s); split;
      solve [repeat split | reflexivity]. }
  destruct F2 as [F2 Hex2].
  destruct (plant_get_state (plant s2)) as [[x0 t0] p]. fields.
  destruct (Hchol p) as [L HL]. rewrite HL. fields.
  destruct (randomize_state L x0 (set_plant p s2)) as [x0' s3] eqn:Hrand.
  assert (F3 : rollout_frame s2 s3 /\ experience s3 = experience s2).
  { unfold randomize_state in Hrand. fields.
    destruct (plant_noise p).
    - destruct (randn _ _). inversion Hrand. split; [repeat split|reflexivity].
    - inversion Hrand. split; [repeat split|reflexivity]. }
  destruct F3 as [F3 Hex3].
  pose proof (rollout_frame_trans _ _ _ F2 F3) as F13.
  destruct (bind_ok_inv _ _ _ (Hsteps (plant s3))) as (q & Hq & Hceil).
  rewrite Hq. fields. rewrite Hceil. fields.
  rewrite (xrange_fits sys_maxint n) by lia. fields.
  assert (Hec3 : evaluate_cost s3 = Present ec).
  { destruct F13 as (_ & _ & _ & _ & E & _). congruence. }
  assert (Hrec3 : recorded (experience s) (experience s3) [] [] [] [])
    by (rewrite Hex3, Hex2; exact Hrec1).
  destruct (rollout_steps (experience s) rc L (zeros (List.length x0)) ec
              (Z.to_nat n) (mkLocals x0' t0 None) s3 [] [] [] [] Hec3 Hrec3)
    as (l' & s4 & ts & xs & us & cs & Hroll & F4 & Hrec4 & Hcs & Hle & Hpos
        & _ & Hnever & Halways).
  simpl in Hrec4. rewrite Hroll. fields.
  destruct Hpos as [Hone [u Hu]]; [lia|].
  rewrite Hu. fields.
  pose proof (rollout_frame_trans _ _ _ F13 F4) as F14.
  assert (Hec4 : evaluate_cost s4 = Present ec).
  { destruct F14 as (_ & _ & _ & _ & E & _). congruence. }
  unfold record_sample. rewrite Hec4. fields.
  set (c := match ec with
            | Some f => CostEval (f (lx_t l') (zeros (List.length x0)))
            | None => CostInt 0
            end).
  assert (Hc : stored_cost ec (zeros (List.length x0)) c).
  { subst c. destruct ec as [f|]; simpl; [eexists|]; reflexivity. }
  destruct (add_sample_step (experience s) (experience s4) ts xs us cs
              (lt l') (lx_t l') (zeros_like u) c Hrec4)
    as (e' & Hadd & Hrec' & Hlab & Hcur & Hhist).
  assert (Hadd' : match ec with
                  | Some f => add_sample (lt l') (lx_t l') (zeros_like u)
                                (CostEval (f (lx_t l') (zeros (List.length x0))))
                                (experience s4)
                  | None => add_sample (lt l') (lx_t l') (zeros_like u)
                              (CostInt 0) (experience s4)
                  end = Ok e')
    by (subst c; destruct ec; exact Hadd).
  rewrite Hadd'. fields.
  destruct Hrec' as (R1 & R2 & R3 & R4 & R5 & R6 & R7).
  rewrite R4, getitem_last. fields.
  destruct F14 as (B1 & B2 & B3 & B4 & B5 & B6 & B7 & B8).
  eexists. exists (ts ++ [lt l']), (xs ++ [lx_t l']), us, (cs ++ [c]),
    (zeros_like u), (List.length x0).
  split; [reflexivity|]. fields.
  split; [unfold recorded; repeat split; assumption|].
  split; [apply zeros_like_zero|].
  split; [rewrite length_app; simpl; lia|].
  split; [apply Forall_app; split; [exact Hcs | constructor; [exact Hc | constructor]]|].
  split; [lia|].
  split; [congruence|]. split; [congruence|]. split; [congruence|].
  split; [congruence|]. split; [congruence|].
  split; [rewrite B4, A4, <- app_assoc; reflexivity|].
  split.
  - intros Hall. rewrite length_app, (Hnever Hall). simpl. lia.
  - intros Hall. rewrite length_app, (Halways Hall). simpl. lia.
Qed.

End GeneralApplyController.

Section ApplyControllerExtras.
Context {robot : Robot}.

(** X12: a rollout that gets through (cost evaluator attribute set,
    Cholesky factorization succeeding, a number of steps in the horizon
    that is at least one and fits a C long) appends exactly one episode and leaves the earlier ones as they were.
    The four arrays of the new episode have the same length, between 2 and
    [H_steps + 1]; its last action is all zeros; its label is the current
    learning iteration; every stored cost is the literal 0 when the
    evaluator is [None] and an evaluator output at a zero covariance
    otherwise.  The episode counter goes up by one, and the policy, the
    iteration counter and [policy_history] are not touched. *)
Theorem apply_controller_appends_one_episode (H_arg : option float)
    (random_controls : bool) (s : Learner) (ec : option CostEvaluator)
    (n : Z) :
  evaluate_cost s = Present ec ->
  (forall p, exists L, np_linalg_cholesky (plant_noise p) = Ok L) ->
  (forall p, Py.bind (truediv (horizon H_arg s) (plant_dt p)) int_ceil
             = Ok n) ->
  (1 <= n <= sys_maxint)%Z ->
  exists s' ts xs us cs u k,
    apply_controller H_arg random_controls s = Ok s' /\
    recorded (experience s) (experience s') ts xs (us ++ [u]) cs /\
    Forall (fun a => a = 0%float) u /\
    (2 <= List.length ts <= Z.to_nat n + 1)%nat /\
    Forall (stored_cost ec (zeros k)) cs /\
    n_episodes s' = (n_episodes s + 1)%Z /\
    episode_labels (experience s')
    = episode_labels (experience s) ++ [learning_iteration s] /\
    curr_episode (experience s') = (curr_episode (experience s) + 1)%Z /\
    policy_history (experience s') = policy_history (experience s) /\
    policy s' = policy s /\
    learning_iteration s' = learning_iteration s /\
    console s'
    = console s ++ [Print MsgStartRun;
                    Print (MsgRunningFor (horizon H_arg s));
                    Print MsgDoneRun].
Proof.
  intros Hec Hchol Hsteps Hn.
  destruct (apply_controller_general H_arg random_controls s ec n
              Hec Hchol Hsteps Hn)
    as (s' & ts & xs & us & cs & u & k & Hrun & Hrec & Hz & Hlen & Hcs
        & B1 & B2 & B3 & B4 & B5 & B6 & B7 & _).
  exists s', ts, xs, us, cs, u, k.
  split; [exact Hrun|]. split; [exact Hrec|]. split; [exact Hz|].
  split; [exact Hlen|]. split; [exact Hcs|].
  repeat split; assumption.
Qed.

(** X13: when the plant reports completion at the end of the first pass,
    the loop stops there whatever the horizon (of at least one step, their
    number fitting a C long): the episode holds the one sample of that pass
    and the terminal sample. *)
Theorem apply_controller_stops_when_plant_done (H_arg : option float)
    (random_controls : bool) (s : Learner) (ec : option CostEvaluator)
    (n : Z) :
  evaluate_cost s = Present ec ->
  (forall p, exists L, np_linalg_cholesky (plant_noise p) = Ok L) ->
  (forall p, Py.bind (truediv (horizon H_arg s) (plant_dt p)) int_ceil
             = Ok n) ->
  (1 <= n <= sys_maxint)%Z ->
  (forall p, plant_done p = true) ->
  exists s' ts xs us cs,
    apply_controller H_arg random_controls s = Ok s' /\
    recorded (experience s) (experience s') ts xs us cs /\
    List.length ts = 2%nat.
Proof.
  intros Hec Hchol Hsteps Hn Hdone.
  destruct (apply_controller_general H_arg random_controls s ec n
              Hec Hchol Hsteps Hn)
    as (s' & ts & xs & us & cs & u & k & Hrun & Hrec & _ & _ & _
        & _ & _ & _ & _ & _ & _ & _ & _ & Halways).
  exists s', ts, xs, (us ++ [u]), cs.
  split; [exact Hrun|]. split; [exact Hrec | apply Halways; exact Hdone].
Qed.

(** X14: on a plant that never reports completion, a rollout with horizon
    [H] and sample period [dt] stores [int(ceil(H/dt)) + 1] samples, for
    every [H] and [dt] that give at least one step and at most [sys.maxint]
    of them. *)
Theorem apply_controller_records_every_step (H_arg : option float)
    (random_controls : bool) (s : Learner) (ec : option CostEvaluator)
    (n : Z) :
  evaluate_cost s = Present ec ->
  (forall p, exists L, np_linalg_cholesky (plant_noise p) = Ok L) ->
  (forall p, Py.bind (truediv (horizon H_arg s) (plant_dt p)) int_ceil
             = Ok n) ->
  (1 <= n <= sys_maxint)%Z ->
  (forall p, plant_done p = false) ->
  exists s' ts xs us cs,
    apply_controller H_arg random_controls s = Ok s' /\
    recorded (experience s) (experience s') ts xs us cs /\
    Z.of_nat (List.length ts) = (n + 1)%Z.
Proof.
  intros Hec Hchol Hsteps Hn Hdone.
  destruct (apply_controller_general H_arg random_controls s ec n
              Hec Hchol Hsteps Hn)
    as (s' & ts & xs & us & cs & u & k & Hrun & Hrec & _ & _ & _
        & _ & _ & _ & _ & _ & _ & _ & Hnever & _).
  exists s', ts, xs, (us ++ [u]), cs.
  split; [exact Hrun|]. split; [exact Hrec|].
  rewrite (Hnever Hdone). lia.
Qed.

(** X15: a horizon that gives no step ([int(ceil(H/dt)) <= 0], and not
    below [-sys.maxint - 1], where [xrange] would refuse the count) makes
    [apply_controller] raise [NameError]: the loop body never runs, and the
    terminal sample needs the action [u_t] that only the body binds. *)
Theorem apply_controller_without_steps_raises (H_arg : option float)
    (random_controls : bool) (s : Learner) (n : Z) :
  (forall p, exists L, np_linalg_cholesky (plant_noise p) = Ok L) ->
  (forall p, Py.bind (truediv (horizon H_arg s) (plant_dt p)) int_ceil
             = Ok n) ->
  (- sys_maxint - 1 <= n <= 0)%Z ->
  apply_controller H_arg random_controls s = Raise NameError.
Proof.
  intros Hchol Hsteps Hn.
  unfold apply_controller, apply_controller_loop. fields.
  fold (horizon H_arg s).
  set (s1 := set_experience _ _).
  set (s2 := if async_plant s then _ else _).
  destruct (plant_get_state (plant s2)) as [[x0 t0] p]. fields.
  destruct (Hchol p) as [L HL]. rewrite HL. fields.
  destruct (randomize_state L x0 (set_plant p s2)) as [x0' s3].
  destruct (bind_ok_inv _ _ _ (Hsteps (plant s3))) as (q & Hq & Hceil).
  rewrite Hq. fields. rewrite Hceil. fields.
  rewrite (xrange_fits sys_maxint n) by (pose proof sys_maxint_min; lia).
  fields. replace (Z.to_nat n) with O by lia.
  reflexivity.
Qed.

End ApplyControllerExtras.

Lemma apply_controller_appends_one_episode_witness :
  exists s' ts,
    apply_controller (robot := Examples.noisy_plant) (Some one) true
                     (Examples.learner "adam") = Ok s' /\
    time_stamps (experience s') = [ts] /\
    episode_labels (experience s') = [0%Z] /\
    n_episodes s' = 1%Z.
Proof.
  destruct (apply_controller_appends_one_episode
              (robot := Examples.noisy_plant) (Some one) true
              (Examples.learner "adam") (Some Examples.a_cost) 10)
    as (s' & ts & xs & us & cs & u & k & Hrun & Hrec & _ & _ & _ & Hn & Hl
        & _).
  - reflexivity.
  - intros p. exists [[1%float]]. reflexivity.
  - intros p. vm_compute. reflexivity.
  - split; [lia | vm_compute; discriminate].
  - exists s', ts. destruct Hrec as (Ht & _).
    repeat split; assumption.
Defined.

Lemma apply_controller_stops_when_plant_done_witness :
  exists s' ts xs us cs,
    apply_controller (robot := MoreExamples.finished_plant) (Some one) false
                     MoreExamples.finished_learner = Ok s' /\
    recorded Examples.empty_experience (experience s') ts xs us cs /\
    List.length ts = 2%nat.
Proof.
  apply (apply_controller_stops_when_plant_done
           (robot := MoreExamples.finished_plant) (Some one) false
           MoreExamples.finished_learner (Some Examples.a_cost) 10).
  - reflexivity.
  - intros p. exists [[1%float]]. reflexivity.
  - intros p. vm_compute. reflexivity.
  - split; [lia | vm_compute; discriminate].
  - intros p. reflexivity.
Defined.

(** Half a second at [dt = 0.1]: five passes and the terminal sample. *)
Lemma apply_controller_records_every_step_witness :
  exists s' ts xs us cs,
    apply_controller (robot := Examples.noisy_plant) (Some 0.5%float) false
                     (Examples.learner "adam") = Ok s' /\
    recorded Examples.empty_experience (experience s') ts xs us cs /\
    Z.of_nat (List.length ts) = (5 + 1)%Z.
Proof.
  apply (apply_controller_records_every_step
           (robot := Examples.noisy_plant) (Some 0.5%float) false
           (Examples.learner "adam") (Some Examples.a_cost) 5).
  - reflexivity.
  - intros p. exists [[1%float]]. reflexivity.
  - intros p. vm_compute. reflexivity.
  - split; [lia | vm_compute; discriminate].
  - intros p. reflexivity.
Defined.

Lemma apply_controller_without_steps_witness :
  apply_controller (robot := Examples.noisy_plant) (Some 0%float) false
                   (Examples.learner "adam") = Raise NameError.
Proof.
  apply (apply_controller_without_steps_raises
           (robot := Examples.noisy_plant) (Some 0%float) false
           (Examples.learner "adam") 0).
  - intros p. exists [[1%float]]. reflexivity.
  - intros p. vm_compute. reflexivity.
  - split; [vm_compute; discriminate | lia].
Defined.

End LearnerExtras.

(** ** Further properties of the symbolic propagation and encoding *)

Module PDDPExtras.

Import PDDP.
Local Open Scope R_scope.

(** *** The upper-triangle encoding of the covariance *)

Lemma in_triu_indices (n i j : nat) :
  In (i, j) (triu_indices n) <-> (i <= j)%nat /\ (j < n)%nat.
Proof.
  unfold triu_indices. rewrite in_flat_map. split.
  - intros (a & Ha & Hin). apply in_map_iff in Hin as (b & Heq & Hb).
    inversion Heq; subst. apply in_seq in Ha, Hb. lia.
  - intros [Hij Hj]. exists i. split; [apply in_seq; lia|].
    apply in_map_iff. exists j. split; [reflexivity | apply in_seq; lia].
Qed.

Lemma NoDup_flat_map {A B : Type} (f : A -> list B) (l : list A) :
  NoDup l ->
  (forall a, In a l -> NoDup (f a)) ->
  (forall a b x, In a l -> In b l -> In x (f a) -> In x (f b) -> a = b) ->
  NoDup (flat_map f l).
Proof.
  induction 1 as [|a l Hnotin Hnd IH]; intros Hf Hdisj; simpl.
  - constructor.
  - apply NoDup_app.
    + apply Hf. left. reflexivity.
    + apply IH.
      * intros b Hb. apply Hf. right. exact Hb.
      * intros b c x Hb Hc. apply Hdisj; right; assumption.
    + intros x Hx Hx'. apply in_flat_map in Hx' as (b & Hb & Hxb).
      assert (a = b) by (apply (Hdisj a b x); auto using in_eq, in_cons).
      subst. contradiction.
Qed.

Lemma NoDup_map_pair (i : nat) (l : list nat) :
  NoDup l -> NoDup (map (fun j => (i, j)) l).
Proof.
  induction 1 as [|a l Hnotin Hnd IH]; simpl; constructor; [|exact IH].
  rewrite in_map_iff. intros (y & Heq & Hy).
  inversion Heq; subst. contradiction.
Qed.

Lemma NoDup_triu_indices (n : nat) : NoDup (triu_indices n).
Proof.
  unfold triu_indices. apply NoDup_flat_map.
  - apply seq_NoDup.
  - intros i _. apply NoDup_map_pair, seq_NoDup.
  - intros a b [i j] _ _ Ha Hb.
    apply in_map_iff in Ha as (x & Hx & _), Hb as (y & Hy & _).
    inversion Hx; inversion Hy; subst. congruence.
Qed.

Lemma pair_position_notin (ij : nat * nat) (l : list (nat * nat)) :
  ~ In ij l -> forall pos, pair_position ij l pos = None.
Proof.
  induction l as [|p rest IH]; intros Hnin pos; [reflexivity|].
  simpl. destruct ((fst p =? fst ij)%nat && (snd p =? snd ij)%nat)%bool eqn:E.
  - exfalso. apply Hnin. left.
    apply andb_true_iff in E as [E1 E2].
    apply Nat.eqb_eq in E1, E2. destruct p, ij; simpl in *; congruence.
  - apply IH. intros Hin. apply Hnin. right. exact Hin.
Qed.

Lemma pair_position_nth (l : list (nat * nat)) :
  NoDup l ->
  forall k pos, (k < List.length l)%nat ->
  pair_position (nth k l (O, O)) l pos = Some (pos + k)%nat.
Proof.
  induction 1 as [|p rest Hnotin Hnd IH]; intros k pos Hk;
    [simpl in Hk; lia|].
  destruct k as [|k]; simpl.
  - rewrite !Nat.eqb_refl. simpl. f_equal. lia.
  - simpl in Hk.
    destruct ((fst p =? fst (nth k rest (O, O)))%nat
              && (snd p =? snd (nth k rest (O, O)))%nat)%bool eqn:E.
    + exfalso. apply Hnotin.
      apply andb_true_iff in E as [E1 E2]. apply Nat.eqb_eq in E1, E2.
      replace p with (nth k rest (O, O)).
      * apply nth_In. lia.
      * destruct p, (nth k rest (O, O)); simpl in *; congruence.
    + rewrite IH by lia. f_equal. lia.
Qed.

(** An entry of the upper triangle comes from its own position in the
    vector; an entry below the diagonal is zero. *)
Lemma set_triu_upper (n : nat) (v : tvector) (i j : nat) :
  (i <= j)%nat -> (j < n)%nat ->
  exists k, (k < List.length (triu_indices n))%nat /\
            nth k (triu_indices n) (O, O) = (i, j) /\
            set_triu n v i j = v k.
Proof.
  intros Hij Hj.
  destruct (In_nth (triu_indices n) (i, j) (O, O)) as (k & Hk & Hnth).
  { apply in_triu_indices. lia. }
  exists k. split; [exact Hk|]. split; [exact Hnth|].
  unfold set_triu. rewrite <- Hnth.
  rewrite (pair_position_nth _ (NoDup_triu_indices n) k O Hk).
  reflexivity.
Qed.

Lemma set_triu_lower (n : nat) (v : tvector) (i j : nat) :
  (j < i)%nat -> set_triu n v i j = 0.
Proof.
  intros Hji. unfold set_triu.
  rewrite pair_position_notin; [reflexivity|].
  intros Hin. apply in_triu_indices in Hin. lia.
Qed.

Lemma unpack_covariance_entry (n : nat) (v : tvector) (i j : nat) :
  unpack_covariance n v i j
  = if (i <=? j)%nat then set_triu n v i j else set_triu n v j i.
Proof.
  unfold unpack_covariance, msub, madd, T, diag, diagonal.
  destruct (i <=? j)%nat eqn:E.
  - apply Nat.leb_le in E.
    destruct (i =? j)%nat eqn:E2.
    + apply Nat.eqb_eq in E2. subst. ring.
    + apply Nat.eqb_neq in E2. rewrite (set_triu_lower n v j i) by lia. ring.
  - apply Nat.leb_gt in E.
    destruct (i =? j)%nat eqn:E2; [apply Nat.eqb_eq in E2; lia|].
    rewrite (set_triu_lower n v i j) by lia. ring.
Qed.

(** X16: the covariance that [forward_pass] rebuilds from the state
    encoding and hands to [propagate_state] is symmetric, whatever the
    encoding holds. *)
Theorem unpack_covariance_symmetric (n : nat) (v : tvector) (i j : nat) :
  unpack_covariance n v i j = unpack_covariance n v j i.
Proof.
  rewrite !unpack_covariance_entry.
  destruct (i <=? j)%nat eqn:E1, (j <=? i)%nat eqn:E2; try reflexivity.
  - apply Nat.leb_le in E1, E2. replace j with i by lia. reflexivity.
  - apply Nat.leb_gt in E1, E2. lia.
Qed.

(** *** [propagate_state] *)

Lemma sum_upto_zero (n : nat) (f : nat -> R) :
  (forall k, f k = 0) -> sum_upto n f = 0.
Proof.
  intros Hf. induction n as [|n IH]; simpl; [reflexivity|].
  rewrite IH, Hf. ring.
Qed.

Section Propagation.
Context {model : Model}.

(** X19: when the cost parameters carry an 'R' entry, [propagate_state]
    raises [NameError]: the branch builds the weight with [T.constant], and
    the module binds the tensor library to the name [tt] only. *)
Theorem propagate_state_with_R_raises (mx : tvector) (Sx : tmatrix)
    (t : nat) (open_loop : bool) (Rm : tmatrix) :
  cost_params_R = Some Rm ->
  propagate_state mx Sx t open_loop = Raise NameError.
Proof.
  intros HR. unfold propagate_state. rewrite HR.
  destruct (gTrig2 mx Sx angle_idims D) as [[mxa Sxa] Ca].
  destruct (if open_loop then _ else _) as [[mu0 Su0] Cu].
  destruct (predict_symbolic _ _) as [[m_deltax S_deltax] C_deltax].
  destruct (cost mx Sx) as [mc Sc]. reflexivity.
Qed.

(** X20: without an 'R' entry the action term [mu.R.mu] is taken with a
    zero weight and vanishes: [propagate_state] returns, and the cost it
    reports is the mean and variance of the cost function at the previous
    state distribution, in open and in closed loop. *)
Theorem propagate_state_cost_without_R (mx : tvector) (Sx : tmatrix)
    (t : nat) (open_loop : bool) :
  cost_params_R = None ->
  exists out,
    propagate_state mx Sx t open_loop = Ok out /\
    mcost out = fst (cost mx Sx) /\
    Scost out = snd (cost mx Sx).
Proof.
  intros HR. unfold propagate_state. rewrite HR.
  destruct (gTrig2 mx Sx angle_idims D) as [[mxa Sxa] Ca].
  destruct (if open_loop then _ else _) as [[mu0 Su0] Cu].
  destruct (predict_symbolic _ _) as [[m_deltax S_deltax] C_deltax].
  destruct (cost mx Sx) as [mc Sc]. cbn [Py.bind].
  eexists. split; [reflexivity|]. cbn [mcost Scost fst snd].
  split; [|reflexivity].
  unfold dot_vv. rewrite sum_upto_zero; [ring|].
  intros k. unfold dot_vm. rewrite sum_upto_zero; [ring|].
  intros k'. unfold zeros. ring.
Qed.

End Propagation.

Lemma propagate_state_with_R_witness :
  propagate_state (model := MorePDDPExamples.weighted_model)
                  (fun _ => 0) eye O true = Raise NameError.
Proof.
  apply (propagate_state_with_R_raises
           (model := MorePDDPExamples.weighted_model)
           (fun _ => 0) eye O true eye).
  reflexivity.
Defined.

Lemma propagate_state_cost_without_R_witness :
  exists out,
    propagate_state (model := PDDPExamples.still_model)
                    (fun _ => 0) eye O false = Ok out /\
    mcost out = 0 /\ Scost out = 0.
Proof.
  apply (propagate_state_cost_without_R
           (model := PDDPExamples.still_model) (fun _ => 0) eye O false).
  reflexivity.
Defined.

End PDDPExtras.

(** ** Properties of the propagation and the forward pass at run time *)

Module PDDPEvalProofs.

Import PDDPEval.

(** Names the value of a call that occurs in the goal under convertible
    arguments. *)
Ltac name_call2 f :=
  match goal with
  | |- context [f ?a ?b] =>
      let v := fresh "r" in
      set (v := f a b);
      repeat match goal with
             | |- context [f ?a' ?b'] => change (f a' b') with v
             end;
      clearbody v
  end.

(** In exact arithmetic the model of this module and the symbolic one
    compute the same thing. *)
Lemma propagate_state_of_symbolic (m : PDDP.Model) (mx : PDDP.tvector)
    (Sx : PDDP.tmatrix) (t : nat) (open_loop : bool) :
  match PDDP.propagate_state mx Sx t open_loop,
        propagate_state (model := of_symbolic m) mx Sx t open_loop with
  | Ok a, Ok b =>
      PDDP.mcost a = mcost b /\ PDDP.Scost a = Scost b /\
      PDDP.mx_next a = mx_next b /\ PDDP.Sx_next a = Sx_next b /\
      PDDP.mu a = mu b /\ PDDP.Su a = Su b
  | Raise e, Raise e' => e = e'
  | _, _ => False
  end.
Proof.
  unfold PDDP.propagate_state, propagate_state, state_delta.
  cbn [of_symbolic cost_params_R gTrig2 D U angle_idims policy_evaluate
       predict_symbolic cost solve u_nominal logsn is_SSGP_or_BNN].
  destruct (PDDP.gTrig2 mx Sx PDDP.angle_idims PDDP.D) as [[mxa Sxa] Ca].
  destruct open_loop.
  - cbn [Py.bind]. name_call2 PDDP.predict_symbolic.
    destruct r as [[md Sd] Cd].
    destruct (PDDP.cost mx Sx), PDDP.cost_params_R, Ca;
      cbn; repeat split.
  - match goal with
    | |- context [PDDP.gTrig2 mx ?S ?a ?d] =>
        set (r0 := PDDP.gTrig2 mx S a d);
        repeat match goal with
               | |- context [PDDP.gTrig2 mx ?S' a d] =>
                   change (PDDP.gTrig2 mx S' a d) with r0
               end;
        clearbody r0
    end.
    destruct r0 as [[mxa_ Sxa_] Ca_]. cbn [Py.bind].
    destruct (PDDP.policy_evaluate mxa_ Sxa_ t) as [[mu0 Su0] Cu].
    name_call2 PDDP.predict_symbolic.
    destruct r as [[md Sd] Cd].
    destruct (PDDP.cost mx Sx), PDDP.cost_params_R, Ca;
      cbn; repeat split.
Qed.

Lemma forward_pass_of_symbolic (m : PDDP.Model) (t : nat)
    (z : PDDP.tvector) :
  match PDDP.forward_pass t z,
        forward_pass (model := of_symbolic m) t z with
  | Ok a, Ok b => a = b
  | Raise e, Raise e' => e = e'
  | _, _ => False
  end.
Proof.
  pose proof (propagate_state_of_symbolic m z
                (PDDP.unpack_covariance PDDP.D (fun k => z (k + PDDP.D)%nat))
                t true) as Hsame.
  unfold PDDP.forward_pass, forward_pass.
  match goal with
  | |- context [@propagate_state real ?md ?a ?b ?c ?d] =>
      change (@propagate_state real md a b c d)
        with (@propagate_state real (of_symbolic m) z
                (PDDP.unpack_covariance PDDP.D
                   (fun k => z (k + PDDP.D)%nat)) t true)
  end.
  destruct (PDDP.propagate_state z _ t true) as [a|e];
    destruct (@propagate_state real (of_symbolic m) z _ t true) as [b|e'];
    cbn [Py.bind]; try exact Hsame.
  destruct Hsame as (Hm & _ & Hmx & HSx & Hmu & _).
  change (PDDP.concat_v PDDP.D (PDDP.mx_next a)
            (PDDP.take_triu PDDP.D (PDDP.Sx_next a)),
          PDDP.mu a, PDDP.mcost a)
    with (concat_v (scalar := real) PDDP.D (PDDP.mx_next a)
            (take_triu (scalar := real) PDDP.D (PDDP.Sx_next a)),
          PDDP.mu a, PDDP.mcost a).
  rewrite Hm, Hmx, HSx, Hmu. reflexivity.
Qed.

Section NextDistribution.
Context {scalar : Scalar} {model : Model}.

(** The mean and the covariance of the change that [state_delta] returns
    are the ones the dynamics model reports; without angle dimensions the
    cross-covariance is the model's input-output covariance, as reported
    by a model of the SSGP or BNN kind and multiplied by the joint
    covariance otherwise. *)
Lemma state_delta_prediction (mx : tvector) (Sx : tmatrix) (t : nat)
    (open_loop : bool) (d : Delta) :
  state_delta mx Sx t open_loop = Ok d ->
  exists mxu Sxu C_deltax,
    predict_symbolic mxu Sxu = Ok (m_deltax d, S_deltax d, C_deltax) /\
    (snd (gTrig2 mx Sx angle_idims D) = None ->
     Sx_deltax d
     = if is_SSGP_or_BNN then C_deltax
       else dot_mm (D + List.length angle_idims + U) Sxu C_deltax).
Proof.
  unfold state_delta.
  destruct (gTrig2 mx Sx angle_idims D) as [[mxa Sxa] Ca].
  match goal with
  | |- context [Py.bind ?ctl _] => destruct ctl as [[[mu0 Su0] Cu]|]
  end; cbn [Py.bind]; [|discriminate].
  match goal with
  | |- context [predict_symbolic ?a ?b] =>
      destruct (predict_symbolic a b) as [[[md Sd] Cd]|] eqn:Hpred
  end; cbn [Py.bind]; [|discriminate].
  destruct Ca as [Ca|]; cbn [Py.bind].
  - match goal with
    | |- context [solve ?a ?b] => destruct (solve a b)
    end; cbn [Py.bind]; [|discriminate].
    intros Heq. inversion Heq. cbn [m_deltax S_deltax Sx_deltax snd].
    eexists. eexists. exists Cd. split; [exact Hpred | discriminate].
  - intros Heq. inversion Heq. cbn [m_deltax S_deltax Sx_deltax snd].
    eexists. eexists. exists Cd. split; [exact Hpred | reflexivity].
Qed.

(** C5 (amended): for a symmetric state covariance [Sx] and a symmetric
    model-reported delta covariance [S_deltax], with the steps before the
    composition and the cost returning and no 'R' entry in the cost
    parameters, [propagate_state] produces the next mean [mx + m_deltax]
    and the next covariance [((Sx + S_deltax) + Sx_deltax) + Sx_deltax^T],
    where [m_deltax] and [S_deltax] are what the dynamics model reports and
    [Sx_deltax] is the cross-covariance that lines 75-102 build from its
    third output.  Entries [(i, j)] and [(j, i)] of that covariance add
    the same four terms in two orders: they are the same wherever
    [Sx_deltax[i][j] = Sx_deltax[j][i]], the diagonal included, and
    everywhere in an arithmetic where the order of two successive
    additions does not matter, as in exact arithmetic. *)
Theorem propagate_state_next_distribution (mx : tvector) (Sx : tmatrix)
    (t : nat) (open_loop : bool) (d : Delta) (c : num * num) :
  cost_params_R = None ->
  state_delta mx Sx t open_loop = Ok d ->
  cost mx Sx = Ok c ->
  symmetric D Sx ->
  symmetric D (S_deltax d) ->
  exists out,
    propagate_state mx Sx t open_loop = Ok out /\
    mx_next out = vadd mx (m_deltax d) /\
    Sx_next out
    = madd (madd (madd Sx (S_deltax d)) (Sx_deltax d)) (T (Sx_deltax d)) /\
    (exists mxu Sxu C_deltax,
       predict_symbolic mxu Sxu = Ok (m_deltax d, S_deltax d, C_deltax) /\
       (snd (gTrig2 mx Sx angle_idims D) = None ->
        Sx_deltax d
        = if is_SSGP_or_BNN then C_deltax
          else dot_mm (D + List.length angle_idims + U) Sxu C_deltax)) /\
    (forall i j, (i < D)%nat -> (j < D)%nat ->
                 Sx_deltax d i j = Sx_deltax d j i ->
                 Sx_next out i j = Sx_next out j i) /\
    ((forall x y z : num, add (add x y) z = add (add x z) y) ->
     symmetric D (Sx_next out)).
Proof.
  intros HR Hd Hc HSx HSd.
  pose proof (state_delta_prediction _ _ _ _ _ Hd) as Hmodel.
  unfold propagate_state. rewrite HR, Hd, Hc. cbn [Py.bind].
  destruct c as [mc Sc].
  eexists. split; [reflexivity|]. cbn [mx_next Sx_next].
  split; [reflexivity|]. split; [reflexivity|].
  split; [exact Hmodel|].
  split.
  - intros i j Hi Hj Hx. unfold madd, T.
    rewrite (HSx i j Hi Hj), (HSd i j Hi Hj), Hx. reflexivity.
  - intros Hadd i j Hi Hj. unfold madd, T.
    rewrite (HSx i j Hi Hj), (HSd i j Hi Hj). apply Hadd.
Qed.

End NextDistribution.

Import PDDPEvalExamples.

Lemma two_by_two_symmetric (a b d : float) :
  symmetric (scalar := binary64) 2 (two_by_two a b b d).
Proof.
  intros i j Hi Hj.
  destruct i as [|[|i]], j as [|[|j]]; try lia; reflexivity.
Qed.

(** In binary64, with a symmetric state covariance and a symmetric delta
    covariance, the two entries off the diagonal of the next covariance
    differ in the last place: 0.5 + 0.05 + 0.1 + 0.2 is
    0.8500000000000001 and 0.5 + 0.05 + 0.2 + 0.1 is 0.85. *)
Lemma propagate_state_binary64_not_symmetric :
  symmetric (scalar := binary64) 2 Sx0 /\
  exists d out,
    state_delta (model := ssgp_like S_d0 C_skewed) mx0 Sx0 0 true = Ok d /\
    symmetric 2 (S_deltax d) /\
    propagate_state (model := ssgp_like S_d0 C_skewed) mx0 Sx0 0 true
    = Ok out /\
    Sx_next out 0%nat 1%nat = 0x1.b333333333334p-1%float /\
    Sx_next out 1%nat 0%nat = 0x1.b333333333333p-1%float /\
    PrimFloat.eqb (Sx_next out 0%nat 1%nat) (Sx_next out 1%nat 0%nat)
    = false /\
    ~ symmetric 2 (Sx_next out).
Proof.
  split; [apply two_by_two_symmetric|].
  eexists. eexists.
  split; [reflexivity|].
  split; [apply two_by_two_symmetric|].
  split; [reflexivity|].
  split; [vm_compute; reflexivity|].
  split; [vm_compute; reflexivity|].
  split; [vm_compute; reflexivity|].
  intros Hsym.
  pose proof (f_equal (fun x : float => PrimFloat.eqb x 0x1.b333333333333p-1)
                      (Hsym 0%nat 1%nat ltac:(cbn; lia) ltac:(cbn; lia))) as H.
  vm_compute in H. discriminate.
Qed.

(** The same run with a symmetric cross-covariance, and the still model of
    the symbolic development in exact arithmetic. *)
Lemma propagate_state_next_distribution_witness :
  (exists out,
     propagate_state (model := ssgp_like S_d0 C_even) mx0 Sx0 0 true
     = Ok out /\
     symmetric 2 (Sx_next out)) /\
  (exists out,
     propagate_state (model := of_symbolic PDDPExamples.still_model)
                     (fun _ => 0%R) PDDP.eye 0 false = Ok out /\
     symmetric 1 (Sx_next out)).
Proof.
  split.
  - destruct (propagate_state_next_distribution
                (model := ssgp_like S_d0 C_even) mx0 Sx0 0 true
                _ (0%float, 0%float) eq_refl eq_refl eq_refl
                (two_by_two_symmetric _ _ _) (two_by_two_symmetric _ _ _))
      as (out & Hrun & _ & _ & _ & Heven & _).
    exists out. split; [exact Hrun|].
    intros i j Hi Hj. apply Heven; [exact Hi | exact Hj |].
    apply (two_by_two_symmetric _ _ _ i j Hi Hj).
  - destruct (propagate_state_next_distribution
                (model := of_symbolic PDDPExamples.still_model)
                (fun _ => 0%R) PDDP.eye 0 false
                _ (0%R, 0%R) eq_refl eq_refl eq_refl)
      as (out & Hrun & _ & _ & _ & _ & Hexact).
    + intros i j Hi Hj. unfold PDDP.eye.
      rewrite (Nat.eqb_sym j i). reflexivity.
    + intros i j Hi Hj. cbn. unfold PDDP.eye.
      rewrite (Nat.eqb_sym j i). reflexivity.
    + exists out. split; [exact Hrun|].
      apply Hexact. intros x y z. cbn. ring.
Defined.

(** *** The upper-triangle encoding at run time *)

Section Encoding.
Context {scalar : Scalar}.

Lemma set_triu_at_upper (n : nat) (v : tvector) (i j : nat) :
  (i <= j)%nat -> (j < n)%nat ->
  exists k, (k < List.length (PDDP.triu_indices n))%nat /\
            nth k (PDDP.triu_indices n) (O, O) = (i, j) /\
            set_triu n v i j = v k.
Proof.
  intros Hij Hj.
  destruct (In_nth (PDDP.triu_indices n) (i, j) (O, O)) as (k & Hk & Hnth).
  { apply PDDPExtras.in_triu_indices. lia. }
  exists k. split; [exact Hk|]. split; [exact Hnth|].
  unfold set_triu. rewrite <- Hnth.
  rewrite (PDDPExtras.pair_position_nth
             _ (PDDPExtras.NoDup_triu_indices n) k O Hk).
  reflexivity.
Qed.

Lemma set_triu_at_lower (n : nat) (v : tvector) (i j : nat) :
  (j < i)%nat -> set_triu n v i j = zero.
Proof.
  intros Hji. unfold set_triu.
  rewrite PDDPExtras.pair_position_notin; [reflexivity|].
  intros Hin. apply PDDPExtras.in_triu_indices in Hin. lia.
Qed.

(** What the decoding of lines 173-176 holds at each place, in terms of
    the upper triangle it was given. *)
Lemma unpack_covariance_at (n : nat) (v : tvector) (i j : nat) :
  unpack_covariance n v i j
  = if (i =? j)%nat then rebuilt_diagonal (set_triu n v i i)
    else if (i <? j)%nat then rebuilt_above (set_triu n v i j)
         else rebuilt_below (set_triu n v j i).
Proof.
  unfold unpack_covariance, msub, madd, T, diag, diagonal,
    rebuilt_diagonal, rebuilt_above, rebuilt_below.
  destruct (i =? j)%nat eqn:E.
  - apply Nat.eqb_eq in E. subst. reflexivity.
  - apply Nat.eqb_neq in E. destruct (i <? j)%nat eqn:E2.
    + apply Nat.ltb_lt in E2.
      rewrite (set_triu_at_lower n v j i) by lia. reflexivity.
    + apply Nat.ltb_ge in E2.
      rewrite (set_triu_at_lower n v i j) by lia. reflexivity.
Qed.

Lemma unpack_covariance_pointwise (n : nat) (v w : tvector) :
  (forall k, v k = w k) ->
  forall i j, unpack_covariance n v i j = unpack_covariance n w i j.
Proof.
  intros Hvw i j. rewrite !unpack_covariance_at. unfold set_triu.
  destruct (i =? j)%nat; [|destruct (i <? j)%nat];
    match goal with
    | |- context [PDDP.pair_position ?a ?b ?c] =>
        destruct (PDDP.pair_position a b c)
    end; rewrite ?Hvw; reflexivity.
Qed.

(** Encoding any matrix and decoding it: only the upper triangle is
    read. *)
Lemma unpack_take_triu_at (n : nat) (A : tmatrix) (i j : nat) :
  (i < n)%nat -> (j < n)%nat ->
  unpack_covariance n (take_triu n A) i j
  = if (i =? j)%nat then rebuilt_diagonal (A i i)
    else if (i <? j)%nat then rebuilt_above (A i j)
         else rebuilt_below (A j i).
Proof.
  intros Hi Hj. rewrite unpack_covariance_at.
  destruct (i =? j)%nat eqn:E.
  - destruct (set_triu_at_upper n (take_triu n A) i i (le_n i) Hi)
      as (k & _ & Hnth & ->).
    unfold take_triu. rewrite Hnth. reflexivity.
  - apply Nat.eqb_neq in E. destruct (i <? j)%nat eqn:E2.
    + apply Nat.ltb_lt in E2.
      destruct (set_triu_at_upper n (take_triu n A) i j ltac:(lia) Hj)
        as (k & _ & Hnth & ->).
      unfold take_triu. rewrite Hnth. reflexivity.
    + apply Nat.ltb_ge in E2.
      destruct (set_triu_at_upper n (take_triu n A) j i ltac:(lia) Hi)
        as (k & _ & Hnth & ->).
      unfold take_triu. rewrite Hnth. reflexivity.
Qed.

(** X17: encoding a symmetric covariance as its upper triangle and
    decoding it the way [forward_pass] does puts at [(i, j)] what line 176
    rebuilds from the entry [S[i][j]]: [(x + 0) - 0] above the diagonal,
    [(0 + x) - 0] below it and [(x + x) - x] on it.  The entry comes back
    as it was wherever the three are [x] again. *)
Theorem unpack_take_triu_evaluated (n : nat) (S : tmatrix) (i j : nat) :
  symmetric n S -> (i < n)%nat -> (j < n)%nat ->
  unpack_covariance n (take_triu n S) i j
  = (if (i =? j)%nat then rebuilt_diagonal (S i j)
     else if (i <? j)%nat then rebuilt_above (S i j)
          else rebuilt_below (S i j)) /\
  (survives (S i j) -> unpack_covariance n (take_triu n S) i j = S i j).
Proof.
  intros Hsym Hi Hj.
  assert (Hat : unpack_covariance n (take_triu n S) i j
                = if (i =? j)%nat then rebuilt_diagonal (S i j)
                  else if (i <? j)%nat then rebuilt_above (S i j)
                       else rebuilt_below (S i j)).
  { rewrite (unpack_take_triu_at n S i j Hi Hj).
    destruct (i =? j)%nat eqn:E.
    - apply Nat.eqb_eq in E. subst. reflexivity.
    - destruct (i <? j)%nat; [reflexivity|].
      rewrite (Hsym j i Hj Hi). reflexivity. }
  split; [exact Hat|].
  intros (Ha & Hb & Hd). rewrite Hat.
  destruct (i =? j)%nat; [exact Hd|].
  destruct (i <? j)%nat; [exact Ha | exact Hb].
Qed.

(** X18: decoding an encoding and taking the upper triangle again puts at
    position [k] what line 176 rebuilds from [v[k]]: [(x + x) - x] where
    the position is on the diagonal and [(x + 0) - 0] elsewhere.  The
    entry comes back as it was wherever these are [x] again. *)
Theorem take_triu_unpack_evaluated (n : nat) (v : tvector) (k : nat) :
  (k < List.length (PDDP.triu_indices n))%nat ->
  take_triu n (unpack_covariance n v) k
  = (if (fst (nth k (PDDP.triu_indices n) (O, O))
         =? snd (nth k (PDDP.triu_indices n) (O, O)))%nat
     then rebuilt_diagonal (v k)
     else rebuilt_above (v k)) /\
  (survives (v k) -> take_triu n (unpack_covariance n v) k = v k).
Proof.
  intros Hk.
  assert (Hat : take_triu n (unpack_covariance n v) k
                = if (fst (nth k (PDDP.triu_indices n) (O, O))
                      =? snd (nth k (PDDP.triu_indices n) (O, O)))%nat
                  then rebuilt_diagonal (v k)
                  else rebuilt_above (v k)).
  { unfold take_triu.
    destruct (nth k (PDDP.triu_indices n) (O, O)) as [i j] eqn:Hnth.
    cbn [fst snd].
    assert (Hin : In (i, j) (PDDP.triu_indices n))
      by (rewrite <- Hnth; apply nth_In; exact Hk).
    apply PDDPExtras.in_triu_indices in Hin as [Hij Hj].
    assert (Hv : set_triu n v i j = v k).
    { unfold set_triu. rewrite <- Hnth.
      rewrite (PDDPExtras.pair_position_nth
                 _ (PDDPExtras.NoDup_triu_indices n) k O Hk).
      reflexivity. }
    rewrite unpack_covariance_at.
    destruct (i =? j)%nat eqn:E.
    - apply Nat.eqb_eq in E. subst j. rewrite Hv. reflexivity.
    - apply Nat.eqb_neq in E.
      replace (i <? j)%nat with true
        by (symmetry; apply Nat.ltb_lt; lia).
      rewrite Hv. reflexivity. }
  split; [exact Hat|].
  intros (Ha & _ & Hd). rewrite Hat.
  destruct (_ =? _)%nat; [exact Hd | exact Ha].
Qed.

End Encoding.

(** The covariance [Sx0] in binary64, below the diagonal. *)
Lemma unpack_take_triu_evaluated_witness :
  unpack_covariance (scalar := binary64) 2 (take_triu 2 Sx0) 1%nat 0%nat
  = 0x1p-1%float.
Proof.
  apply (unpack_take_triu_evaluated (scalar := binary64) 2 Sx0 1%nat 0%nat).
  - apply two_by_two_symmetric.
  - lia.
  - lia.
  - vm_compute. repeat split.
Defined.

Lemma take_triu_unpack_evaluated_witness :
  take_triu (scalar := binary64) 2
            (unpack_covariance 2 (fun k => z0 (k + 2)%nat)) 1%nat
  = 0x1p-1%float.
Proof.
  apply (take_triu_unpack_evaluated (scalar := binary64) 2
           (fun k => z0 (k + 2)%nat) 1%nat).
  - simpl. lia.
  - vm_compute. repeat split.
Defined.

(** In binary64 a variance of [2^1023] does not come back: [(x + x) - x]
    overflows. *)
Lemma unpack_covariance_binary64_overflow :
  unpack_covariance (scalar := binary64) 1 (take_triu 1 huge) 0%nat 0%nat
  = infinity /\
  ~ survives (scalar := binary64) 0x1p1023%float.
Proof.
  split; [vm_compute; reflexivity|].
  intros (_ & _ & Hd). vm_compute in Hd. discriminate.
Qed.

(** *** [forward_pass] at run time *)

Section ForwardPass.
Context {scalar : Scalar} {model : Model}.

(** In open loop the control is the nominal one, without covariance. *)
Lemma state_delta_open_loop (mx : tvector) (Sx : tmatrix) (t : nat)
    (d : Delta) :
  state_delta mx Sx t true = Ok d ->
  u_mean d = u_nominal t /\ u_cov d = zeros.
Proof.
  unfold state_delta.
  destruct (gTrig2 mx Sx angle_idims D) as [[mxa Sxa] Ca]. cbn [Py.bind].
  match goal with
  | |- context [predict_symbolic ?a ?b] =>
      destruct (predict_symbolic a b) as [[[md Sd] Cd]|]
  end; cbn [Py.bind]; [|discriminate].
  destruct Ca as [Ca|]; cbn [Py.bind].
  - match goal with
    | |- context [solve ?a ?b] => destruct (solve a b)
    end; cbn [Py.bind]; [|discriminate].
    intros Heq. inversion Heq. split; reflexivity.
  - intros Heq. inversion Heq. split; reflexivity.
Qed.

(** X21: one forward pass, with no 'R' entry in the cost parameters and
    the dynamics model and the cost returning.  [forward_pass] returns the
    nominal action [u_nominal[t]] and the cost mean of [propagate_state]
    at the decoded state distribution; the first [D] entries of [z_next]
    are the next mean [mx + m_deltax] and the entries after them are the
    upper triangle of the next covariance.  Decoding [z_next] as the next
    forward pass does gives, at [(i, j)] and at [(j, i)] alike, the entry
    of the upper triangle of the next covariance, wherever line 176
    rebuilds that entry as it was: what [propagate_state] put below the
    diagonal is not carried over. *)
Theorem forward_pass_next_encoding (t : nat) (z : tvector) (d : Delta)
    (c : num * num) :
  cost_params_R = None ->
  state_delta z (unpack_covariance D (fun k => z (k + D)%nat)) t true
  = Ok d ->
  cost z (unpack_covariance D (fun k => z (k + D)%nat)) = Ok c ->
  exists out z_next,
    propagate_state z (unpack_covariance D (fun k => z (k + D)%nat)) t true
    = Ok out /\
    forward_pass t z = Ok (z_next, u_nominal t, mcost out) /\
    (forall i, (i < D)%nat -> z_next i = add (z i) (m_deltax d i)) /\
    (forall k, z_next (k + D)%nat = take_triu D (Sx_next out) k) /\
    (forall i j, (i < D)%nat -> (j < D)%nat ->
       survives (Sx_next out (Nat.min i j) (Nat.max i j)) ->
       unpack_covariance D (fun k => z_next (k + D)%nat) i j
       = Sx_next out (Nat.min i j) (Nat.max i j)).
Proof.
  intros HR Hd Hc.
  destruct (state_delta_open_loop _ _ _ _ Hd) as [Hmu _].
  set (Sx := unpack_covariance D (fun k => z (k + D)%nat)) in *.
  assert (Hrun : exists out,
             propagate_state z Sx t true = Ok out /\
             mx_next out = vadd z (m_deltax d) /\
             mu out = u_nominal t).
  { unfold propagate_state. rewrite HR, Hd, Hc. cbn [Py.bind].
    destruct c as [mc Sc]. eexists. split; [reflexivity|].
    split; [reflexivity | exact Hmu]. }
  destruct Hrun as (out & Hrun & Hmx & Hmu').
  exists out.
  exists (concat_v D (mx_next out) (take_triu D (Sx_next out))).
  assert (Htail : forall k,
             concat_v D (mx_next out) (take_triu D (Sx_next out)) (k + D)%nat
             = take_triu D (Sx_next out) k).
  { intros k. unfold concat_v.
    replace (k + D <? D)%nat with false
      by (symmetry; apply Nat.ltb_ge; lia).
    rewrite Nat.add_sub. reflexivity. }
  split; [exact Hrun|].
  split.
  { unfold forward_pass. fold Sx. rewrite Hrun. cbn [Py.bind].
    rewrite Hmu'. reflexivity. }
  split.
  { intros i Hi. unfold concat_v.
    replace (i <? D)%nat with true by (symmetry; apply Nat.ltb_lt; exact Hi).
    rewrite Hmx. reflexivity. }
  split; [exact Htail|].
  intros i j Hi Hj (Ha & Hb & Hdg).
  rewrite (unpack_covariance_pointwise D _ _ Htail i j).
  rewrite (unpack_take_triu_at D (Sx_next out) i j Hi Hj).
  destruct (i =? j)%nat eqn:E.
  - apply Nat.eqb_eq in E. subst j.
    rewrite Nat.min_id, Nat.max_id in *. exact Hdg.
  - apply Nat.eqb_neq in E. destruct (i <? j)%nat eqn:E2.
    + apply Nat.ltb_lt in E2.
      rewrite Nat.min_l, Nat.max_r in * by lia. exact Ha.
    + apply Nat.ltb_ge in E2.
      rewrite Nat.min_r, Nat.max_l in * by lia. exact Hb.
Qed.

End ForwardPass.

(** The run whose next covariance is not symmetric: the next forward pass
    reads 0.8500000000000001 on both sides of the diagonal, where
    [propagate_state] had 0.85 below it. *)
Lemma forward_pass_next_encoding_witness :
  exists out z_next,
    forward_pass (model := ssgp_like S_d0 C_skewed) 0 z0
    = Ok (z_next, fun _ => 0%float, mcost out) /\
    Sx_next out 1%nat 0%nat = 0x1.b333333333333p-1%float /\
    unpack_covariance (scalar := binary64) 2
                      (fun k => z_next (k + 2)%nat) 1%nat 0%nat
    = 0x1.b333333333334p-1%float.
Proof.
  destruct (forward_pass_next_encoding
              (model := ssgp_like S_d0 C_skewed) 0 z0
              _ (0%float, 0%float) eq_refl eq_refl eq_refl)
    as (out & z_next & Hrun & Hfp & _ & _ & Hdec).
  exists out, z_next.
  vm_compute in Hrun. injection Hrun as <-.
  split; [exact Hfp|].
  split; [vm_compute; reflexivity|].
  refine (eq_trans (Hdec 1%nat 0%nat _ _ _) _).
  - cbn. lia.
  - cbn. lia.
  - vm_compute. repeat split.
  - vm_compute. reflexivity.
Defined.

End PDDPEvalProofs.
